(** * ONEPAGE: the share-link codec

    A shallow embedding of the code of the application component that turns
    a business card into a [?card=<token>] link and back:
    [compressAndEncode], [toUrlSafeBase64], [fromUrlSafeBase64],
    [decodeAndDecompress], the page-load handler [initializeApp] and the two
    sharing handlers [createAndShareLink] and [handleCopyShareLink].

    The browser's own functions (JSON, gzip streams, base64 data URLs) are a
    [Platform] the code is parameterised by; the laws the codec relies on are
    [PlatformLaws], and [model_platform] is a platform that obeys them.

    What the page shows of a received card is [renderReceivedCardModal]
    with the body of the component [CardPreview], as far as they can throw.

    The handlers of the same component that work on the saved cards and on
    the card in the editor ([handleSaveCard], [handleDeleteCard],
    [handleTogglePrivacy], [handleEditCard], the resets of the look,
    [handleGenerateBio], [handleDownload]) are in the module [Editor], over
    the API service and the browser as they answer.

    JavaScript strings are sequences of UTF-16 code units, and [String.length]
    counts code units, so a string is modelled as a list of code units. *)

From Equations Require Import Equations.
From Stdlib Require Import Ascii String List NArith ZArith Arith Lia Bool.
From Stdlib Require Import DecimalPos DecimalN.
Import ListNotations.

Set Implicit Arguments.

(** ** JavaScript strings *)

Definition code_unit := N.
Definition jsstring := list code_unit.

Definition ch (a : ascii) : code_unit := N_of_ascii a.

(** An ASCII literal as a JavaScript string. *)
Definition js (s : string) : jsstring := map ch (list_ascii_of_string s).

Definition c_plus : code_unit := ch "+".
Definition c_slash : code_unit := ch "/".
Definition c_equals : code_unit := ch "=".
Definition c_minus : code_unit := ch "-".
Definition c_underscore : code_unit := ch "_".
Definition c_comma : code_unit := ch ",".

(** [s === t] *)
Fixpoint jsstring_eqb (s t : jsstring) : bool :=
  match s, t with
  | [], [] => true
  | c :: s', d :: t' => N.eqb c d && jsstring_eqb s' t'
  | _, _ => false
  end.

(** [s.replace(/c/g, d)] for a one-character pattern and a one-character
    replacement. *)
Definition replace_all (c d : code_unit) (s : jsstring) : jsstring :=
  map (fun x => if N.eqb x c then d else x) s.

(** [s.replace(/c/g, '')]. *)
Definition remove_all (c : code_unit) (s : jsstring) : jsstring :=
  filter (fun x => negb (N.eqb x c)) s.

(** ** The URL-safe alphabet transforms *)

(** [base64.replace(/\+/g, '-').replace(/\//g, '_').replace(/=/g, '')] *)
Definition toUrlSafeBase64 (base64 : jsstring) : jsstring :=
  remove_all c_equals (replace_all c_slash c_underscore (replace_all c_plus c_minus base64)).

(** [base64.length % 4], the test of the padding loop. *)
Definition length_mod_4 (s : jsstring) : nat := length s mod 4.

(** How many characters are missing to the next multiple of four: the
    quantity that decreases along the padding loop. *)
Definition to_go (s : jsstring) : nat := (4 - length_mod_4 s) mod 4.

Lemma length_mod_4_lt s : length_mod_4 s < 4.
Proof. unfold length_mod_4. apply Nat.mod_upper_bound. lia. Qed.

Lemma length_mod_4_snoc s c :
  length_mod_4 (s ++ [c]) = (length_mod_4 s + 1) mod 4.
Proof.
  unfold length_mod_4. rewrite length_app. simpl length.
  rewrite (Nat.Div0.add_mod (length s) 1 4). reflexivity.
Qed.

Lemma to_go_snoc s c :
  length_mod_4 s <> 0 -> to_go (s ++ [c]) < to_go s.
Proof.
  intros H. unfold to_go. rewrite length_mod_4_snoc.
  pose proof (length_mod_4_lt s) as Hlt.
  destruct (length_mod_4 s) as [|[|[|[|k]]]]; [lia| | | |lia]; cbn; lia.
Qed.

Arguments length_mod_4 : simpl never.
Arguments to_go : simpl never.

(** [while (base64.length % 4) { base64 += '='; }] *)
Equations? pad_loop (base64 : jsstring) : jsstring
  by wf (to_go base64) lt :=
  pad_loop base64 with Nat.eq_dec (length_mod_4 base64) 0 => {
    | left _ := base64;
    | right H := pad_loop (base64 ++ [c_equals]) }.
Proof. apply to_go_snoc. exact H. Qed.

(** The same loop, counting how many times its body runs. *)
Equations? pad_loop_iterations (base64 : jsstring) : nat
  by wf (to_go base64) lt :=
  pad_loop_iterations base64 with Nat.eq_dec (length_mod_4 base64) 0 => {
    | left _ := 0;
    | right H := S (pad_loop_iterations (base64 ++ [c_equals])) }.
Proof. apply to_go_snoc. exact H. Qed.

(** [safeBase64.replace(/-/g, '+').replace(/_/g, '/')], then the padding
    loop. *)
Definition fromUrlSafeBase64 (safeBase64 : jsstring) : jsstring :=
  pad_loop (replace_all c_underscore c_slash (replace_all c_minus c_plus safeBase64)).

Example toUrlSafeBase64_ex :
  toUrlSafeBase64 (js "ab+/cQ==") = js "ab-_cQ".
Proof. reflexivity. Qed.

Example fromUrlSafeBase64_ex :
  fromUrlSafeBase64 (js "ab-_cQ") = js "ab+/cQ==".
Proof. reflexivity. Qed.

(** ** Standard base64 strings *)

(** The 64 characters of the standard alphabet: [A-Z], [a-z], [0-9], [+]
    and [/]. *)
Definition is_base64_char (c : code_unit) : bool :=
  ((65 <=? c) && (c <=? 90) || (97 <=? c) && (c <=? 122) ||
   (48 <=? c) && (c <=? 57) || (c =? c_plus) || (c =? c_slash))%N.

(** A standard base64 string: characters of the alphabet, then at most two
    [=], the whole a multiple of four long. *)
Definition standard_base64 (b : jsstring) : Prop :=
  exists body pad,
    b = body ++ repeat c_equals pad /\
    forallb is_base64_char body = true /\
    pad <= 2 /\
    length b mod 4 = 0.

(** ** JavaScript values

    The values that [JSON.stringify] writes and [JSON.parse] builds. Numbers
    are whole numbers here. The font sizes and weights of a card are, and so
    is the geometry of a medium that was not uploaded ([aspectRatio: 1]);
    the ratio [width / height] that the uploader computes for a picture is
    a fraction in general and is outside this model, and a statement that
    depends on the numbers of a card says so. An object is the list of its
    own properties in enumeration order. *)

Unset Elimination Schemes.
Inductive jsval : Type :=
| JNull
| JBool (b : bool)
| JNumber (n : Z)
| JString (s : jsstring)
| JArray (items : list jsval)
| JObject (props : list (jsstring * jsval)).
Set Elimination Schemes.

(** The result of reading a property: [None] is [undefined]. *)
Fixpoint lookup (key : jsstring) (props : list (jsstring * jsval)) : option jsval :=
  match props with
  | [] => None
  | (k, v) :: rest => if jsstring_eqb k key then Some v else lookup key rest
  end.

(** The own property names of an object. *)
Definition keys (props : list (jsstring * jsval)) : list jsstring := map fst props.

(** ToBoolean: [null], [false], [0] and the empty string are falsy, every
    other value (every object and array included) is truthy. *)
Definition truthy (v : jsval) : bool :=
  match v with
  | JNull => false
  | JBool b => b
  | JNumber n => negb (Z.eqb n 0)
  | JString s => negb (Nat.eqb (length s) 0)
  | JArray _ => true
  | JObject _ => true
  end.

(** ToBoolean of a value that may be [undefined]. *)
Definition truthy_opt (v : option jsval) : bool :=
  match v with
  | None => false
  | Some v => truthy v
  end.

(** ** The card types of types.ts *)

Module SocialLink.
Record t := { id : jsstring; platform : jsstring; url : jsstring }.
Definition to_value (l : t) : jsval :=
  JObject [(js "id", JString (id l)); (js "platform", JString (platform l));
           (js "url", JString (url l))].
End SocialLink.

Module ContactInfo.
Inductive kind := phone | email | website | address | youtube.
Definition kind_name (k : kind) : jsstring :=
  match k with
  | phone => js "phone"
  | email => js "email"
  | website => js "website"
  | address => js "address"
  | youtube => js "youtube"
  end.
Record t := { id : jsstring; type : kind; value : jsstring }.
Definition to_value (c : t) : jsval :=
  JObject [(js "id", JString (id c)); (js "type", JString (kind_name (type c)));
           (js "value", JString (value c))].
End ContactInfo.

Module CareerEntry.
Record t := {
  id : jsstring;
  title : jsstring;
  company : jsstring;
  startDate : jsstring;
  endDate : jsstring;
  description : jsstring }.
Definition to_value (e : t) : jsval :=
  JObject [(js "id", JString (id e)); (js "title", JString (title e));
           (js "company", JString (company e));
           (js "startDate", JString (startDate e));
           (js "endDate", JString (endDate e));
           (js "description", JString (description e))].
End CareerEntry.

Module ThemeColors.
Record t := {
  background : jsstring;
  text : jsstring;
  primary : jsstring;
  accent : jsstring }.
Definition to_value (c : t) : jsval :=
  JObject [(js "background", JString (background c)); (js "text", JString (text c));
           (js "primary", JString (primary c)); (js "accent", JString (accent c))].
End ThemeColors.

(** [Media], with whole numbers for [aspectRatio], [zoom] and [position]
    (see above). *)
Module Media.
Record t := {
  src : jsstring;
  aspectRatio : Z;
  zoom : option Z;
  position : option (Z * Z) }.
(** A property whose value is [undefined] is left out by [JSON.stringify]. *)
Definition to_value (m : t) : jsval :=
  JObject ([(js "src", JString (src m)); (js "aspectRatio", JNumber (aspectRatio m))]
           ++ match zoom m with
              | Some z => [(js "zoom", JNumber z)]
              | None => []
              end
           ++ match position m with
              | Some (x, y) =>
                  [(js "position", JObject [(js "x", JNumber x); (js "y", JNumber y)])]
              | None => []
              end).
End Media.

Module BusinessCardData.
Inductive layout_kind := classic | modern | minimalist | banner_focus.
Definition layout_name (l : layout_kind) : jsstring :=
  match l with
  | classic => js "classic"
  | modern => js "modern"
  | minimalist => js "minimalist"
  | banner_focus => js "banner-focus"
  end.
Record t := {
  profilePicture : Media.t;
  bannerImage : Media.t;
  name : jsstring;
  title : jsstring;
  company : jsstring;
  bio : jsstring;
  contactInfo : list ContactInfo.t;
  socialLinks : list SocialLink.t;
  careerHistory : list CareerEntry.t;
  fontFamily : jsstring;
  nameFontSize : Z;
  nameFontWeight : Z;
  nameFontColor : jsstring;
  titleFontSize : Z;
  titleFontWeight : Z;
  titleFontColor : jsstring;
  companyFontSize : Z;
  companyFontWeight : Z;
  companyFontColor : jsstring;
  baseFontSize : Z;
  baseFontWeight : Z;
  baseFontColor : jsstring;
  layout : layout_kind }.
(** The whole card as the object the application holds. Its properties
    are enumerated in the order in which [getDefaultCardData] writes them,
    [bannerImage] first: every card of the application starts as that
    object, the updates of the editor ([{ ...prev, [field]: value }]) keep
    the order, and so does the JSON text in which saved cards are stored. *)
Definition to_value (d : t) : jsval :=
  JObject [
    (js "bannerImage", Media.to_value (bannerImage d));
    (js "profilePicture", Media.to_value (profilePicture d));
    (js "name", JString (name d));
    (js "title", JString (title d));
    (js "company", JString (company d));
    (js "bio", JString (bio d));
    (js "contactInfo", JArray (map ContactInfo.to_value (contactInfo d)));
    (js "socialLinks", JArray (map SocialLink.to_value (socialLinks d)));
    (js "careerHistory", JArray (map CareerEntry.to_value (careerHistory d)));
    (js "fontFamily", JString (fontFamily d));
    (js "nameFontSize", JNumber (nameFontSize d));
    (js "nameFontWeight", JNumber (nameFontWeight d));
    (js "nameFontColor", JString (nameFontColor d));
    (js "titleFontSize", JNumber (titleFontSize d));
    (js "titleFontWeight", JNumber (titleFontWeight d));
    (js "titleFontColor", JString (titleFontColor d));
    (js "companyFontSize", JNumber (companyFontSize d));
    (js "companyFontWeight", JNumber (companyFontWeight d));
    (js "companyFontColor", JString (companyFontColor d));
    (js "baseFontSize", JNumber (baseFontSize d));
    (js "baseFontWeight", JNumber (baseFontWeight d));
    (js "baseFontColor", JString (baseFontColor d));
    (js "layout", JString (layout_name (layout d)))].
End BusinessCardData.

Module SavedCard.
Record t := {
  id : jsstring;
  cardData : BusinessCardData.t;
  theme : ThemeColors.t;
  thumbnail : jsstring;
  isPublic : bool }.
End SavedCard.

(** [{ cardData: BusinessCardData, theme: ThemeColors }], the argument of
    [createAndShareLink] and the result of [getDataForSharing]. *)
Module DataToShare.
Record t := { cardData : BusinessCardData.t; theme : ThemeColors.t }.
(** The object as it is, every property of the card included. *)
Definition to_value (d : t) : jsval :=
  JObject [(js "cardData", BusinessCardData.to_value (cardData d));
           (js "theme", ThemeColors.to_value (theme d))].
End DataToShare.

(** The object literal [simplifiedData] of [createAndShareLink]: seven
    properties of the card, and the theme. *)
Definition simplifiedData (dataToShare : DataToShare.t) : jsval :=
  let cardData := DataToShare.cardData dataToShare in
  JObject [
    (js "cardData", JObject [
      (js "name", JString (BusinessCardData.name cardData));
      (js "title", JString (BusinessCardData.title cardData));
      (js "company", JString (BusinessCardData.company cardData));
      (js "bio", JString (BusinessCardData.bio cardData));
      (js "contactInfo",
         JArray (map ContactInfo.to_value (BusinessCardData.contactInfo cardData)));
      (js "socialLinks",
         JArray (map SocialLink.to_value (BusinessCardData.socialLinks cardData)));
      (js "careerHistory",
         JArray (map CareerEntry.to_value (BusinessCardData.careerHistory cardData)))]);
    (js "theme", ThemeColors.to_value (DataToShare.theme dataToShare))].


(** ** Errors, effects and the handlers' monad *)

(** What a [throw] or a rejected promise carries. *)
Inductive exception :=
| TypeError
| SyntaxError
| Error (message : jsstring)
| DOMException.

(** The outcome of a call or of an awaited promise. *)
Inductive result (A : Type) :=
| Ok (a : A)
| Throw (e : exception).
Arguments Ok {A} a.
Arguments Throw {A} e.

(** The argument of [navigator.share] and [navigator.canShare]. *)
Record ShareData := { title : jsstring; text : jsstring; url : jsstring }.

(** What a handler does to the page and to the browser, in order. *)
Inductive event :=
| console_error (message : jsstring)
| console_warn (message : jsstring)
| console_log (message : jsstring)
| alert (message : jsstring)
| history_replaceState_pathname
| navigator_share (data : ShareData)
| clipboard_writeText (data : jsstring)
| setReceivedCard (data : jsval)
| setExportMessage (message : jsstring)
| setIsExporting (b : bool)
| setCopySuccess (b : bool)
| setTimeout_setCopySuccess_false
| setCurrentUser_null
| setIsAdmin (b : bool)
| Kakao_init
| setIsKakaoSdkReady (b : bool)
| setCompanyInfo (info : jsval)
| setIsLoadingApp (b : bool).

(** An [async] function body: the events it produced and how it ended. *)
Definition io (A : Type) : Type := list event * result A.

Definition ret {A} (a : A) : io A := ([], Ok a).
Definition throw {A} (e : exception) : io A := ([], Throw e).
Definition emit (e : event) : io unit := ([e], Ok tt).
Definition await {A} (r : result A) : io A := ([], r).

Definition bind {A B} (m : io A) (k : A -> io B) : io B :=
  match m with
  | (tr, Ok a) => let (tr', r) := k a in (tr ++ tr', r)
  | (tr, Throw e) => (tr, Throw e)
  end.

(** [try { body } catch (error) { handler }] *)
Definition try_catch {A} (body : io A) (handler : exception -> io A) : io A :=
  match body with
  | (tr, Ok a) => (tr, Ok a)
  | (tr, Throw e) => let (tr', r) := handler e in (tr ++ tr', r)
  end.

(** [try { body } finally { cleanup }] with a [cleanup] that does not throw. *)
Definition try_finally {A} (body : io A) (cleanup : io unit) : io A :=
  match body, cleanup with
  | (tr, r), (tr', Ok _) => (tr ++ tr', r)
  | (tr, _), (tr', Throw e) => (tr ++ tr', Throw e)
  end.

Declare Scope io_scope.
Delimit Scope io_scope with io.
Notation "x <- m ;; k" := (bind m (fun x => k))
  (at level 61, m at next level, right associativity) : io_scope.
Notation "m ;; k" := (bind m (fun _ => k))
  (at level 61, right associativity) : io_scope.

Definition trace {A} (m : io A) : list event := fst m.
Definition outcome {A} (m : io A) : result A := snd m.

(** ** The platform

    Everything the codec calls and does not define: [JSON], [Blob] and its
    UTF-8 text, the gzip streams, [FileReader.readAsDataURL], [fetch] of a
    [data:] URL, and [URLSearchParams]. [None] stands for the error the
    platform raises ([JSON.parse]: a [SyntaxError]; the streams and [fetch]:
    a [TypeError]). *)
Record Platform := {
  JSON_stringify : jsval -> jsstring;
  JSON_parse : jsstring -> option jsval;
  utf8_encode : jsstring -> list Byte.byte;
  utf8_decode : list Byte.byte -> jsstring;
  gzip : list Byte.byte -> list Byte.byte;
  gunzip : list Byte.byte -> option (list Byte.byte);
  readAsDataURL : list Byte.byte -> jsstring;
  fetch_data_url : jsstring -> option (list Byte.byte);
  URLSearchParams_get : jsstring -> jsstring -> option jsstring }.

(** [navigator]: whether [share] and [canShare] exist, what [canShare]
    answers, and how [share] and [clipboard.writeText] end. *)
Record Navigator := {
  has_share : bool;
  has_canShare : bool;
  canShare : ShareData -> bool;
  share : ShareData -> result unit;
  writeText : jsstring -> result unit }.

(** [window.location] *)
Record Location := {
  protocol : jsstring;
  host : jsstring;
  pathname : jsstring;
  search : jsstring }.

(** ** The codec *)

(** [s.split(sep)] for a one-character separator: the pieces between the
    separators, at least one. *)
Fixpoint split (sep : code_unit) (s : jsstring) : list jsstring :=
  match s with
  | [] => [[]]
  | c :: rest =>
      if N.eqb c sep then [] :: split sep rest
      else match split sep rest with
           | piece :: pieces => (c :: piece) :: pieces
           | [] => [[c]]
           end
  end.

(** [s.split(sep, limit)] *)
Definition split_limit (sep : code_unit) (limit : nat) (s : jsstring) : list jsstring :=
  firstn limit (split sep s).

(** [compressAndEncode]: the JSON text of [data], gzip-compressed, read as a
    data URL, of which the part after the first comma is returned.
    [None] is [undefined], what [[1]] gives when there is no comma. *)
Definition compressAndEncode (P : Platform) (data : jsval) : option jsstring :=
  let jsonString := JSON_stringify P data in
  let compressedBlob := gzip P (utf8_encode P jsonString) in
  let dataUrl := readAsDataURL P compressedBlob in
  nth_error (split_limit c_comma 2 dataUrl) 1.

(** [decodeAndDecompress]: fetch the base64 as a [data:] URL, gunzip, read
    as text, parse as JSON. Each of [fetch], the stream and [JSON.parse] can
    reject. *)
Definition decodeAndDecompress (P : Platform) (base64 : jsstring) : result jsval :=
  match fetch_data_url P (js "data:application/octet-stream;base64," ++ base64) with
  | None => Throw TypeError
  | Some compressedBlob =>
      match gunzip P compressedBlob with
      | None => Throw TypeError
      | Some decompressedBlob =>
          let jsonString := utf8_decode P decompressedBlob in
          match JSON_parse P jsonString with
          | None => Throw SyntaxError
          | Some data => Ok data
          end
      end
  end.

(** [toUrlSafeBase64(encodedData)] where [encodedData] may be [undefined]:
    calling [.replace] on [undefined] throws a [TypeError]. *)
Definition toUrlSafeBase64_of (encodedData : option jsstring) : result jsstring :=
  match encodedData with
  | Some base64 => Ok (toUrlSafeBase64 base64)
  | None => Throw TypeError
  end.

(** [data.key]: reading a property of [null] throws a [TypeError]; an object
    gives its property or [undefined]; an array, string, number or boolean
    gives [undefined] for a name that is not on its prototype, as is the
    case of the two names read here, [cardData] and [theme]. *)
Definition get_property (data : jsval) (key : jsstring) : result (option jsval) :=
  match data with
  | JNull => Throw TypeError
  | JObject props => Ok (lookup key props)
  | _ => Ok None
  end.

(** ** Page load *)

Definition invalid_link_notice : jsstring :=
  js "The shared card link seems to be invalid or corrupted.".

(** The body of the [try] in [initializeApp]. *)
Definition processSharedCard (P : Platform) (cardDataParam : jsstring) : io unit :=
  (let standardBase64 := fromUrlSafeBase64 cardDataParam in
   data <- await (decodeAndDecompress P standardBase64) ;;
   cardData <- await (get_property data (js "cardData")) ;;
   if truthy_opt cardData then
     theme <- await (get_property data (js "theme")) ;;
     if truthy_opt theme then emit (setReceivedCard data)
     else throw (Error (js "Invalid card data structure"))
   else throw (Error (js "Invalid card data structure")))%io.

(** The [catch] of [initializeApp]. *)
Definition rejectSharedCard (error : exception) : io unit :=
  (emit (console_error (js "Failed to process shared card data:")) ;;
   emit (alert invalid_link_notice) ;;
   emit history_replaceState_pathname)%io.

(** The first block of [initializeApp] ("Handle incoming card first, before
    anything else"): [if (cardDataParam) { try { ... } catch { ... } }]. The
    test is false for a missing parameter and for an empty one. *)
Definition handleIncomingCard (P : Platform) (location : Location) : io unit :=
  match URLSearchParams_get P (search location) (js "card") with
  | Some (c :: rest) =>
      try_catch (processSharedCard P (c :: rest)) rejectSharedCard
  | Some [] => ret tt
  | None => ret tt
  end.

(** What the rest of [initializeApp] reads: whether [window.Kakao] and the
    app key are there, whether the SDK is initialised already, and the
    answer of [api.getCompanyInfo]. *)
Record Startup := {
  kakao_available : bool;
  kakao_isInitialized : bool;
  getCompanyInfo : result jsval }.

Definition initializeApp (P : Platform) (env : Startup) (location : Location) : io unit :=
  (handleIncomingCard P location ;;
   emit setCurrentUser_null ;;
   emit (setIsAdmin false) ;;
   (if kakao_available env then
      if kakao_isInitialized env then ret tt
      else emit Kakao_init ;; emit (setIsKakaoSdkReady true)
    else ret tt) ;;
   info <- await (getCompanyInfo env) ;;
   emit (setCompanyInfo info) ;;
   emit (setIsLoadingApp false))%io.

(** The page as far as a shared link is concerned: its address and the
    [receivedCard] state. *)
Record Page := { location : Location; receivedCard : option jsval }.

(** [window.history.replaceState({}, document.title, window.location.pathname)]
    leaves the path and drops the query string. *)
Definition apply_event (e : event) (page : Page) : Page :=
  match e with
  | history_replaceState_pathname =>
      {| location := {| protocol := protocol (location page);
                        host := host (location page);
                        pathname := pathname (location page);
                        search := [] |};
         receivedCard := receivedCard page |}
  | setReceivedCard data =>
      {| location := location page; receivedCard := Some data |}
  | _ => page
  end.

Definition apply_events (events : list event) (page : Page) : Page :=
  fold_left (fun p e => apply_event e p) events page.

(** ** The received card on the screen

    Once [receivedCard] is set, the component draws the modal of
    [renderReceivedCardModal] in each of its views, and React calls
    [CardPreview] on [receivedCard.cardData] and [receivedCard.theme]. No
    error boundary is around it: an error thrown while [CardPreview] runs is
    the end of the render. Below is what the body of [CardPreview] evaluates
    that can throw, in the order of the source; the components it places
    ([MediaDisplay], [SharedContent], [AspectRatioContainer]) run after it
    and are not part of it. *)

(** Sequencing of evaluations that can throw. *)
Definition and_then {A B} (r : result A) (k : A -> result B) : result B :=
  match r with
  | Ok a => k a
  | Throw e => Throw e
  end.

Notation "'let?' x := r 'in' k" := (and_then r (fun x => k))
  (at level 10, x name, r at level 100, k at level 200).

(** [v.key] for a value that may be [undefined]: a [TypeError] on
    [undefined] and on [null]. *)
Definition read (v : option jsval) (key : jsstring) : result (option jsval) :=
  match v with
  | Some data => get_property data key
  | None => Throw TypeError
  end.

(** Whether [String(v)] returns. An object built by [JSON.parse] inherits
    [toString] from [Object.prototype], unless it has a property of that
    name: its value is not a function, and the conversion throws. An array
    joins the strings of its elements. *)
Fixpoint has_string (v : jsval) : bool :=
  match v with
  | JObject props =>
      match lookup (js "toString") props with
      | Some _ => false
      | None => true
      end
  | JArray items => forallb has_string items
  | _ => true
  end.

(** The template literal [`${v}px`]. *)
Definition template_px (v : option jsval) : result unit :=
  match v with
  | Some x => if has_string x then Ok tt else Throw TypeError
  | None => Ok tt
  end.

(** [switch (layout)]: the layout named by the string, [classic] for
    anything else. *)
Definition layout_of (layout : option jsval) : BusinessCardData.layout_kind :=
  match layout with
  | Some (JString s) =>
      if jsstring_eqb s (js "modern") then BusinessCardData.modern
      else if jsstring_eqb s (js "minimalist") then BusinessCardData.minimalist
      else if jsstring_eqb s (js "banner-focus") then BusinessCardData.banner_focus
      else BusinessCardData.classic
  | _ => BusinessCardData.classic
  end.

(** The body of [CardPreview]: the destructuring of [data] (of its twenty
    names, the six that the expressions below use), the two style objects,
    and the layout, whose JSX reads [theme.accent], [theme.background] and
    [bannerImage.aspectRatio] and writes the three font sizes of the
    heading. [Ok tt]: the body returned its element. *)
Definition CardPreview (data theme : option jsval) : result unit :=
  let? bannerImage := read data (js "bannerImage") in
  let? nameFontSize := read data (js "nameFontSize") in
  let? titleFontSize := read data (js "titleFontSize") in
  let? companyFontSize := read data (js "companyFontSize") in
  let? baseFontSize := read data (js "baseFontSize") in
  let? layout := read data (js "layout") in
  let? _ := template_px baseFontSize in
  let? _ := read theme (js "background") in
  let heading :=
    let? _ := template_px nameFontSize in
    let? _ := template_px titleFontSize in
    template_px companyFontSize in
  match layout_of layout with
  | BusinessCardData.modern =>
      let? _ := read theme (js "accent") in
      let? _ := read theme (js "accent") in
      let? _ := heading in
      let? _ := read bannerImage (js "aspectRatio") in
      Ok tt
  | BusinessCardData.minimalist => heading
  | BusinessCardData.banner_focus =>
      let? _ := read bannerImage (js "aspectRatio") in
      let? _ := read theme (js "background") in
      let? _ := read theme (js "accent") in
      heading
  | BusinessCardData.classic =>
      let? _ := read theme (js "accent") in
      let? _ := read bannerImage (js "aspectRatio") in
      let? _ := read theme (js "background") in
      let? _ := read theme (js "accent") in
      heading
  end.

(** [renderReceivedCardModal], with the call of [CardPreview] that React
    makes for its element: [Ok false] when there is no received card and no
    modal, [Ok true] when the body of [CardPreview] returned. *)
Definition renderReceivedCardModal (receivedCard : option jsval) : result bool :=
  match receivedCard with
  | Some card =>
      if truthy card then
        let? data := get_property card (js "cardData") in
        let? theme := get_property card (js "theme") in
        let? _ := CardPreview data theme in
        Ok true
      else Ok false
  | None => Ok false
  end.


(** ** Sharing *)

(** What the sharing handlers read of the component state. *)
Record AppState := {
  cardData : BusinessCardData.t;
  theme : ThemeColors.t;
  savedCards : list SavedCard.t;
  editingCardId : option jsstring }.

(** [getDataForSharing]: the saved card being edited when there is one, the
    card of the editor otherwise. *)
Definition getDataForSharing (st : AppState) : DataToShare.t :=
  let current := {| DataToShare.cardData := cardData st; DataToShare.theme := theme st |} in
  match editingCardId st with
  | Some (c :: rest) =>
      let id := c :: rest in
      if existsb (fun card => jsstring_eqb (SavedCard.id card) id) (savedCards st) then
        match find (fun card => jsstring_eqb (SavedCard.id card) id) (savedCards st) with
        | Some savedCard =>
            {| DataToShare.cardData := SavedCard.cardData savedCard;
               DataToShare.theme := SavedCard.theme savedCard |}
        | None => current
        end
      else current
  | _ => current
  end.

(** [`${window.location.protocol}//${window.location.host}${window.location.pathname}`] *)
Definition baseUrl_of (location : Location) : jsstring :=
  protocol location ++ js "//" ++ host location ++ pathname location.

(** [`${baseUrl}?card=${safeEncodedData}`] *)
Definition card_url (baseUrl safeEncodedData : jsstring) : jsstring :=
  baseUrl ++ js "?card=" ++ safeEncodedData.

(** The Korean literals of the fallback branch, as UTF-16 code units. *)
Definition ko_check_card_of : jsstring :=
  [51032; 32; 46356; 51648; 53560; 32; 47749; 54632; 51012; 32;
   54869; 51064; 54644; 48372; 49464; 50836; 33]%N.
Definition ko_check_card : jsstring :=
  [46356; 51648; 53560; 32; 47749; 54632; 51012; 32;
   54869; 51064; 54644; 48372; 49464; 50836; 33]%N.
Definition ko_digital_card : jsstring :=
  [46356; 51648; 53560; 32; 47749; 54632]%N.
Definition ko_link_failed : jsstring :=
  [47553; 53356; 32; 49373; 49457; 50640; 32; 49892; 54056; 54664; 49845;
   45768; 45796; 46; 32; 45796; 49884; 32; 49884; 46020; 54644; 51452;
   49464; 50836; 46]%N.

(** A string is truthy when it is not empty. *)
Definition nonempty (s : jsstring) : bool :=
  match s with
  | [] => false
  | _ :: _ => true
  end.

(** The text of the fallback branch: with the card's name when it has one. *)
Definition fallback_shareText (cardName : jsstring) : jsstring :=
  if nonempty cardName then cardName ++ ko_check_card_of else ko_check_card.

(** The argument of [navigator.share] in the fallback branch: the bare
    [baseUrl]. *)
Definition fallback_ShareData (cardName baseUrl : jsstring) : ShareData :=
  {| title := ko_digital_card; text := fallback_shareText cardName; url := baseUrl |}.

(** [sharePayload] of the branch that shares the link itself. *)
Definition sharePayload_of (cardName url : jsstring) : ShareData :=
  {| title := if nonempty cardName then cardName ++ js "'s Business Card"
              else js "Digital Business Card";
     text := if nonempty cardName
             then js "Check out " ++ cardName ++ js "'s digital business card."
             else js "Check out my digital business card.";
     url := url |}.

Definition call_navigator_share (nav : Navigator) (data : ShareData) : io unit :=
  (emit (navigator_share data) ;; await (share nav data))%io.

Definition call_clipboard_writeText (nav : Navigator) (data : jsstring) : io unit :=
  (emit (clipboard_writeText data) ;; await (writeText nav data))%io.

(** [await navigator.clipboard.writeText(data); setCopySuccess(true);
    setTimeout(() => setCopySuccess(false), 2000);] *)
Definition copy_and_flag (nav : Navigator) (data : jsstring) : io unit :=
  (call_clipboard_writeText nav data ;;
   emit (setCopySuccess true) ;;
   emit setTimeout_setCopySuccess_false)%io.

(** The [try] body of [createAndShareLink]. *)
Definition createAndShareLink_body
    (P : Platform) (nav : Navigator) (location : Location)
    (dataToShare : DataToShare.t) : io unit :=
  (let simplified := simplifiedData dataToShare in
   let encodedData := compressAndEncode P simplified in
   safeEncodedData <- await (toUrlSafeBase64_of encodedData) ;;
   let baseUrl := baseUrl_of location in
   let url := card_url baseUrl safeEncodedData in
   let cardName := BusinessCardData.name (DataToShare.cardData dataToShare) in
   if 2000 <? length url then
     emit (console_warn (js "URL too long, using simplified sharing")) ;;
     let shareText := fallback_shareText cardName in
     if has_share nav && has_canShare nav then
       try_catch
         (call_navigator_share nav (fallback_ShareData cardName baseUrl))
         (fun shareError =>
            emit (console_log (js "Web Share API failed, falling back to copy:")) ;;
            copy_and_flag nav (shareText ++ js " " ++ baseUrl))
     else copy_and_flag nav (shareText ++ js " " ++ baseUrl)
   else
     let sharePayload := sharePayload_of cardName url in
     if has_share nav && has_canShare nav && canShare nav sharePayload then
       try_catch
         (call_navigator_share nav sharePayload)
         (fun shareError =>
            emit (console_log (js "Web Share API failed, falling back to copy:")) ;;
            copy_and_flag nav url)
     else
       emit (console_log (js "Web Share API not supported, falling back to copy.")) ;;
       copy_and_flag nav url)%io.

(** [createAndShareLink], the path of the Share button ([handleShare]) and of
    sharing from the hub ([handleShareCardFromHub]). *)
Definition createAndShareLink
    (P : Platform) (nav : Navigator) (location : Location)
    (dataToShare : DataToShare.t) : io unit :=
  (emit (setExportMessage (js "Creating share link...")) ;;
   emit (setIsExporting true) ;;
   try_finally
     (try_catch
        (createAndShareLink_body P nav location dataToShare)
        (fun error =>
           emit (console_error (js "Failed to create or share link:")) ;;
           emit (alert ko_link_failed)))
     (emit (setIsExporting false) ;; emit (setExportMessage [])))%io.

Definition handleShare
    (P : Platform) (nav : Navigator) (location : Location) (st : AppState) : io unit :=
  createAndShareLink P nav location (getDataForSharing st).

Definition handleShareCardFromHub
    (P : Platform) (nav : Navigator) (location : Location) (st : AppState)
    (cardId : jsstring) : io unit :=
  match find (fun card => jsstring_eqb (SavedCard.id card) cardId) (savedCards st) with
  | Some cardToShare =>
      if negb (SavedCard.isPublic cardToShare) then
        emit (alert (js "This card is private. Please make it public before sharing."))
      else
        createAndShareLink P nav location
          {| DataToShare.cardData := SavedCard.cardData cardToShare;
             DataToShare.theme := SavedCard.theme cardToShare |}
  | None => emit (alert (js "Could not find the card to share."))
  end.

(** The [try] body of [handleCopyShareLink]: the object of
    [getDataForSharing] goes to [compressAndEncode] as it is, and the link
    is copied without a look at its length. *)
Definition handleCopyShareLink_body
    (P : Platform) (nav : Navigator) (location : Location)
    (dataToShare : DataToShare.t) : io unit :=
  (let encodedData := compressAndEncode P (DataToShare.to_value dataToShare) in
   safeEncodedData <- await (toUrlSafeBase64_of encodedData) ;;
   let baseUrl := baseUrl_of location in
   let url := card_url baseUrl safeEncodedData in
   copy_and_flag nav url)%io.

(** [handleCopyShareLink], the path of the Copy Share Link button. *)
Definition handleCopyShareLink
    (P : Platform) (nav : Navigator) (location : Location) (st : AppState) : io unit :=
  (emit (setExportMessage (js "Creating share link...")) ;;
   emit (setIsExporting true) ;;
   let dataToShare := getDataForSharing st in
   try_finally
     (try_catch
        (handleCopyShareLink_body P nav location dataToShare)
        (fun error =>
           emit (console_error (js "Failed to create share link:")) ;;
           emit (alert (js "Could not create a shareable link."))))
     (emit (setIsExporting false) ;; emit (setExportMessage [])))%io.

(** The token of a payload, as both paths compute it. *)
Definition share_token (P : Platform) (payload : jsval) : result jsstring :=
  toUrlSafeBase64_of (compressAndEncode P payload).

(** Decoding a token as the page load does: [fromUrlSafeBase64], then
    [decodeAndDecompress]. *)
Definition decode_token (P : Platform) (token : jsstring) : result jsval :=
  decodeAndDecompress P (fromUrlSafeBase64 token).



(** ** What the statements below speak of *)

(** [data.key] for an object, [undefined] for anything else. *)
Definition property (v : jsval) (key : jsstring) : option jsval :=
  match v with
  | JObject props => lookup key props
  | _ => None
  end.

(** The test of [initializeApp]: [data.cardData && data.theme]. *)
Definition has_card_shape (data : jsval) : bool :=
  truthy_opt (property data (js "cardData")) && truthy_opt (property data (js "theme")).

Definition rejection : list event :=
  [console_error (js "Failed to process shared card data:");
   alert invalid_link_notice;
   history_replaceState_pathname].

(** The ways a token can be malformed: its base64 does not decode, its
    bytes do not decompress, its text is not JSON, or the JSON value is not
    an object with truthy [cardData] and [theme]. Each with the error the
    failing step throws. *)
Inductive malformed (P : Platform) (token : jsstring) : exception -> Prop :=
| bad_base64 :
    fetch_data_url P (js "data:application/octet-stream;base64," ++ fromUrlSafeBase64 token)
      = None ->
    malformed P token TypeError
| bad_gzip bytes :
    fetch_data_url P (js "data:application/octet-stream;base64," ++ fromUrlSafeBase64 token)
      = Some bytes ->
    gunzip P bytes = None ->
    malformed P token TypeError
| not_json bytes text :
    fetch_data_url P (js "data:application/octet-stream;base64," ++ fromUrlSafeBase64 token)
      = Some bytes ->
    gunzip P bytes = Some text ->
    JSON_parse P (utf8_decode P text) = None ->
    malformed P token SyntaxError
| json_null :
    decode_token P token = Ok JNull ->
    malformed P token TypeError
| wrong_structure data :
    decode_token P token = Ok data ->
    data <> JNull ->
    has_card_shape data = false ->
    malformed P token (Error (js "Invalid card data structure")).

(** The calls that hand something to the outside: [navigator.share] and
    [navigator.clipboard.writeText]. *)
Definition outward (events : list event) : list event :=
  filter (fun e => match e with
                   | navigator_share _ => true
                   | clipboard_writeText _ => true
                   | _ => false
                   end) events.

Definition simplified_card_keys : list jsstring :=
  [js "name"; js "title"; js "company"; js "bio"; js "contactInfo";
   js "socialLinks"; js "careerHistory"].

(** The properties of [payload.cardData]. *)
Definition cardData_props (payload : jsval) : list (jsstring * jsval) :=
  match property payload (js "cardData") with
  | Some (JObject props) => props
  | _ => []
  end.

(** ** What the codec relies on

    [JSON.parse] reads back what [JSON.stringify] wrote, and the UTF-8 bytes
    of that text read back as the same text, for the values below; gunzip
    undoes gzip; the data URL of a blob is a comma-free header, a comma and
    the standard base64 of the bytes, which [fetch] decodes back. *)

(** A JavaScript string: code units are below [2^16]. *)
Definition is_jsstring (s : jsstring) : bool :=
  forallb (fun c => N.ltb c 65536) s.

(** A property name that is enumerated in insertion order: one that does not
    start with a digit (integer-like names come first, in numeric order). *)
Definition is_plain_key (k : jsstring) : bool :=
  match k with
  | [] => true
  | c :: _ => negb ((48 <=? c) && (c <=? 57))%N
  end.

Fixpoint distinct (ks : list jsstring) : bool :=
  match ks with
  | [] => true
  | k :: rest => negb (existsb (jsstring_eqb k) rest) && distinct rest
  end.

(** Values that [JSON.stringify] writes without loss: safe integers,
    strings, arrays and objects of such values, an object having distinct
    plain property names. *)
Fixpoint json_safe (v : jsval) : bool :=
  match v with
  | JNull => true
  | JBool _ => true
  | JNumber n => (Z.abs n <=? 9007199254740991)%Z
  | JString s => is_jsstring s
  | JArray items => forallb json_safe items
  | JObject props =>
      forallb (fun kv => is_jsstring (fst kv) && is_plain_key (fst kv)) props &&
      distinct (map fst props) &&
      forallb (fun kv => json_safe (snd kv)) props
  end.

(** The strings of what [createAndShareLink] encodes are JavaScript
    strings. *)
Definition shareable_strings_ok (d : DataToShare.t) : bool :=
  let card := DataToShare.cardData d in
  let theme := DataToShare.theme d in
  is_jsstring (BusinessCardData.name card) &&
  is_jsstring (BusinessCardData.title card) &&
  is_jsstring (BusinessCardData.company card) &&
  is_jsstring (BusinessCardData.bio card) &&
  forallb (fun c => is_jsstring (ContactInfo.id c) && is_jsstring (ContactInfo.value c))
          (BusinessCardData.contactInfo card) &&
  forallb (fun l => is_jsstring (SocialLink.id l) && is_jsstring (SocialLink.platform l)
                    && is_jsstring (SocialLink.url l))
          (BusinessCardData.socialLinks card) &&
  forallb (fun e => is_jsstring (CareerEntry.id e) && is_jsstring (CareerEntry.title e)
                    && is_jsstring (CareerEntry.company e)
                    && is_jsstring (CareerEntry.startDate e)
                    && is_jsstring (CareerEntry.endDate e)
                    && is_jsstring (CareerEntry.description e))
          (BusinessCardData.careerHistory card) &&
  is_jsstring (ThemeColors.background theme) &&
  is_jsstring (ThemeColors.text theme) &&
  is_jsstring (ThemeColors.primary theme) &&
  is_jsstring (ThemeColors.accent theme).

Record PlatformLaws (P : Platform) : Prop := {
  JSON_parse_stringify :
    forall v, json_safe v = true -> JSON_parse P (JSON_stringify P v) = Some v;
  utf8_decode_encode_JSON :
    forall v, json_safe v = true ->
      utf8_decode P (utf8_encode P (JSON_stringify P v)) = JSON_stringify P v;
  gunzip_gzip :
    forall bytes, gunzip P (gzip P bytes) = Some bytes;
  fetch_readAsDataURL :
    forall bytes, exists header base64,
      readAsDataURL P bytes = header ++ c_comma :: base64 /\
      ~ In c_comma header /\
      standard_base64 base64 /\
      fetch_data_url P (js "data:application/octet-stream;base64," ++ base64) = Some bytes;
  URLSearchParams_get_empty :
    forall name, URLSearchParams_get P [] name = None }.


(** * A model platform

    One platform that obeys the laws above, to run the codec on: base64 as
    in RFC 4648 with the forgiving decoder of [data:] URLs, a JSON writer
    and parser without white space, UTF-8 restricted to ASCII (the writer
    escapes everything else), and gzip streams made of stored blocks. *)

(** The byte of a number below 256. *)
Definition byte_of_N (n : N) : Byte.byte :=
  match Byte.of_N n with
  | Some b => b
  | None => Byte.x00
  end.

Module Base64.

Definition alphabet : jsstring :=
  js "ABCDEFGHIJKLMNOPQRSTUVWXYZabcdefghijklmnopqrstuvwxyz0123456789+/".

Definition char_of_sextet (n : N) : code_unit :=
  nth (N.to_nat n) alphabet c_equals.

Definition sextet_of_char (c : code_unit) : option N :=
  (if (65 <=? c) && (c <=? 90) then Some (c - 65)
   else if (97 <=? c) && (c <=? 122) then Some (c - 71)
   else if (48 <=? c) && (c <=? 57) then Some (c + 4)
   else if c =? c_plus then Some 62
   else if c =? c_slash then Some 63
   else None)%N.

(** Three bytes make four sextets; one or two bytes left at the end make two
    or three. *)
Fixpoint sextets (bytes : list Byte.byte) : list N :=
  match bytes with
  | a :: b :: c :: rest =>
      let a := Byte.to_N a in
      let b := Byte.to_N b in
      let c := Byte.to_N c in
      (a / 4 :: (a mod 4) * 16 + b / 16 :: (b mod 16) * 4 + c / 64 :: c mod 64
         :: sextets rest)%N
  | [a; b] =>
      let a := Byte.to_N a in
      let b := Byte.to_N b in
      [a / 4; (a mod 4) * 16 + b / 16; (b mod 16) * 4]%N
  | [a] =>
      let a := Byte.to_N a in
      [a / 4; (a mod 4) * 16]%N
  | [] => []
  end.

Definition padding (n : nat) : nat :=
  match n mod 3 with
  | 0 => 0
  | 1 => 2
  | _ => 1
  end.

(** RFC 4648 base64, with padding. *)
Definition encode (bytes : list Byte.byte) : jsstring :=
  map char_of_sextet (sextets bytes) ++ repeat c_equals (padding (length bytes)).

(** Four sextets make three bytes; of three or two sextets left at the end,
    the bits that do not fill a byte are dropped. *)
Fixpoint bytes_of_sextets (s : list N) : list Byte.byte :=
  match s with
  | s1 :: s2 :: s3 :: s4 :: rest =>
      (byte_of_N (s1 * 4 + s2 / 16) :: byte_of_N ((s2 mod 16) * 16 + s3 / 4)
         :: byte_of_N ((s3 mod 4) * 64 + s4) :: bytes_of_sextets rest)%N
  | [s1; s2; s3] =>
      [byte_of_N (s1 * 4 + s2 / 16); byte_of_N ((s2 mod 16) * 16 + s3 / 4)]%N
  | [s1; s2] => [byte_of_N (s1 * 4 + s2 / 16)]%N
  | _ => []
  end.

Fixpoint sextets_of_chars (s : jsstring) : option (list N) :=
  match s with
  | [] => Some []
  | c :: rest =>
      match sextet_of_char c, sextets_of_chars rest with
      | Some n, Some ns => Some (n :: ns)
      | _, _ => None
      end
  end.

(** Tab, line feed, form feed, carriage return and space. *)
Definition is_ascii_whitespace (c : code_unit) : bool :=
  ((c =? 9) || (c =? 10) || (c =? 12) || (c =? 13) || (c =? 32))%N.

(** When the length is a multiple of four, one or two [=] at the end are
    removed. *)
Fixpoint strip_trailing_equals (s : jsstring) : jsstring :=
  match s with
  | [] => []
  | [c] => if (c =? c_equals)%N then [] else [c]
  | [c1; c2] =>
      if (c2 =? c_equals)%N then (if (c1 =? c_equals)%N then [] else [c1])
      else [c1; c2]
  | c :: rest => c :: strip_trailing_equals rest
  end.

Definition strip_padding (s : jsstring) : jsstring :=
  if Nat.eqb (length s mod 4) 0 then strip_trailing_equals s else s.

(** The forgiving base64 decoding of a [data:] URL body: white space is
    skipped, padding is optional, a character outside the alphabet or a
    length of 1 modulo 4 is an error. *)
Definition decode (s : jsstring) : option (list Byte.byte) :=
  let s := filter (fun c => negb (is_ascii_whitespace c)) s in
  let s := strip_padding s in
  if Nat.eqb (length s mod 4) 1 then None
  else option_map bytes_of_sextets (sextets_of_chars s).




End Base64.


Module JSON.

Definition c_quote : code_unit := 34%N.
Definition c_backslash : code_unit := 92%N.

Definition hex_digit (n : N) : code_unit :=
  (if n <? 10 then 48 + n else 87 + n)%N.

Definition hex_value (c : code_unit) : option N :=
  (if (48 <=? c) && (c <=? 57) then Some (c - 48)
   else if (97 <=? c) && (c <=? 102) then Some (c - 87)
   else if (65 <=? c) && (c <=? 70) then Some (c - 55)
   else None)%N.

(** A code unit inside a string literal: the quote and the backslash are
    escaped, printable ASCII stands for itself, everything else is written
    [\uXXXX]. *)
Definition escape (c : code_unit) : jsstring :=
  (if c =? c_quote then [c_backslash; c_quote]
   else if c =? c_backslash then [c_backslash; c_backslash]
   else if (32 <=? c) && (c <? 127) then [c]
   else [c_backslash; ch "u"; hex_digit ((c / 4096) mod 16);
         hex_digit ((c / 256) mod 16); hex_digit ((c / 16) mod 16);
         hex_digit (c mod 16)])%N.

Definition quote (s : jsstring) : jsstring :=
  c_quote :: flat_map escape s ++ [c_quote].

Fixpoint chars_of_uint (u : Decimal.uint) : jsstring :=
  match u with
  | Decimal.Nil => []
  | Decimal.D0 u => ch "0" :: chars_of_uint u
  | Decimal.D1 u => ch "1" :: chars_of_uint u
  | Decimal.D2 u => ch "2" :: chars_of_uint u
  | Decimal.D3 u => ch "3" :: chars_of_uint u
  | Decimal.D4 u => ch "4" :: chars_of_uint u
  | Decimal.D5 u => ch "5" :: chars_of_uint u
  | Decimal.D6 u => ch "6" :: chars_of_uint u
  | Decimal.D7 u => ch "7" :: chars_of_uint u
  | Decimal.D8 u => ch "8" :: chars_of_uint u
  | Decimal.D9 u => ch "9" :: chars_of_uint u
  end.

Definition number (n : Z) : jsstring :=
  match n with
  | Z0 => js "0"
  | Zpos p => chars_of_uint (Pos.to_uint p)
  | Zneg p => ch "-" :: chars_of_uint (Pos.to_uint p)
  end.

Fixpoint array_tail (print : jsval -> jsstring) (items : list jsval) : jsstring :=
  match items with
  | [] => [ch "]"]
  | x :: rest => ch "," :: print x ++ array_tail print rest
  end.

Fixpoint object_tail (print : jsval -> jsstring) (props : list (jsstring * jsval))
  : jsstring :=
  match props with
  | [] => [ch "}"]
  | (k, x) :: rest => ch "," :: quote k ++ ch ":" :: print x ++ object_tail print rest
  end.

(** [JSON.stringify] of the model platform: no white space, properties in
    enumeration order. *)
Fixpoint stringify (v : jsval) : jsstring :=
  match v with
  | JNull => js "null"
  | JBool true => js "true"
  | JBool false => js "false"
  | JNumber n => number n
  | JString s => quote s
  | JArray [] => js "[]"
  | JArray (first :: others) =>
      ch "[" :: stringify first ++ array_tail stringify others
  | JObject [] => js "{}"
  | JObject ((k, first) :: others) =>
      ch "{" :: quote k ++ ch ":" :: stringify first ++ object_tail stringify others
  end.

(** *** Parsing *)

Definition is_digit (c : code_unit) : bool := ((48 <=? c) && (c <=? 57))%N.

Definition digit_of (c : code_unit) (u : Decimal.uint) : Decimal.uint :=
  match (c - 48)%N with
  | 0 => Decimal.D0 u
  | 1 => Decimal.D1 u
  | 2 => Decimal.D2 u
  | 3 => Decimal.D3 u
  | 4 => Decimal.D4 u
  | 5 => Decimal.D5 u
  | 6 => Decimal.D6 u
  | 7 => Decimal.D7 u
  | 8 => Decimal.D8 u
  | _ => Decimal.D9 u
  end%N.

(** The longest run of digits at the start of [s], and what follows it. *)
Fixpoint read_digits (s : jsstring) : Decimal.uint * jsstring :=
  match s with
  | [] => (Decimal.Nil, [])
  | c :: rest =>
      if is_digit c then
        let (u, r) := read_digits rest in (digit_of c u, r)
      else (Decimal.Nil, s)
  end.

Definition parse_natural (s : jsstring) : option (N * jsstring) :=
  match read_digits s with
  | (Decimal.Nil, _) => None
  | (u, rest) => Some (N.of_uint u, rest)
  end.

Definition parse_number (s : jsstring) : option (Z * jsstring) :=
  match s with
  | [] => None
  | c :: rest =>
      if (c =? ch "-")%N then
        match parse_natural rest with
        | Some (n, r) => Some (Z.opp (Z.of_N n), r)
        | None => None
        end
      else
        match parse_natural s with
        | Some (n, r) => Some (Z.of_N n, r)
        | None => None
        end
  end.

Definition hex4 (h1 h2 h3 h4 : code_unit) : option code_unit :=
  match hex_value h1, hex_value h2, hex_value h3, hex_value h4 with
  | Some a, Some b, Some c, Some d => Some (a * 4096 + b * 256 + c * 16 + d)%N
  | _, _, _, _ => None
  end.

(** The characters of a string literal after its opening quote, up to the
    closing quote. *)
Fixpoint parse_chars (s : jsstring) : option (jsstring * jsstring) :=
  match s with
  | [] => None
  | c :: rest =>
      if (c =? c_quote)%N then Some ([], rest)
      else if (c =? c_backslash)%N then
        match rest with
        | [] => None
        | e :: rest' =>
            if (e =? ch "u")%N then
              match rest' with
              | h1 :: h2 :: h3 :: h4 :: rest'' =>
                  match hex4 h1 h2 h3 h4, parse_chars rest'' with
                  | Some u, Some (cs, r) => Some (u :: cs, r)
                  | _, _ => None
                  end
              | _ => None
              end
            else
              let simple (u : code_unit) :=
                match parse_chars rest' with
                | Some (cs, r) => Some (u :: cs, r)
                | None => None
                end in
              if (e =? c_quote)%N then simple c_quote
              else if (e =? c_backslash)%N then simple c_backslash
              else if (e =? ch "/")%N then simple (ch "/")
              else if (e =? ch "b")%N then simple 8%N
              else if (e =? ch "f")%N then simple 12%N
              else if (e =? ch "n")%N then simple 10%N
              else if (e =? ch "r")%N then simple 13%N
              else if (e =? ch "t")%N then simple 9%N
              else None
        end
      else if (c <? 32)%N then None
      else
        match parse_chars rest with
        | Some (cs, r) => Some (c :: cs, r)
        | None => None
        end
  end.

Definition parse_string (s : jsstring) : option (jsstring * jsstring) :=
  match s with
  | c :: rest => if (c =? c_quote)%N then parse_chars rest else None
  | [] => None
  end.

Definition parser (A : Type) : Type := jsstring -> option (A * jsstring).

(** The elements of an array after the first [[]: a value, then [,] and
    more, or []]. At most [n] elements. *)
Fixpoint parse_items (value : parser jsval) (n : nat) (s : jsstring)
  : option (list jsval * jsstring) :=
  match n with
  | O => None
  | S n' =>
      match value s with
      | Some (v, c :: rest) =>
          if (c =? ch ",")%N then
            match parse_items value n' rest with
            | Some (vs, r) => Some (v :: vs, r)
            | None => None
            end
          else if (c =? ch "]")%N then Some ([v], rest)
          else None
      | _ => None
      end
  end.

(** The properties of an object after the first [{]. *)
Fixpoint parse_props (value : parser jsval) (n : nat) (s : jsstring)
  : option (list (jsstring * jsval) * jsstring) :=
  match n with
  | O => None
  | S n' =>
      match parse_string s with
      | Some (k, c :: rest) =>
          if (c =? ch ":")%N then
            match value rest with
            | Some (v, c' :: rest') =>
                if (c' =? ch ",")%N then
                  match parse_props value n' rest' with
                  | Some (kvs, r) => Some ((k, v) :: kvs, r)
                  | None => None
                  end
                else if (c' =? ch "}")%N then Some ([(k, v)], rest')
                else None
            | _ => None
            end
          else None
      | _ => None
      end
  end.

Definition literal (word : jsstring) (s : jsstring) : option jsstring :=
  if jsstring_eqb (firstn (length word) s) word
  then Some (skipn (length word) s) else None.

(** A value at the start of [s]; [fuel] bounds the nesting depth and the
    number of elements of an array or object. *)
Fixpoint parse_value (fuel : nat) (s : jsstring) : option (jsval * jsstring) :=
  match fuel with
  | O => None
  | S fuel' =>
      match s with
      | [] => None
      | c :: rest =>
          if (c =? ch "n")%N then
            option_map (fun r => (JNull, r)) (literal (js "null") s)
          else if (c =? ch "t")%N then
            option_map (fun r => (JBool true, r)) (literal (js "true") s)
          else if (c =? ch "f")%N then
            option_map (fun r => (JBool false, r)) (literal (js "false") s)
          else if (c =? c_quote)%N then
            option_map (fun sr => (JString (fst sr), snd sr)) (parse_chars rest)
          else if (c =? ch "[")%N then
            match rest with
            | c' :: rest' =>
                if (c' =? ch "]")%N then Some (JArray [], rest')
                else option_map (fun ir => (JArray (fst ir), snd ir))
                       (parse_items (parse_value fuel') fuel' rest)
            | [] => None
            end
          else if (c =? ch "{")%N then
            match rest with
            | c' :: rest' =>
                if (c' =? ch "}")%N then Some (JObject [], rest')
                else option_map (fun pr => (JObject (fst pr), snd pr))
                       (parse_props (parse_value fuel') fuel' rest)
            | [] => None
            end
          else option_map (fun nr => (JNumber (fst nr), snd nr)) (parse_number s)
      end
  end.

(** [JSON.parse] of the model platform: one value and nothing after it. *)
Definition parse (s : jsstring) : option jsval :=
  match parse_value (S (length s)) s with
  | Some (v, []) => Some v
  | _ => None
  end.




(** What [parse_value] needs of fuel for a value: one more than the nesting
    depth and than the longest array or object. *)
Fixpoint need (v : jsval) : nat :=
  match v with
  | JArray items => S (Nat.max (length items) (list_max (map need items)))
  | JObject props =>
      S (Nat.max (length props) (list_max (map (fun kv => need (snd kv)) props)))
  | _ => 1
  end.

(** Every string of the value, property names included, is a JavaScript
    string. *)
Fixpoint strings_ok (v : jsval) : bool :=
  match v with
  | JString s => is_jsstring s
  | JArray items => forallb strings_ok items
  | JObject props =>
      forallb (fun kv => is_jsstring (fst kv) && strings_ok (snd kv)) props
  | _ => true
  end.

Definition cons_char (c : code_unit) (r : option (jsstring * jsstring)) :=
  match r with
  | Some (cs, rest) => Some (c :: cs, rest)
  | None => None
  end.

(** What follows a number must not be a digit. *)
Definition no_digit_ahead (rest : jsstring) : Prop :=
  match rest with
  | [] => True
  | c :: _ => is_digit c = false
  end.

Definition parses_back (fuel : nat) (v : jsval) : Prop :=
  forall rest, no_digit_ahead rest ->
    parse_value fuel (stringify v ++ rest) = Some (v, rest).

Definition total_length (l : list jsval) : nat :=
  list_sum (map (fun x => length (stringify x)) l).

(** The text is ASCII. *)
Definition is_ascii (s : jsstring) : bool := forallb (fun c => c <? 128)%N s.

End JSON.


Module Gzip.

(** One bit of the reflected CRC-32 (polynomial [0xEDB88320]). *)
Definition crc_shift (c : N) : N :=
  if N.testbit c 0 then N.lxor (N.shiftr c 1) 3988292384%N else N.shiftr c 1.

Definition crc_byte (crc : N) (b : Byte.byte) : N :=
  let c := N.lxor crc (Byte.to_N b) in
  crc_shift (crc_shift (crc_shift (crc_shift
    (crc_shift (crc_shift (crc_shift (crc_shift c))))))).

Definition crc32 (bytes : list Byte.byte) : N :=
  N.lxor (fold_left crc_byte bytes 4294967295%N) 4294967295%N.

(** Little-endian fields. *)
Definition le16 (n : N) : list Byte.byte :=
  [byte_of_N (n mod 256); byte_of_N ((n / 256) mod 256)]%N.

Definition le32 (n : N) : list Byte.byte :=
  [byte_of_N (n mod 256); byte_of_N ((n / 256) mod 256);
   byte_of_N ((n / 65536) mod 256); byte_of_N ((n / 16777216) mod 256)]%N.

Definition read16 (b0 b1 : Byte.byte) : N :=
  (Byte.to_N b0 + 256 * Byte.to_N b1)%N.

Definition read32 (b0 b1 b2 b3 : Byte.byte) : N :=
  (Byte.to_N b0 + 256 * Byte.to_N b1 + 65536 * Byte.to_N b2
   + 16777216 * Byte.to_N b3)%N.

(** The most a stored block holds. *)
Definition block_max : N := 65535%N.

(** A stored block: the header byte ([BFINAL] in bit 0, [BTYPE = 00]), [LEN],
    its complement [NLEN], the bytes. *)
Definition stored_block (final : bool) (data : list Byte.byte) : list Byte.byte :=
  let len := N.of_nat (length data) in
  (if final then Byte.x01 else Byte.x00) :: le16 len ++ le16 (block_max - len) ++ data.

(** The DEFLATE stream of [data] in stored blocks; [fuel] bounds their
    number. *)
Fixpoint deflate_stored (fuel : nat) (data : list Byte.byte) : list Byte.byte :=
  match fuel with
  | O => stored_block true data
  | S fuel' =>
      if (N.of_nat (length data) <=? block_max)%N then stored_block true data
      else stored_block false (firstn (N.to_nat block_max) data)
           ++ deflate_stored fuel' (skipn (N.to_nat block_max) data)
  end.

(** The ten-byte header: magic, [CM = 8] (deflate), no flags, no time,
    [OS = 3]. *)
Definition header : list Byte.byte :=
  [Byte.x1f; Byte.x8b; Byte.x08; Byte.x00; Byte.x00; Byte.x00; Byte.x00;
   Byte.x00; Byte.x00; Byte.x03].

(** [CompressionStream('gzip')] of the model platform: a gzip member whose
    DEFLATE stream is made of stored blocks. *)
Definition gzip (data : list Byte.byte) : list Byte.byte :=
  header ++ deflate_stored (length data) data
  ++ le32 (crc32 data) ++ le32 (N.of_nat (length data)).

(** Reading stored blocks back: the bytes, and what follows the final
    block. A block of another type is refused. *)
Fixpoint inflate_stored (fuel : nat) (s : list Byte.byte)
  : option (list Byte.byte * list Byte.byte) :=
  match fuel with
  | O => None
  | S fuel' =>
      match s with
      | h :: l0 :: l1 :: n0 :: n1 :: rest =>
          let len := read16 l0 l1 in
          if negb (N.testbit (Byte.to_N h) 1 || N.testbit (Byte.to_N h) 2)
             && (read16 n0 n1 =? block_max - len)%N
             && (len <=? N.of_nat (length rest))%N
          then
            let data := firstn (N.to_nat len) rest in
            let after := skipn (N.to_nat len) rest in
            if N.testbit (Byte.to_N h) 0 then Some (data, after)
            else
              match inflate_stored fuel' after with
              | Some (more, r) => Some (data ++ more, r)
              | None => None
              end
          else None
      | _ => None
      end
  end.

(** [DecompressionStream('gzip')] of the model platform: the header without
    optional fields, stored blocks, then the CRC-32 and the size of the
    data, which are checked, and nothing more. *)
Definition gunzip (s : list Byte.byte) : option (list Byte.byte) :=
  match s with
  | id1 :: id2 :: cm :: flg :: _ :: _ :: _ :: _ :: _ :: _ :: body =>
      if (Byte.to_N id1 =? 31)%N && (Byte.to_N id2 =? 139)%N
         && (Byte.to_N cm =? 8)%N && (Byte.to_N flg =? 0)%N
      then
        match inflate_stored (S (length body)) body with
        | Some (data, [c0; c1; c2; c3; s0; s1; s2; s3]) =>
            if (read32 c0 c1 c2 c3 =? crc32 data mod 4294967296)%N
               && (read32 s0 s1 s2 s3 =? N.of_nat (length data) mod 4294967296)%N
            then Some data else None
        | _ => None
        end
      else None
  | _ => None
  end.

End Gzip.



Module Utf8.

(** An ASCII code unit is one byte; the model writes U+FFFD for any other,
    which the JSON text of the model never contains. *)
Definition encode (s : jsstring) : list Byte.byte :=
  flat_map (fun c => if (c <? 128)%N then [byte_of_N c]
                     else [Byte.xef; Byte.xbf; Byte.xbd]) s.

Definition decode (bytes : list Byte.byte) : jsstring :=
  map (fun b => if (Byte.to_N b <? 128)%N then Byte.to_N b else 65533%N) bytes.

End Utf8.

Module DataUrl.

Definition prefix : jsstring := js "data:application/octet-stream;base64,".

(** [readAsDataURL] of a blob without a type. *)
Definition read (bytes : list Byte.byte) : jsstring :=
  prefix ++ Base64.encode bytes.

Definition strip_prefix (p s : jsstring) : option jsstring :=
  if jsstring_eqb (firstn (length p) s) p then Some (skipn (length p) s) else None.

(** [fetch] of a base64 [data:] URL: the body after the comma, decoded. *)
Definition fetch (url : jsstring) : option (list Byte.byte) :=
  match strip_prefix prefix url with
  | Some body => Base64.decode body
  | None => None
  end.

End DataUrl.

Module SearchParams.

(** What stands before the first [sep], and what stands after it. *)
Fixpoint split_first (sep : code_unit) (s : jsstring) : jsstring * jsstring :=
  match s with
  | [] => ([], [])
  | c :: rest =>
      if N.eqb c sep then ([], rest)
      else let (before, after) := split_first sep rest in (c :: before, after)
  end.

(** [new URLSearchParams(search).get(name)], without percent-decoding: the
    value of the first [name=value] pair of the query. *)
Definition get (search name : jsstring) : option jsstring :=
  let query :=
    match search with
    | c :: rest => if N.eqb c (ch "?") then rest else search
    | [] => []
    end in
  let pairs := filter nonempty (split (ch "&") query) in
  match find (fun p => jsstring_eqb (fst (split_first (ch "=") p)) name) pairs with
  | Some p => Some (snd (split_first (ch "=") p))
  | None => None
  end.

End SearchParams.

Definition model_platform : Platform := {|
  JSON_stringify := JSON.stringify;
  JSON_parse := JSON.parse;
  utf8_encode := Utf8.encode;
  utf8_decode := Utf8.decode;
  gzip := Gzip.gzip;
  gunzip := Gzip.gunzip;
  readAsDataURL := DataUrl.read;
  fetch_data_url := DataUrl.fetch;
  URLSearchParams_get := SearchParams.get |}.


(** * Sample data *)

(** Scenario A of the specification. *)
Definition scenario_A : jsval :=
  JObject [
    (js "cardData", JObject [
       (js "name", JString (js "Jane Doe"));
       (js "title", JString (js "Engineer"));
       (js "company", JString (js "Acme"));
       (js "bio", JString (js "Builds things."));
       (js "contactInfo",
          JArray [JObject [(js "type", JString (js "email"));
                           (js "value", JString (js "jane@acme.com"))]]);
       (js "socialLinks", JArray []);
       (js "careerHistory", JArray [])]);
    (js "theme", JObject [
       (js "background", JString (js "#FFFFFF"));
       (js "text", JString (js "#000000"));
       (js "primary", JString (js "#111111"));
       (js "accent", JString (js "#EEEEEE"))])].

(** Its token on the model platform. *)
Definition scenario_A_token : jsstring :=
  js ("H4sIAAAAAAAAAwERAe7-eyJjYXJkRGF0YSI6eyJuYW1lIjoiSmFuZSBEb2UiLCJ0aXRsZSI6"
      ++ "IkVuZ2luZWVyIiwiY29tcGFueSI6IkFjbWUiLCJiaW8iOiJCdWlsZHMgdGhpbmdzLiIsImNv"
      ++ "bnRhY3RJbmZvIjpbeyJ0eXBlIjoiZW1haWwiLCJ2YWx1ZSI6ImphbmVAYWNtZS5jb20ifV0s"
      ++ "InNvY2lhbExpbmtzIjpbXSwiY2FyZWVySGlzdG9yeSI6W119LCJ0aGVtZSI6eyJiYWNrZ3Jv"
      ++ "dW5kIjoiI0ZGRkZGRiIsInRleHQiOiIjMDAwMDAwIiwicHJpbWFyeSI6IiMxMTExMTEiLCJh"
      ++ "Y2NlbnQiOiIjRUVFRUVFIn19tG_6YREBAAA").

(** [THEMES.Arctic] *)
Definition Arctic : ThemeColors.t :=
  {| ThemeColors.background := js "#F9FAFB"; ThemeColors.text := js "#374151";
     ThemeColors.primary := js "#1F2937"; ThemeColors.accent := js "#E5E7EB" |}.

(** A card in the shape of [getDefaultCardData], with a profile picture. *)
Definition sample_card : BusinessCardData.t :=
  {| BusinessCardData.profilePicture :=
       {| Media.src := js "data:image/png;base64,iVBORw0KGgo=";
          Media.aspectRatio := 1; Media.zoom := None; Media.position := None |};
     BusinessCardData.bannerImage :=
       {| Media.src := []; Media.aspectRatio := 1;
          Media.zoom := None; Media.position := None |};
     BusinessCardData.name := js "Jane Doe";
     BusinessCardData.title := js "CEO & Founder";
     BusinessCardData.company := js "ONEPAGE";
     BusinessCardData.bio := js "Builds things.";
     BusinessCardData.contactInfo :=
       [{| ContactInfo.id := js "550e8400-e29b-41d4-a716-446655440012";
           ContactInfo.type := ContactInfo.email;
           ContactInfo.value := js "rero45@naver.com" |}];
     BusinessCardData.socialLinks :=
       [{| SocialLink.id := js "550e8400-e29b-41d4-a716-446655440021";
           SocialLink.platform := js "instagram";
           SocialLink.url := js "https://instagram.com" |}];
     BusinessCardData.careerHistory :=
       [{| CareerEntry.id := js "550e8400-e29b-41d4-a716-446655440002";
           CareerEntry.title := js "CEO & Founder";
           CareerEntry.company := js "ONEPAGE";
           CareerEntry.startDate := js "2018";
           CareerEntry.endDate := js "Present";
           CareerEntry.description := js "Founded the studio." |}];
     BusinessCardData.fontFamily := js "system-ui, sans-serif";
     BusinessCardData.nameFontSize := 28;
     BusinessCardData.nameFontWeight := 700;
     BusinessCardData.nameFontColor := js "#1F2937";
     BusinessCardData.titleFontSize := 16;
     BusinessCardData.titleFontWeight := 500;
     BusinessCardData.titleFontColor := js "#374151";
     BusinessCardData.companyFontSize := 18;
     BusinessCardData.companyFontWeight := 600;
     BusinessCardData.companyFontColor := js "#1F2937";
     BusinessCardData.baseFontSize := 14;
     BusinessCardData.baseFontWeight := 400;
     BusinessCardData.baseFontColor := js "#374151";
     BusinessCardData.layout := BusinessCardData.classic |}.

(** A text of [n] lower-case letters that follow no pattern: the letters
    [97 + x mod 26] of the Lehmer sequence [x := 48271 * x mod (2^31 - 1)],
    from the state [x]. Compression gains little on it: a letter out of
    twenty-six carries more than four bits. *)
Fixpoint noise (n : nat) (x : N) : jsstring :=
  match n with
  | O => []
  | S n' =>
      let x' := ((48271 * x) mod 2147483647)%N in
      (97 + x' mod 26)%N :: noise n' x'
  end.

(** Scenario D: the same card with a bio of 10,000 characters and 50 career
    entries. The bio is [noise], so that the link is long however well the
    browser compresses. *)
Definition long_card : BusinessCardData.t :=
  {| BusinessCardData.profilePicture := BusinessCardData.profilePicture sample_card;
     BusinessCardData.bannerImage := BusinessCardData.bannerImage sample_card;
     BusinessCardData.name := BusinessCardData.name sample_card;
     BusinessCardData.title := BusinessCardData.title sample_card;
     BusinessCardData.company := BusinessCardData.company sample_card;
     BusinessCardData.bio := noise (100 * 100) 1;
     BusinessCardData.contactInfo := BusinessCardData.contactInfo sample_card;
     BusinessCardData.socialLinks := BusinessCardData.socialLinks sample_card;
     BusinessCardData.careerHistory :=
       concat (repeat (BusinessCardData.careerHistory sample_card) 50);
     BusinessCardData.fontFamily := BusinessCardData.fontFamily sample_card;
     BusinessCardData.nameFontSize := 28;
     BusinessCardData.nameFontWeight := 700;
     BusinessCardData.nameFontColor := js "#1F2937";
     BusinessCardData.titleFontSize := 16;
     BusinessCardData.titleFontWeight := 500;
     BusinessCardData.titleFontColor := js "#374151";
     BusinessCardData.companyFontSize := 18;
     BusinessCardData.companyFontWeight := 600;
     BusinessCardData.companyFontColor := js "#1F2937";
     BusinessCardData.baseFontSize := 14;
     BusinessCardData.baseFontWeight := 400;
     BusinessCardData.baseFontColor := js "#374151";
     BusinessCardData.layout := BusinessCardData.classic |}.

(** The editor showing a card that is not saved yet. *)
Definition editing (card : BusinessCardData.t) : AppState :=
  {| cardData := card; theme := Arctic; savedCards := []; editingCardId := None |}.

Definition sample_data (card : BusinessCardData.t) : DataToShare.t :=
  {| DataToShare.cardData := card; DataToShare.theme := Arctic |}.

(** The application at [https://onepage.example/], opened with [search]. *)
Definition app_at (search : jsstring) : Location :=
  {| protocol := js "https:"; host := js "onepage.example"; pathname := js "/";
     search := search |}.

Definition fresh_page (search : jsstring) : Page :=
  {| location := app_at search; receivedCard := None |}.

(** A browser without the Web Share API, whose clipboard works. *)
Definition clipboard_only : Navigator :=
  {| has_share := false; has_canShare := false;
     canShare := fun _ => false;
     share := fun _ => Throw TypeError;
     writeText := fun _ => Ok tt |}.

(** A browser whose share sheet works. *)
Definition share_sheet : Navigator :=
  {| has_share := true; has_canShare := true;
     canShare := fun _ => true;
     share := fun _ => Ok tt;
     writeText := fun _ => Ok tt |}.

(** The token of a payload on the model platform. *)
Definition model_token (payload : jsval) : jsstring :=
  match share_token model_platform payload with
  | Ok token => token
  | Throw _ => []
  end.

(** Tokens that are not share links: one with characters outside base64,
    Scenario A's token with its fifth character replaced by [!]
    (Scenario B) and with one character in its middle changed, the first
    twenty bytes of a gzip stream (Scenario C), the gzip of a text that is
    not JSON, of [null], and of [{}]. *)
Definition token_not_base64 : jsstring := js "!!!!".
Definition token_scenario_B : jsstring :=
  firstn 4 scenario_A_token ++ ch "!" :: skipn 5 scenario_A_token.
Definition token_corrupted_middle : jsstring :=
  firstn 200 scenario_A_token ++ ch "A" :: skipn 201 scenario_A_token.
Definition token_truncated_gzip : jsstring := js "H4sIAAAAAAAAAwECAP3_e31Dv6Y".
Definition token_not_json : jsstring :=
  js "H4sIAAAAAAAAAwEOAPH_QnVpbGRzIHRoaW5ncy56-NH3DgAAAA".
Definition token_null : jsstring := js "H4sIAAAAAAAAAwEEAPv_bnVsbE_8yyUEAAAA".
Definition token_empty_object : jsstring := js "H4sIAAAAAAAAAwECAP3_e31Dv6ajAgAAAA".

(** The token of [{"cardData":1,"theme":true}]: an object with two truthy
    properties and nothing of a card. *)
Definition token_truthy_only : jsstring :=
  js "H4sIAAAAAAAAAwEbAOT_eyJjYXJkRGF0YSI6MSwidGhlbWUiOnRydWV9_dQ5MxsAAAA".


(** * The hub and the editor

    The handlers of the component that work on the saved cards and on the
    card in the editor. A handler closes over the state of the render it
    was made in, calls the API and the browser, and calls the setters of
    the component. *)

(** ** constants.ts *)

(** The texts that [getDefaultCardData] takes from a locale file. *)
Record Locale := {
  sampleName : jsstring;
  sampleBio : jsstring;
  sampleAddress : jsstring;
  sampleCareerDesc1 : jsstring;
  sampleCareerDesc2 : jsstring }.

(** [{ src: '', aspectRatio: 1 }] *)
Definition blank_media : Media.t :=
  {| Media.src := []; Media.aspectRatio := 1; Media.zoom := None; Media.position := None |}.

Definition c_arrow : code_unit := 8594%N.

Definition getDefaultCardData (t : Locale) : BusinessCardData.t :=
  {| BusinessCardData.bannerImage := blank_media;
     BusinessCardData.profilePicture := blank_media;
     BusinessCardData.name := sampleName t;
     BusinessCardData.title := js "CEO & Founder";
     BusinessCardData.company := js "ONEPAGE";
     BusinessCardData.bio := sampleBio t;
     BusinessCardData.contactInfo :=
       [{| ContactInfo.id := js "550e8400-e29b-41d4-a716-446655440011";
           ContactInfo.type := ContactInfo.phone;
           ContactInfo.value := js "82)10-1234-5678" |};
        {| ContactInfo.id := js "550e8400-e29b-41d4-a716-446655440012";
           ContactInfo.type := ContactInfo.email;
           ContactInfo.value := js "rero45@naver.com" |};
        {| ContactInfo.id := js "550e8400-e29b-41d4-a716-446655440013";
           ContactInfo.type := ContactInfo.address;
           ContactInfo.value := sampleAddress t |};
        {| ContactInfo.id := js "550e8400-e29b-41d4-a716-446655440014";
           ContactInfo.type := ContactInfo.website;
           ContactInfo.value := js "rawstudio.kr" |}];
     BusinessCardData.socialLinks :=
       [{| SocialLink.id := js "550e8400-e29b-41d4-a716-446655440021";
           SocialLink.platform := js "instagram";
           SocialLink.url := js "https://instagram.com" |};
        {| SocialLink.id := js "550e8400-e29b-41d4-a716-446655440022";
           SocialLink.platform := js "youtube";
           SocialLink.url := js "https://www.youtube.com/@ONEPAGE" |}];
     BusinessCardData.careerHistory :=
       [{| CareerEntry.id := js "550e8400-e29b-41d4-a716-446655440001";
           CareerEntry.title :=
             js "2D Supervisor " ++ c_arrow :: js " Colorist " ++ c_arrow :: js " Compositor";
           CareerEntry.company := js "SEOULVISION";
           CareerEntry.startDate := js "2008";
           CareerEntry.endDate := js "2018";
           CareerEntry.description := sampleCareerDesc1 t |};
        {| CareerEntry.id := js "550e8400-e29b-41d4-a716-446655440002";
           CareerEntry.title := js "CEO & Founder";
           CareerEntry.company := js "ONEPAGE";
           CareerEntry.startDate := js "2018";
           CareerEntry.endDate := js "Present";
           CareerEntry.description := sampleCareerDesc2 t |}];
     BusinessCardData.fontFamily := js "system-ui, sans-serif";
     BusinessCardData.nameFontSize := 28;
     BusinessCardData.nameFontWeight := 700;
     BusinessCardData.nameFontColor := js "#1F2937";
     BusinessCardData.titleFontSize := 16;
     BusinessCardData.titleFontWeight := 500;
     BusinessCardData.titleFontColor := js "#374151";
     BusinessCardData.companyFontSize := 18;
     BusinessCardData.companyFontWeight := 600;
     BusinessCardData.companyFontColor := js "#1F2937";
     BusinessCardData.baseFontSize := 14;
     BusinessCardData.baseFontWeight := 400;
     BusinessCardData.baseFontColor := js "#374151";
     BusinessCardData.layout := BusinessCardData.classic |}.

(** [DEFAULT_CARD_DATA = getDefaultCardData('en')], for the English locale
    file [en]. *)
Definition DEFAULT_CARD_DATA (en : Locale) : BusinessCardData.t := getDefaultCardData en.

(** ** types.ts: [UserMetadata] *)

Module UserMetadata.
Record t := {
  orderStatus : jsstring;
  paymentStatus : jsstring;
  aiUses : Z;
  joinDate : Z;
  points : Z;
  memo : option jsstring }.
End UserMetadata.

(** ** Strings of the editor *)

(** [s.startsWith(prefix)] *)
Fixpoint startsWith (prefix s : jsstring) : bool :=
  match prefix, s with
  | [], _ => true
  | p :: prefix', c :: s' => N.eqb p c && startsWith prefix' s'
  | _ :: _, [] => false
  end.

(** The class [\s] of a regular expression: the white space and the line
    terminators of ECMAScript. *)
Definition is_white_space (c : code_unit) : bool :=
  ((9 <=? c) && (c <=? 13) || (c =? 32) || (c =? 160) || (c =? 5760) ||
   (8192 <=? c) && (c <=? 8202) || (c =? 8232) || (c =? 8233) || (c =? 8239) ||
   (c =? 8287) || (c =? 12288) || (c =? 65279))%N.

(** [s.replace(/\s/g, '_')] *)
Definition replace_white_space (s : jsstring) : jsstring :=
  map (fun c => if is_white_space c then c_underscore else c) s.

(** The question of [handleDeleteCard]. *)
Definition delete_question : jsstring := js "Are you sure you want to delete this card?".

(** The Korean literals of [handleGenerateBio]. *)
Definition ko_no_ai_uses : jsstring :=
  [65; 73; 32; 49324; 50857; 32; 54943; 49688; 44032; 32; 48512; 51313;
   54633; 45768; 45796; 46]%N.
Definition ko_ai_failed : jsstring :=
  [65; 73; 32; 49373; 49457; 51012; 32; 49892; 54056; 54664; 49845; 45768;
   45796; 46; 32; 45796; 49884; 32; 49884; 46020; 54644; 51452; 49464;
   50836; 46]%N.

Module Editor.

(** ** The state of the component *)

Inductive mode := hub | editor.

Record Component := {
  app : AppState;
  currentUser : option jsstring;
  userMetadata : option UserMetadata.t;
  appMode : mode;
  saveSuccess : bool;
  isGenerating : bool;
  isExporting : bool;
  exportMessage : jsstring }.

(** ** What a handler calls *)

(** The answer of [api.generateBio]. *)
Record BioResponse := { success : bool; bio : option jsstring }.

(** The API service: how each call ends. *)
Record Api := {
  saveCards : jsstring -> list SavedCard.t -> result unit;
  updateUserMeta : jsstring -> UserMetadata.t -> result unit;
  generateBio : jsstring -> jsstring -> jsstring -> result BioResponse }.

(** The browser: the answer to [window.confirm], whether the card preview
    is mounted ([cardPreviewRef.current]), the data URL that [html2canvas]
    and [canvas.toDataURL(type)] give for it, and the value of
    [crypto.randomUUID()]. *)
Record Browser := {
  confirm : jsstring -> bool;
  cardPreviewRef_current : bool;
  html2canvas_toDataURL : jsstring -> result jsstring;
  randomUUID : jsstring }.

(** The calls a handler makes outside the component, in order. *)
Inductive call :=
| api_saveCards (username : jsstring) (cards : list SavedCard.t)
| api_updateUserMeta (username : jsstring) (meta : UserMetadata.t)
| api_generateBio (name title company : jsstring)
| window_confirm (message : jsstring)
| window_alert (message : jsstring)
| log_error (message : jsstring)
| html2canvas (type : jsstring)
| download (href fileName : jsstring)
| setTimeout_setSaveSuccess_false.

(** ** Handlers

    A handler runs from a state of the component to the calls it made, the
    state it left and how it ended. A rejected promise that nothing
    catches ends the handler; what it had set stays set. *)
Definition act (A : Type) : Type := Component -> list call * Component * result A.

Definition ret {A} (a : A) : act A := fun c => ([], c, Ok a).

Definition bind {A B} (m : act A) (k : A -> act B) : act B :=
  fun c =>
    match m c with
    | (calls, c', Ok a) =>
        match k a c' with
        | (calls', c'', r) => (calls ++ calls', c'', r)
        end
    | (calls, c', Throw e) => (calls, c', Throw e)
    end.

(** A call that returns nothing of interest. *)
Definition perform (x : call) : act unit := fun c => ([x], c, Ok tt).

(** A call and what it answers, or how its promise ends. *)
Definition ask {A} (x : call) (answer : result A) : act A := fun c => ([x], c, answer).

(** A setter of the component. *)
Definition set_state (f : Component -> Component) : act unit := fun c => ([], f c, Ok tt).

(** [try { body } catch (error) { handler }] *)
Definition try_catch {A} (body : act A) (handler : exception -> act A) : act A :=
  fun c =>
    match body c with
    | (calls, c', Ok a) => (calls, c', Ok a)
    | (calls, c', Throw e) =>
        match handler e c' with
        | (calls', c'', r) => (calls ++ calls', c'', r)
        end
    end.

(** [try { body } finally { cleanup }] with a [cleanup] that does not
    throw. *)
Definition try_finally {A} (body : act A) (cleanup : act unit) : act A :=
  fun c =>
    match body c with
    | (calls, c', r) =>
        match cleanup c' with
        | (calls', c'', Ok _) => (calls ++ calls', c'', r)
        | (calls', c'', Throw e) => (calls ++ calls', c'', Throw e)
        end
    end.

Declare Scope act_scope.
Delimit Scope act_scope with act.
Notation "x <- m ;; k" := (bind m (fun x => k))
  (at level 61, m at next level, right associativity) : act_scope.
Notation "m ;; k" := (bind m (fun _ => k))
  (at level 61, right associativity) : act_scope.

Definition calls {A} (run : list call * Component * result A) : list call := fst (fst run).
Definition after {A} (run : list call * Component * result A) : Component := snd (fst run).
Definition ending {A} (run : list call * Component * result A) : result A := snd run.

(** *** The setters *)

Definition with_app (f : AppState -> AppState) (c : Component) : Component :=
  {| app := f (app c);
     currentUser := currentUser c;
     userMetadata := userMetadata c;
     appMode := appMode c;
     saveSuccess := saveSuccess c;
     isGenerating := isGenerating c;
     isExporting := isExporting c;
     exportMessage := exportMessage c |}.

(** [setCardData(update)], [update] being a function of the previous card
    or, for a plain value, the constant function. *)
Definition setCardData (update : BusinessCardData.t -> BusinessCardData.t) : act unit :=
  set_state (with_app (fun st =>
    {| cardData := update (cardData st); theme := theme st;
       savedCards := savedCards st; editingCardId := editingCardId st |})).

Definition setTheme (update : ThemeColors.t -> ThemeColors.t) : act unit :=
  set_state (with_app (fun st =>
    {| cardData := cardData st; theme := update (theme st);
       savedCards := savedCards st; editingCardId := editingCardId st |})).

Definition setSavedCards (cards : list SavedCard.t) : act unit :=
  set_state (with_app (fun st =>
    {| cardData := cardData st; theme := theme st;
       savedCards := cards; editingCardId := editingCardId st |})).

Definition setEditingCardId (id : option jsstring) : act unit :=
  set_state (with_app (fun st =>
    {| cardData := cardData st; theme := theme st;
       savedCards := savedCards st; editingCardId := id |})).

Definition setUserMetadata (meta : option UserMetadata.t) : act unit :=
  set_state (fun c =>
    {| app := app c; currentUser := currentUser c; userMetadata := meta;
       appMode := appMode c; saveSuccess := saveSuccess c;
       isGenerating := isGenerating c; isExporting := isExporting c;
       exportMessage := exportMessage c |}).

Definition setAppMode (m : mode) : act unit :=
  set_state (fun c =>
    {| app := app c; currentUser := currentUser c; userMetadata := userMetadata c;
       appMode := m; saveSuccess := saveSuccess c;
       isGenerating := isGenerating c; isExporting := isExporting c;
       exportMessage := exportMessage c |}).

Definition setSaveSuccess (b : bool) : act unit :=
  set_state (fun c =>
    {| app := app c; currentUser := currentUser c; userMetadata := userMetadata c;
       appMode := appMode c; saveSuccess := b;
       isGenerating := isGenerating c; isExporting := isExporting c;
       exportMessage := exportMessage c |}).

Definition setIsGenerating (b : bool) : act unit :=
  set_state (fun c =>
    {| app := app c; currentUser := currentUser c; userMetadata := userMetadata c;
       appMode := appMode c; saveSuccess := saveSuccess c;
       isGenerating := b; isExporting := isExporting c;
       exportMessage := exportMessage c |}).

Definition setIsExporting (b : bool) : act unit :=
  set_state (fun c =>
    {| app := app c; currentUser := currentUser c; userMetadata := userMetadata c;
       appMode := appMode c; saveSuccess := saveSuccess c;
       isGenerating := isGenerating c; isExporting := b;
       exportMessage := exportMessage c |}).

Definition setExportMessage (message : jsstring) : act unit :=
  set_state (fun c =>
    {| app := app c; currentUser := currentUser c; userMetadata := userMetadata c;
       appMode := appMode c; saveSuccess := saveSuccess c;
       isGenerating := isGenerating c; isExporting := isExporting c;
       exportMessage := message |}).

(** *** The saved cards *)

(** [updateSavedCards(newCards)], made in the render [render]: nothing is
    stored for a user who is not logged in, and the list of the component
    changes only after the API has stored it. *)
Definition updateSavedCards (api : Api) (render : Component)
    (newCards : list SavedCard.t) : act bool :=
  match currentUser render with
  | Some (c :: rest) =>
      let currentUser := c :: rest in
      try_catch
        (ask (api_saveCards currentUser newCards) (saveCards api currentUser newCards) ;;
         setSavedCards newCards ;;
         ret true)%act
        (fun error => perform (log_error (js "Failed to save cards:")) ;; ret false)%act
  | _ => ret false
  end.

(** [{ ...card, cardData, theme, thumbnail }] *)
Definition updated_card (card : SavedCard.t) (cardData : BusinessCardData.t)
    (theme : ThemeColors.t) (thumbnail : jsstring) : SavedCard.t :=
  {| SavedCard.id := SavedCard.id card;
     SavedCard.cardData := cardData;
     SavedCard.theme := theme;
     SavedCard.thumbnail := thumbnail;
     SavedCard.isPublic := SavedCard.isPublic card |}.

(** [handleSaveCard]: the thumbnail is the banner, or the picture that
    [html2canvas] draws when the card has no banner or a video; the card
    being edited is replaced in the list, a new card is appended; the
    success flag falls back after two seconds. *)
Definition handleSaveCard (api : Api) (browser : Browser) : act unit :=
  fun render =>
    (let st := app render in
     if negb (cardPreviewRef_current browser) then ret tt
     else
       thumbnail <-
         (let src := Media.src (BusinessCardData.bannerImage (cardData st)) in
          if nonempty src && negb (startsWith (js "data:video") src) then ret src
          else
            setExportMessage (js "Saving thumbnail...") ;;
            setIsExporting true ;;
            thumbnail <- ask (html2canvas (js "image/jpeg"))
                             (html2canvas_toDataURL browser (js "image/jpeg")) ;;
            setIsExporting false ;;
            setExportMessage [] ;;
            ret thumbnail) ;;
       success <-
         match editingCardId st with
         | Some (c :: rest) =>
             let editingCardId := c :: rest in
             let updatedCards :=
               map (fun card =>
                      if jsstring_eqb (SavedCard.id card) editingCardId
                      then updated_card card (cardData st) (theme st) thumbnail
                      else card)
                   (savedCards st) in
             updateSavedCards api render updatedCards
         | _ =>
             let newCardId := randomUUID browser in
             let newCard :=
               {| SavedCard.id := newCardId;
                  SavedCard.cardData := cardData st;
                  SavedCard.theme := theme st;
                  SavedCard.thumbnail := thumbnail;
                  SavedCard.isPublic := true |} in
             success <- updateSavedCards api render (savedCards st ++ [newCard]) ;;
             (if success : bool then setEditingCardId (Some newCardId) else ret tt) ;;
             ret success
         end ;;
       (if success : bool then
          setSaveSuccess true ;; perform setTimeout_setSaveSuccess_false
        else ret tt) ;;
       setIsExporting false ;;
       setExportMessage [])%act render.

Definition handleCreateNewCard (en : Locale) : act unit :=
  (setCardData (fun _ => DEFAULT_CARD_DATA en) ;;
   setTheme (fun _ => Arctic) ;;
   setEditingCardId None ;;
   setAppMode editor)%act.

(** [handleEditCard]: the first saved card with that id goes to the editor;
    nothing happens when there is none. *)
Definition handleEditCard (cardId : jsstring) : act unit :=
  fun render =>
    match find (fun c => jsstring_eqb (SavedCard.id c) cardId) (savedCards (app render)) with
    | Some cardToLoad =>
        (setCardData (fun _ => SavedCard.cardData cardToLoad) ;;
         setTheme (fun _ => SavedCard.theme cardToLoad) ;;
         setEditingCardId (Some cardId) ;;
         setAppMode editor)%act render
    | None => ret tt render
    end.

Definition handleDeleteCard (api : Api) (browser : Browser) (cardId : jsstring) : act unit :=
  fun render =>
    (confirmed <- ask (window_confirm delete_question)
                      (Ok (confirm browser delete_question)) ;;
     if confirmed : bool then
       let updatedCards :=
         filter (fun c => negb (jsstring_eqb (SavedCard.id c) cardId))
                (savedCards (app render)) in
       updateSavedCards api render updatedCards ;; ret tt
     else ret tt)%act render.

Definition handleTogglePrivacy (api : Api) (cardId : jsstring) : act unit :=
  fun render =>
    (let updatedCards :=
       map (fun card =>
              if jsstring_eqb (SavedCard.id card) cardId
              then {| SavedCard.id := SavedCard.id card;
                      SavedCard.cardData := SavedCard.cardData card;
                      SavedCard.theme := SavedCard.theme card;
                      SavedCard.thumbnail := SavedCard.thumbnail card;
                      SavedCard.isPublic := negb (SavedCard.isPublic card) |}
              else card)
           (savedCards (app render)) in
     updateSavedCards api render updatedCards ;; ret tt)%act render.

(** *** The look of the card *)

(** [{ ...prev, nameFontColor, titleFontColor, companyFontColor,
    baseFontColor }] *)
Definition with_font_colors (nameFontColor titleFontColor companyFontColor
    baseFontColor : jsstring) (prev : BusinessCardData.t) : BusinessCardData.t :=
  {| BusinessCardData.profilePicture := BusinessCardData.profilePicture prev;
     BusinessCardData.bannerImage := BusinessCardData.bannerImage prev;
     BusinessCardData.name := BusinessCardData.name prev;
     BusinessCardData.title := BusinessCardData.title prev;
     BusinessCardData.company := BusinessCardData.company prev;
     BusinessCardData.bio := BusinessCardData.bio prev;
     BusinessCardData.contactInfo := BusinessCardData.contactInfo prev;
     BusinessCardData.socialLinks := BusinessCardData.socialLinks prev;
     BusinessCardData.careerHistory := BusinessCardData.careerHistory prev;
     BusinessCardData.fontFamily := BusinessCardData.fontFamily prev;
     BusinessCardData.nameFontSize := BusinessCardData.nameFontSize prev;
     BusinessCardData.nameFontWeight := BusinessCardData.nameFontWeight prev;
     BusinessCardData.nameFontColor := nameFontColor;
     BusinessCardData.titleFontSize := BusinessCardData.titleFontSize prev;
     BusinessCardData.titleFontWeight := BusinessCardData.titleFontWeight prev;
     BusinessCardData.titleFontColor := titleFontColor;
     BusinessCardData.companyFontSize := BusinessCardData.companyFontSize prev;
     BusinessCardData.companyFontWeight := BusinessCardData.companyFontWeight prev;
     BusinessCardData.companyFontColor := companyFontColor;
     BusinessCardData.baseFontSize := BusinessCardData.baseFontSize prev;
     BusinessCardData.baseFontWeight := BusinessCardData.baseFontWeight prev;
     BusinessCardData.baseFontColor := baseFontColor;
     BusinessCardData.layout := BusinessCardData.layout prev |}.

(** [{ ...prev, fontFamily, nameFontSize, nameFontWeight, nameFontColor,
    ... , baseFontColor }]: the thirteen typography properties, the first
    nine from [defaults]. *)
Definition with_typography (defaults : BusinessCardData.t)
    (nameFontColor titleFontColor companyFontColor baseFontColor : jsstring)
    (prev : BusinessCardData.t) : BusinessCardData.t :=
  {| BusinessCardData.profilePicture := BusinessCardData.profilePicture prev;
     BusinessCardData.bannerImage := BusinessCardData.bannerImage prev;
     BusinessCardData.name := BusinessCardData.name prev;
     BusinessCardData.title := BusinessCardData.title prev;
     BusinessCardData.company := BusinessCardData.company prev;
     BusinessCardData.bio := BusinessCardData.bio prev;
     BusinessCardData.contactInfo := BusinessCardData.contactInfo prev;
     BusinessCardData.socialLinks := BusinessCardData.socialLinks prev;
     BusinessCardData.careerHistory := BusinessCardData.careerHistory prev;
     BusinessCardData.fontFamily := BusinessCardData.fontFamily defaults;
     BusinessCardData.nameFontSize := BusinessCardData.nameFontSize defaults;
     BusinessCardData.nameFontWeight := BusinessCardData.nameFontWeight defaults;
     BusinessCardData.nameFontColor := nameFontColor;
     BusinessCardData.titleFontSize := BusinessCardData.titleFontSize defaults;
     BusinessCardData.titleFontWeight := BusinessCardData.titleFontWeight defaults;
     BusinessCardData.titleFontColor := titleFontColor;
     BusinessCardData.companyFontSize := BusinessCardData.companyFontSize defaults;
     BusinessCardData.companyFontWeight := BusinessCardData.companyFontWeight defaults;
     BusinessCardData.companyFontColor := companyFontColor;
     BusinessCardData.baseFontSize := BusinessCardData.baseFontSize defaults;
     BusinessCardData.baseFontWeight := BusinessCardData.baseFontWeight defaults;
     BusinessCardData.baseFontColor := baseFontColor;
     BusinessCardData.layout := BusinessCardData.layout prev |}.

(** [{ ...prev, bannerImage, profilePicture }] *)
Definition with_media (bannerImage profilePicture : Media.t)
    (prev : BusinessCardData.t) : BusinessCardData.t :=
  {| BusinessCardData.profilePicture := profilePicture;
     BusinessCardData.bannerImage := bannerImage;
     BusinessCardData.name := BusinessCardData.name prev;
     BusinessCardData.title := BusinessCardData.title prev;
     BusinessCardData.company := BusinessCardData.company prev;
     BusinessCardData.bio := BusinessCardData.bio prev;
     BusinessCardData.contactInfo := BusinessCardData.contactInfo prev;
     BusinessCardData.socialLinks := BusinessCardData.socialLinks prev;
     BusinessCardData.careerHistory := BusinessCardData.careerHistory prev;
     BusinessCardData.fontFamily := BusinessCardData.fontFamily prev;
     BusinessCardData.nameFontSize := BusinessCardData.nameFontSize prev;
     BusinessCardData.nameFontWeight := BusinessCardData.nameFontWeight prev;
     BusinessCardData.nameFontColor := BusinessCardData.nameFontColor prev;
     BusinessCardData.titleFontSize := BusinessCardData.titleFontSize prev;
     BusinessCardData.titleFontWeight := BusinessCardData.titleFontWeight prev;
     BusinessCardData.titleFontColor := BusinessCardData.titleFontColor prev;
     BusinessCardData.companyFontSize := BusinessCardData.companyFontSize prev;
     BusinessCardData.companyFontWeight := BusinessCardData.companyFontWeight prev;
     BusinessCardData.companyFontColor := BusinessCardData.companyFontColor prev;
     BusinessCardData.baseFontSize := BusinessCardData.baseFontSize prev;
     BusinessCardData.baseFontWeight := BusinessCardData.baseFontWeight prev;
     BusinessCardData.baseFontColor := BusinessCardData.baseFontColor prev;
     BusinessCardData.layout := BusinessCardData.layout prev |}.

(** [{ ...prev, bio }] *)
Definition with_bio (bio : jsstring)
    (prev : BusinessCardData.t) : BusinessCardData.t :=
  {| BusinessCardData.profilePicture := BusinessCardData.profilePicture prev;
     BusinessCardData.bannerImage := BusinessCardData.bannerImage prev;
     BusinessCardData.name := BusinessCardData.name prev;
     BusinessCardData.title := BusinessCardData.title prev;
     BusinessCardData.company := BusinessCardData.company prev;
     BusinessCardData.bio := bio;
     BusinessCardData.contactInfo := BusinessCardData.contactInfo prev;
     BusinessCardData.socialLinks := BusinessCardData.socialLinks prev;
     BusinessCardData.careerHistory := BusinessCardData.careerHistory prev;
     BusinessCardData.fontFamily := BusinessCardData.fontFamily prev;
     BusinessCardData.nameFontSize := BusinessCardData.nameFontSize prev;
     BusinessCardData.nameFontWeight := BusinessCardData.nameFontWeight prev;
     BusinessCardData.nameFontColor := BusinessCardData.nameFontColor prev;
     BusinessCardData.titleFontSize := BusinessCardData.titleFontSize prev;
     BusinessCardData.titleFontWeight := BusinessCardData.titleFontWeight prev;
     BusinessCardData.titleFontColor := BusinessCardData.titleFontColor prev;
     BusinessCardData.companyFontSize := BusinessCardData.companyFontSize prev;
     BusinessCardData.companyFontWeight := BusinessCardData.companyFontWeight prev;
     BusinessCardData.companyFontColor := BusinessCardData.companyFontColor prev;
     BusinessCardData.baseFontSize := BusinessCardData.baseFontSize prev;
     BusinessCardData.baseFontWeight := BusinessCardData.baseFontWeight prev;
     BusinessCardData.baseFontColor := BusinessCardData.baseFontColor prev;
     BusinessCardData.layout := BusinessCardData.layout prev |}.

Definition handleThemeChange (newTheme : ThemeColors.t) : act unit :=
  (setTheme (fun _ => newTheme) ;;
   setCardData (with_font_colors
                  (ThemeColors.primary newTheme) (ThemeColors.text newTheme)
                  (ThemeColors.primary newTheme) (ThemeColors.text newTheme)))%act.

Definition handleStyleReset (en : Locale) : act unit :=
  (setTheme (fun _ => Arctic) ;;
   setCardData (with_typography (DEFAULT_CARD_DATA en)
                  (ThemeColors.primary Arctic) (ThemeColors.text Arctic)
                  (ThemeColors.primary Arctic) (ThemeColors.text Arctic)))%act.

Definition handleTypographyReset (en : Locale) : act unit :=
  fun render =>
    (let theme := theme (app render) in
     setCardData (with_typography (DEFAULT_CARD_DATA en)
                    (ThemeColors.primary theme) (ThemeColors.text theme)
                    (ThemeColors.primary theme) (ThemeColors.text theme))) render.

Definition handleMediaReset (en : Locale) : act unit :=
  setCardData (with_media (BusinessCardData.bannerImage (DEFAULT_CARD_DATA en))
                          (BusinessCardData.profilePicture (DEFAULT_CARD_DATA en))).

(** *** The bio written by the AI *)

(** [decrementAiUses], made in the render [render]. *)
Definition decrementAiUses (api : Api) (render : Component) : act unit :=
  match currentUser render, userMetadata render with
  | Some (c :: rest), Some userMetadata =>
      let currentUser := c :: rest in
      let newUses := Z.max 0 (UserMetadata.aiUses userMetadata - 1) in
      let newMeta :=
        {| UserMetadata.orderStatus := UserMetadata.orderStatus userMetadata;
           UserMetadata.paymentStatus := UserMetadata.paymentStatus userMetadata;
           UserMetadata.aiUses := newUses;
           UserMetadata.joinDate := UserMetadata.joinDate userMetadata;
           UserMetadata.points := UserMetadata.points userMetadata;
           UserMetadata.memo := UserMetadata.memo userMetadata |} in
      (ask (api_updateUserMeta currentUser newMeta)
           (updateUserMeta api currentUser newMeta) ;;
       setUserMetadata (Some newMeta))%act
  | _, _ => ret tt
  end.

(** [!currentUser || !userMetadata || userMetadata.aiUses <= 0] *)
Definition no_ai_use_left (render : Component) : bool :=
  match currentUser render, userMetadata render with
  | Some (_ :: _), Some userMetadata => (UserMetadata.aiUses userMetadata <=? 0)%Z
  | _, _ => true
  end.

Definition handleGenerateBio (api : Api) : act unit :=
  fun render =>
    (if no_ai_use_left render then perform (window_alert ko_no_ai_uses)
     else
       let cardData := cardData (app render) in
       let name := BusinessCardData.name cardData in
       let title := BusinessCardData.title cardData in
       let company := BusinessCardData.company cardData in
       setIsGenerating true ;;
       try_finally
         (try_catch
            (response <- ask (api_generateBio name title company)
                             (generateBio api name title company) ;;
             match success response, bio response with
             | true, Some (c :: rest) =>
                 setCardData (with_bio (c :: rest)) ;;
                 decrementAiUses api render
             | _, _ => perform (window_alert ko_ai_failed)
             end)
            (fun error =>
               perform (log_error (js "Failed to generate bio:")) ;;
               perform (window_alert ko_ai_failed)))
         (setIsGenerating false))%act render.

(** *** The picture of the card *)

(** [`${cardData.name.replace(/\s/g, '_')}_business_card.png`] *)
Definition download_name (name : jsstring) : jsstring :=
  replace_white_space name ++ js "_business_card.png".

(** [handleDownload('png')]: the picture of the preview, offered as a
    download through a link that is clicked and removed. *)
Definition handleDownload (browser : Browser) : act unit :=
  fun render =>
    (if negb (cardPreviewRef_current browser) then ret tt
     else
       setExportMessage (js "Generating PNG...") ;;
       setIsExporting true ;;
       href <- ask (html2canvas (js "image/png"))
                   (html2canvas_toDataURL browser (js "image/png")) ;;
       perform (download href (download_name (BusinessCardData.name (cardData (app render))))) ;;
       setIsExporting false ;;
       setExportMessage [])%act render.

End Editor.

(** ** What the statements about the handlers speak of *)

(** The events of a sharing handler that shows the busy overlay from its
    first step to its last. *)
Definition busy_from_start_to_end (events : list event) : Prop :=
  exists middle,
    events = [setExportMessage (js "Creating share link..."); setIsExporting true]
             ++ middle ++ [setIsExporting false; setExportMessage []].

(** "Link Copied!" is shown exactly when a clipboard write was made and
    went through. *)
Definition flagged_iff_copied (nav : Navigator) (events : list event) : Prop :=
  In (setCopySuccess true) events <->
  exists text, In (clipboard_writeText text) events /\ writeText nav text = Ok tt.

(** [{ cardData, theme }] of a saved card. *)
Definition data_of (card : SavedCard.t) : DataToShare.t :=
  {| DataToShare.cardData := SavedCard.cardData card;
     DataToShare.theme := SavedCard.theme card |}.

(** The state of the sharing handlers with another card in the editor. *)
Definition with_card (card : BusinessCardData.t) (st : AppState) : AppState :=
  {| cardData := card; theme := theme st;
     savedCards := savedCards st; editingCardId := editingCardId st |}.

(** The component with another list of saved cards. *)
Definition with_savedCards (cards : list SavedCard.t) (c : Editor.Component) :
    Editor.Component :=
  Editor.with_app (fun st =>
    {| cardData := cardData st; theme := theme st;
       savedCards := cards; editingCardId := editingCardId st |}) c.

(** The user of [updateSavedCards]: [currentUser] when it is truthy, a
    string that is not empty. *)
Definition logged_in (c : Editor.Component) : option jsstring :=
  match Editor.currentUser c with
  | Some (u :: rest) => Some (u :: rest)
  | _ => None
  end.

(** The list of saved cards after a run is the one before it, or one that
    the API has stored for the user. *)
Definition stored_or_unchanged (api : Editor.Api) (c : Editor.Component) (A : Type)
    (run : list Editor.call * Editor.Component * result A) : Prop :=
  let cards := savedCards (Editor.app (Editor.after run)) in
  cards = savedCards (Editor.app c) \/
  exists user,
    logged_in c = Some user /\
    In (Editor.api_saveCards user cards) (Editor.calls run) /\
    Editor.saveCards api user cards = Ok tt.

(** The thumbnail that [handleSaveCard] takes from the card: its banner,
    unless it has none or a video. *)
Definition banner_thumbnail (card : BusinessCardData.t) : option jsstring :=
  let src := Media.src (BusinessCardData.bannerImage card) in
  if nonempty src && negb (startsWith (js "data:video") src) then Some src else None.

(** The thumbnail of [handleSaveCard]: the banner, or else the picture
    drawn by [html2canvas]. *)
Definition thumbnail_of (browser : Editor.Browser) (card : BusinessCardData.t) :
    result jsstring :=
  match banner_thumbnail card with
  | Some src => Ok src
  | None => Editor.html2canvas_toDataURL browser (js "image/jpeg")
  end.

(** What the editor shows, as a payload and as a saved card. *)
Definition on_screen (c : Editor.Component) : DataToShare.t :=
  {| DataToShare.cardData := cardData (Editor.app c);
     DataToShare.theme := theme (Editor.app c) |}.

Definition card_on_screen (c : Editor.Component) (id thumbnail : jsstring)
    (isPublic : bool) : SavedCard.t :=
  {| SavedCard.id := id;
     SavedCard.cardData := cardData (Editor.app c);
     SavedCard.theme := theme (Editor.app c);
     SavedCard.thumbnail := thumbnail;
     SavedCard.isPublic := isPublic |}.

(** The component after a save that went through: the list [cards], the
    card [editing] under edit, the success flag up and the overlay down. *)
Definition saved (cards : list SavedCard.t) (editing : option jsstring)
    (c : Editor.Component) : Editor.Component :=
  {| Editor.app := {| cardData := cardData (Editor.app c);
                      theme := theme (Editor.app c);
                      savedCards := cards;
                      editingCardId := editing |};
     Editor.currentUser := Editor.currentUser c;
     Editor.userMetadata := Editor.userMetadata c;
     Editor.appMode := Editor.appMode c;
     Editor.saveSuccess := true;
     Editor.isGenerating := Editor.isGenerating c;
     Editor.isExporting := false;
     Editor.exportMessage := [] |}.

(** The list that [handleSaveCard] stores for the card under edit. *)
Definition updated_cards (c : Editor.Component) (cardId thumbnail : jsstring) :
    list SavedCard.t :=
  map (fun card =>
         if jsstring_eqb (SavedCard.id card) cardId
         then Editor.updated_card card (cardData (Editor.app c)) (theme (Editor.app c))
                thumbnail
         else card)
      (savedCards (Editor.app c)).

(** The list that [handleTogglePrivacy] stores. *)
Definition toggled (cardId : jsstring) (cards : list SavedCard.t) : list SavedCard.t :=
  map (fun card =>
         if jsstring_eqb (SavedCard.id card) cardId
         then {| SavedCard.id := SavedCard.id card;
                 SavedCard.cardData := SavedCard.cardData card;
                 SavedCard.theme := SavedCard.theme card;
                 SavedCard.thumbnail := SavedCard.thumbnail card;
                 SavedCard.isPublic := negb (SavedCard.isPublic card) |}
         else card)
      cards.

(** The thirteen typography properties of a card. *)
Definition typography (d : BusinessCardData.t) :
    jsstring * (Z * Z * jsstring) * (Z * Z * jsstring) * (Z * Z * jsstring)
    * (Z * Z * jsstring) :=
  (BusinessCardData.fontFamily d,
   (BusinessCardData.nameFontSize d, BusinessCardData.nameFontWeight d,
    BusinessCardData.nameFontColor d),
   (BusinessCardData.titleFontSize d, BusinessCardData.titleFontWeight d,
    BusinessCardData.titleFontColor d),
   (BusinessCardData.companyFontSize d, BusinessCardData.companyFontWeight d,
    BusinessCardData.companyFontColor d),
   (BusinessCardData.baseFontSize d, BusinessCardData.baseFontWeight d,
    BusinessCardData.baseFontColor d)).

Definition bio_of (c : Editor.Component) : jsstring :=
  BusinessCardData.bio (cardData (Editor.app c)).

Definition ai_uses (c : Editor.Component) : option Z :=
  option_map UserMetadata.aiUses (Editor.userMetadata c).

(** The metadata that [decrementAiUses] writes. *)
Definition one_use_less (meta : UserMetadata.t) : UserMetadata.t :=
  {| UserMetadata.orderStatus := UserMetadata.orderStatus meta;
     UserMetadata.paymentStatus := UserMetadata.paymentStatus meta;
     UserMetadata.aiUses := Z.max 0 (UserMetadata.aiUses meta - 1);
     UserMetadata.joinDate := UserMetadata.joinDate meta;
     UserMetadata.points := UserMetadata.points meta;
     UserMetadata.memo := UserMetadata.memo meta |}.


(** ** Sample data of the hub and the editor *)

(** A platform whose [FileReader] gives a data URL without a comma. *)
Definition comma_free_platform : Platform := {|
  JSON_stringify := JSON.stringify;
  JSON_parse := JSON.parse;
  utf8_encode := Utf8.encode;
  utf8_decode := Utf8.decode;
  gzip := Gzip.gzip;
  gunzip := Gzip.gunzip;
  readAsDataURL := fun _ => js "data:";
  fetch_data_url := DataUrl.fetch;
  URLSearchParams_get := SearchParams.get |}.

(** [THEMES.Midnight] *)
Definition Midnight : ThemeColors.t :=
  {| ThemeColors.background := js "#111827"; ThemeColors.text := js "#D1D5DB";
     ThemeColors.primary := js "#FFFFFF"; ThemeColors.accent := js "#4B5563" |}.

Definition public_card : SavedCard.t :=
  {| SavedCard.id := js "card-1";
     SavedCard.cardData := sample_card;
     SavedCard.theme := Arctic;
     SavedCard.thumbnail := js "data:image/jpeg;base64,AAAA";
     SavedCard.isPublic := true |}.

Definition private_card : SavedCard.t :=
  {| SavedCard.id := js "card-2";
     SavedCard.cardData := sample_card;
     SavedCard.theme := Midnight;
     SavedCard.thumbnail := js "data:image/jpeg;base64,BBBB";
     SavedCard.isPublic := false |}.

(** The sample card with another bio, as the editor shows it after an edit
    that is not saved. *)
Definition edited_card : BusinessCardData.t :=
  Editor.with_bio (js "Rewrites things.") sample_card.

(** The hub of a user with two saved cards, [editing] being the card in the
    editor. *)
Definition two_cards (editing : option jsstring) : AppState :=
  {| cardData := sample_card; theme := Arctic;
     savedCards := [public_card; private_card];
     editingCardId := editing |}.

Definition jane_metadata : UserMetadata.t :=
  {| UserMetadata.orderStatus := js "pending";
     UserMetadata.paymentStatus := js "pending";
     UserMetadata.aiUses := 3;
     UserMetadata.joinDate := 1700000000000;
     UserMetadata.points := 0;
     UserMetadata.memo := None |}.

Definition jane (editing : option jsstring) : Editor.Component :=
  {| Editor.app := two_cards editing;
     Editor.currentUser := Some (js "jane");
     Editor.userMetadata := Some jane_metadata;
     Editor.appMode := Editor.hub;
     Editor.saveSuccess := false;
     Editor.isGenerating := false;
     Editor.isExporting := false;
     Editor.exportMessage := [] |}.

(** An API whose calls go through, and one that cannot write the
    metadata. *)
Definition working_api : Editor.Api :=
  {| Editor.saveCards := fun _ _ => Ok tt;
     Editor.updateUserMeta := fun _ _ => Ok tt;
     Editor.generateBio := fun _ _ _ =>
       Ok {| Editor.success := true; Editor.bio := Some (js "Builds and ships.") |} |}.

Definition api_without_metadata : Editor.Api :=
  {| Editor.saveCards := fun _ _ => Ok tt;
     Editor.updateUserMeta := fun _ _ => Throw (Error (js "storage is full"));
     Editor.generateBio := fun _ _ _ =>
       Ok {| Editor.success := true; Editor.bio := Some (js "Builds and ships.") |} |}.

(** A browser in which the user confirms and the preview can be drawn, and
    one in which drawing fails. *)
Definition drawing_browser : Editor.Browser :=
  {| Editor.confirm := fun _ => true;
     Editor.cardPreviewRef_current := true;
     Editor.html2canvas_toDataURL := fun type => Ok (js "data:" ++ type ++ js ";base64,CCCC");
     Editor.randomUUID := js "card-3" |}.

Definition blind_browser : Editor.Browser :=
  {| Editor.confirm := fun _ => true;
     Editor.cardPreviewRef_current := true;
     Editor.html2canvas_toDataURL := fun _ => Throw DOMException;
     Editor.randomUUID := js "card-3" |}.


(** * Strings *)

Lemma jsstring_eqb_eq s t : jsstring_eqb s t = true <-> s = t.
Proof.
  revert t. induction s as [|c s IH]; intros [|d t]; simpl; split; try congruence.
  - intros H. apply andb_true_iff in H. destruct H as [H1 H2].
    apply N.eqb_eq in H1. apply IH in H2. congruence.
  - intros H. injection H as -> ->. rewrite N.eqb_refl. now apply IH.
Qed.

(** * Properties of the URL-safe transforms *)

Lemma replace_all_length c d s : length (replace_all c d s) = length s.
Proof. unfold replace_all. apply length_map. Qed.

Lemma replace_all_app c d s t :
  replace_all c d (s ++ t) = replace_all c d s ++ replace_all c d t.
Proof. unfold replace_all. apply map_app. Qed.

Lemma remove_all_app c s t :
  remove_all c (s ++ t) = remove_all c s ++ remove_all c t.
Proof. unfold remove_all. apply filter_app. Qed.

Lemma replace_all_repeat c d x n :
  x <> c -> replace_all c d (repeat x n) = repeat x n.
Proof.
  intros Hx. induction n as [|n IH]; simpl; [reflexivity|].
  destruct (N.eqb_spec x c); [contradiction|]. now rewrite IH.
Qed.

Lemma remove_all_repeat c n : remove_all c (repeat c n) = [].
Proof.
  induction n as [|n IH]; simpl; [reflexivity|].
  now rewrite N.eqb_refl.
Qed.

(** A character that occurs nowhere is neither replaced nor removed. *)
Lemma replace_all_absent c d s :
  ~ In c s -> replace_all c d s = s.
Proof.
  induction s as [|x s IH]; simpl; intros Hn; [reflexivity|].
  destruct (N.eqb_spec x c) as [->|_]; [exfalso; apply Hn; now left|].
  f_equal. apply IH. intros Hin. apply Hn. now right.
Qed.

Lemma remove_all_absent c s :
  ~ In c s -> remove_all c s = s.
Proof.
  induction s as [|x s IH]; simpl; intros Hn; [reflexivity|].
  destruct (N.eqb_spec x c) as [->|_]; [exfalso; apply Hn; now left|].
  simpl. f_equal. apply IH. intros Hin. apply Hn. now right.
Qed.

(** After [replace(/c/g, d)] with [d <> c], no [c] is left. *)
Lemma replace_all_not_In c d s :
  d <> c -> ~ In c (replace_all c d s).
Proof.
  intros Hd Hin. unfold replace_all in Hin. apply in_map_iff in Hin.
  destruct Hin as [x [Hx _]].
  destruct (N.eqb_spec x c); congruence.
Qed.

(** Replacing [c] by [d] and then [d] by [c] is the identity on strings
    without [d]. *)
Lemma replace_all_inverse c d s :
  ~ In d s -> replace_all d c (replace_all c d s) = s.
Proof.
  induction s as [|x s IH]; simpl; intros Hn; [reflexivity|].
  rewrite IH by (intros Hin; apply Hn; now right).
  f_equal.
  destruct (N.eqb_spec x c) as [->|Hxc].
  - now rewrite N.eqb_refl.
  - destruct (N.eqb_spec x d) as [->|_]; [exfalso; apply Hn; now left|reflexivity].
Qed.

Lemma replace_all_preserves_absent c d e s :
  e <> d -> ~ In e s -> ~ In e (replace_all c d s).
Proof.
  intros Hed Hn Hin. unfold replace_all in Hin. apply in_map_iff in Hin.
  destruct Hin as [x [Hx Hxs]].
  destruct (N.eqb_spec x c); subst; [congruence|contradiction].
Qed.

Lemma remove_all_not_In c s : ~ In c (remove_all c s).
Proof.
  unfold remove_all. intros Hin. apply filter_In in Hin.
  destruct Hin as [_ Hc]. now rewrite N.eqb_refl in Hc.
Qed.

Lemma remove_all_preserves_absent c e s :
  ~ In e s -> ~ In e (remove_all c s).
Proof.
  unfold remove_all. intros Hn Hin. apply filter_In in Hin. tauto.
Qed.

(** *** The padding loop *)

Lemma pad_loop_done s : length_mod_4 s = 0 -> pad_loop s = s.
Proof.
  intros H. rewrite pad_loop_equation_1.
  destruct (Nat.eq_dec (length_mod_4 s) 0); [reflexivity|contradiction].
Qed.

Lemma pad_loop_step s :
  length_mod_4 s <> 0 -> pad_loop s = pad_loop (s ++ [c_equals]).
Proof.
  intros H. rewrite pad_loop_equation_1.
  destruct (Nat.eq_dec (length_mod_4 s) 0); [contradiction|reflexivity].
Qed.

Lemma pad_loop_iterations_done s :
  length_mod_4 s = 0 -> pad_loop_iterations s = 0.
Proof.
  intros H. rewrite pad_loop_iterations_equation_1.
  destruct (Nat.eq_dec (length_mod_4 s) 0); [reflexivity|contradiction].
Qed.

Lemma pad_loop_iterations_step s :
  length_mod_4 s <> 0 ->
  pad_loop_iterations s = S (pad_loop_iterations (s ++ [c_equals])).
Proof.
  intros H. rewrite pad_loop_iterations_equation_1.
  destruct (Nat.eq_dec (length_mod_4 s) 0); [contradiction|reflexivity].
Qed.

Lemma to_go_zero s : to_go s = 0 <-> length_mod_4 s = 0.
Proof.
  unfold to_go. pose proof (length_mod_4_lt s).
  destruct (length_mod_4 s) as [|[|[|[|k]]]]; cbn; lia.
Qed.

Lemma to_go_succ s c k :
  to_go s = S k -> to_go (s ++ [c]) = k.
Proof.
  unfold to_go. rewrite length_mod_4_snoc. pose proof (length_mod_4_lt s).
  destruct (length_mod_4 s) as [|[|[|[|j]]]]; cbn; lia.
Qed.

Lemma repeat_snoc (A : Type) (x : A) n : repeat x n ++ [x] = x :: repeat x n.
Proof. induction n as [|n IH]; simpl; [reflexivity|now rewrite IH]. Qed.

(** The loop appends exactly [to_go s] characters [=], one per iteration. *)
Lemma pad_loop_spec s :
  pad_loop s = s ++ repeat c_equals (to_go s) /\
  pad_loop_iterations s = to_go s.
Proof.
  remember (to_go s) as k eqn:Hk. symmetry in Hk.
  revert s Hk. induction k as [|k IH]; intros s Hk.
  - apply to_go_zero in Hk.
    rewrite pad_loop_done, pad_loop_iterations_done by assumption.
    simpl. now rewrite app_nil_r.
  - assert (Hne : length_mod_4 s <> 0).
    { intros H0. apply to_go_zero in H0. lia. }
    rewrite pad_loop_step, pad_loop_iterations_step by assumption.
    destruct (IH (s ++ [c_equals]) (to_go_succ s c_equals Hk)) as [-> ->].
    split; [|reflexivity].
    rewrite <- app_assoc. simpl. reflexivity.
Qed.

Lemma to_go_le_3 s : to_go s <= 3.
Proof.
  unfold to_go.
  pose proof (Nat.mod_upper_bound (4 - length_mod_4 s) 4). lia.
Qed.

Lemma pad_loop_length s : length (pad_loop s) mod 4 = 0.
Proof.
  destruct (pad_loop_spec s) as [-> _].
  rewrite length_app, repeat_length.
  unfold to_go, length_mod_4.
  pose proof (Nat.mod_upper_bound (length s) 4 ltac:(lia)) as Hlt.
  pose proof (Nat.div_mod_eq (length s) 4) as Hdm.
  remember (length s mod 4) as r eqn:Hr.
  replace (length s + (4 - r) mod 4) with ((4 - r) mod 4 + r + length s / 4 * 4) by lia.
  rewrite Nat.Div0.mod_add.
  destruct r as [|[|[|[|j]]]]; cbn; lia.
Qed.

(** *** The two transforms on standard base64 *)

Lemma is_base64_char_not_url_safe c :
  is_base64_char c = true ->
  c <> c_equals /\ c <> c_minus /\ c <> c_underscore.
Proof.
  unfold is_base64_char, c_equals, c_minus, c_underscore, c_plus, c_slash, ch.
  simpl N_of_ascii. intros H.
  repeat (apply orb_true_iff in H; destruct H as [H|H]);
    try (apply andb_true_iff in H; destruct H as [H1 H2];
         apply N.leb_le in H1; apply N.leb_le in H2);
    try apply N.eqb_eq in H; lia.
Qed.

Lemma forallb_absent (p : code_unit -> bool) c s :
  forallb p s = true -> p c = false -> ~ In c s.
Proof.
  intros Hall Hc Hin. rewrite forallb_forall in Hall.
  specialize (Hall c Hin). congruence.
Qed.

Lemma base64_body_absent body :
  forallb is_base64_char body = true ->
  ~ In c_equals body /\ ~ In c_minus body /\ ~ In c_underscore body.
Proof.
  intros H. repeat split; (eapply forallb_absent; [exact H|reflexivity]).
Qed.

(** On a string with no [=], [-] or [_], the decode-side replacements undo
    the encode-side ones character by character. *)
Lemma url_safe_replacements_inverse body :
  ~ In c_minus body -> ~ In c_underscore body ->
  replace_all c_underscore c_slash
    (replace_all c_minus c_plus
       (replace_all c_slash c_underscore (replace_all c_plus c_minus body))) = body.
Proof.
  intros Hm Hu. unfold replace_all. rewrite !map_map.
  rewrite <- (map_id body) at 2. apply map_ext_in.
  intros x Hx.
  assert (x <> c_minus) by (intros ->; contradiction).
  assert (x <> c_underscore) by (intros ->; contradiction).
  destruct (N.eqb_spec x c_plus) as [->|Hp]; [reflexivity|].
  destruct (N.eqb_spec x c_slash) as [->|Hs]; [reflexivity|].
  destruct (N.eqb_spec x c_minus); [contradiction|].
  destruct (N.eqb_spec x c_underscore); [contradiction|reflexivity].
Qed.

Lemma toUrlSafeBase64_padded body pad :
  ~ In c_equals body ->
  toUrlSafeBase64 (body ++ repeat c_equals pad) =
  replace_all c_slash c_underscore (replace_all c_plus c_minus body).
Proof.
  intros He. unfold toUrlSafeBase64.
  rewrite !replace_all_app, remove_all_app.
  rewrite (replace_all_repeat c_minus pad (x:=c_equals)) by discriminate.
  rewrite (replace_all_repeat c_underscore pad (x:=c_equals)) by discriminate.
  rewrite remove_all_repeat, app_nil_r.
  apply remove_all_absent.
  apply replace_all_preserves_absent; [discriminate|].
  apply replace_all_preserves_absent; [discriminate|assumption].
Qed.

Lemma to_go_of_padding n pad :
  pad <= 3 -> (n + pad) mod 4 = 0 -> (4 - n mod 4) mod 4 = pad.
Proof.
  intros Hp H.
  rewrite Nat.Div0.add_mod in H.
  pose proof (Nat.mod_upper_bound n 4 ltac:(lia)) as Hlt.
  rewrite (Nat.mod_small pad 4) in H by lia.
  destruct (n mod 4) as [|[|[|[|j]]]]; [| | | |lia];
    destruct pad as [|[|[|[|q]]]]; cbn in *; lia.
Qed.

(** The decode-side transform undoes the encode-side one on a body without
    [=], [-] or [_] followed by the padding that completes it to a multiple
    of four. *)
Lemma url_safe_inverse_padded body pad :
  ~ In c_equals body -> ~ In c_minus body -> ~ In c_underscore body ->
  pad <= 3 -> (length body + pad) mod 4 = 0 ->
  fromUrlSafeBase64 (toUrlSafeBase64 (body ++ repeat c_equals pad)) =
  body ++ repeat c_equals pad.
Proof.
  intros He Hm Hu Hpad Hlen.
  rewrite toUrlSafeBase64_padded by assumption.
  unfold fromUrlSafeBase64.
  rewrite url_safe_replacements_inverse by assumption.
  destruct (pad_loop_spec body) as [-> _].
  f_equal. f_equal. unfold to_go, length_mod_4.
  now apply to_go_of_padding.
Qed.

(** C6: for every standard base64 string [b] (alphabet characters, then at
    most two [=], length a multiple of four),
    [fromUrlSafeBase64 (toUrlSafeBase64 b) = b]: the decode side maps [-]
    back to [+], [_] back to [/] and pads with [=] up to a multiple of
    four, which undoes the encode side exactly. *)
Theorem fromUrlSafeBase64_toUrlSafeBase64 (b : jsstring) :
  standard_base64 b -> fromUrlSafeBase64 (toUrlSafeBase64 b) = b.
Proof.
  intros (body & pad & -> & Hbody & Hpad & Hlen).
  destruct (base64_body_absent body Hbody) as (He & Hm & Hu).
  rewrite length_app, repeat_length in Hlen.
  apply url_safe_inverse_padded; try assumption.
  lia.
Qed.

Lemma fromUrlSafeBase64_toUrlSafeBase64_witness :
  standard_base64 (js "ab+/cQ==") /\
  fromUrlSafeBase64 (toUrlSafeBase64 (js "ab+/cQ==")) = js "ab+/cQ==".
Proof.
  assert (H : standard_base64 (js "ab+/cQ==")).
  { exists (js "ab+/cQ"), 2. repeat split; reflexivity. }
  split; [exact H|].
  exact (fromUrlSafeBase64_toUrlSafeBase64 H).
Defined.

(** The token alphabet: [toUrlSafeBase64] leaves none of [+], [/], [=],
    whatever string it is given. *)
Lemma toUrlSafeBase64_url_safe (s : jsstring) :
  ~ In c_plus (toUrlSafeBase64 s) /\
  ~ In c_slash (toUrlSafeBase64 s) /\
  ~ In c_equals (toUrlSafeBase64 s).
Proof.
  unfold toUrlSafeBase64. repeat split.
  - apply remove_all_preserves_absent.
    apply replace_all_preserves_absent; [discriminate|].
    apply replace_all_not_In. discriminate.
  - apply remove_all_preserves_absent.
    apply replace_all_not_In. discriminate.
  - apply remove_all_not_In.
Qed.

Lemma standard_base64_token_length b :
  standard_base64 b -> length (toUrlSafeBase64 b) mod 4 <> 1.
Proof.
  intros (body & pad & -> & Hbody & Hpad & Hlen).
  destruct (base64_body_absent body Hbody) as (He & _ & _).
  rewrite toUrlSafeBase64_padded by assumption.
  rewrite !replace_all_length.
  rewrite length_app, repeat_length in Hlen.
  rewrite Nat.Div0.add_mod in Hlen.
  rewrite (Nat.mod_small pad 4) in Hlen by lia.
  intros H1. rewrite H1 in Hlen.
  destruct pad as [|[|[|q]]]; cbn in Hlen; lia.
Qed.

(** C10: [fromUrlSafeBase64] is total; on every input the padding loop runs
    at most three times and the result has a length that is a multiple of
    four. When the input length is 1 modulo 4 the loop appends three [=];
    no token made by [toUrlSafeBase64] from standard base64 has that
    length. *)
Theorem fromUrlSafeBase64_terminates_padded (s : jsstring) :
  let replaced := replace_all c_underscore c_slash (replace_all c_minus c_plus s) in
  fromUrlSafeBase64 s = replaced ++ repeat c_equals (pad_loop_iterations replaced) /\
  pad_loop_iterations replaced <= 3 /\
  length (fromUrlSafeBase64 s) mod 4 = 0 /\
  (length s mod 4 = 1 -> fromUrlSafeBase64 s = replaced ++ js "===") /\
  (forall b, standard_base64 b -> length (toUrlSafeBase64 b) mod 4 <> 1).
Proof.
  intros replaced. unfold fromUrlSafeBase64. fold replaced.
  destruct (pad_loop_spec replaced) as [Hpad Hit].
  repeat split.
  - rewrite Hit. exact Hpad.
  - rewrite Hit. apply to_go_le_3.
  - apply pad_loop_length.
  - intros H1. rewrite Hpad. f_equal.
    unfold to_go, length_mod_4, replaced.
    rewrite !replace_all_length, H1. reflexivity.
  - apply standard_base64_token_length.
Qed.

Lemma fromUrlSafeBase64_terminates_padded_witness :
  fromUrlSafeBase64 (js "ab-_c") = js "ab+/c===" /\
  length (js "ab-_c") mod 4 = 1.
Proof.
  destruct (fromUrlSafeBase64_terminates_padded (js "ab-_c")) as (_ & _ & _ & H & _).
  split; [exact (H eq_refl)|reflexivity].
Defined.

(** * The codec over a lawful platform *)

Lemma split_no_separator sep s : ~ In sep s -> split sep s = [s].
Proof.
  induction s as [|c s IH]; simpl; intros Hn; [reflexivity|].
  destruct (N.eqb_spec c sep) as [->|_]; [exfalso; apply Hn; now left|].
  rewrite IH by (intros Hin; apply Hn; now right). reflexivity.
Qed.

Lemma split_at_first sep header rest :
  ~ In sep header -> split sep (header ++ sep :: rest) = header :: split sep rest.
Proof.
  induction header as [|c header IH]; simpl; intros Hn.
  - now rewrite N.eqb_refl.
  - destruct (N.eqb_spec c sep) as [->|_]; [exfalso; apply Hn; now left|].
    rewrite IH by (intros Hin; apply Hn; now right). reflexivity.
Qed.

(** [dataUrl.split(',', 2)[1]] is what follows the first comma, when nothing
    after it has a comma. *)
Lemma split_limit_second header rest :
  ~ In c_comma header -> ~ In c_comma rest ->
  nth_error (split_limit c_comma 2 (header ++ c_comma :: rest)) 1 = Some rest.
Proof.
  intros Hh Hr. unfold split_limit.
  rewrite split_at_first by assumption.
  rewrite split_no_separator by assumption. reflexivity.
Qed.

Lemma standard_base64_no_comma b : standard_base64 b -> ~ In c_comma b.
Proof.
  intros (body & pad & -> & Hbody & _ & _) Hin.
  apply in_app_or in Hin. destruct Hin as [Hin|Hin].
  - revert Hin. eapply forallb_absent; [exact Hbody|reflexivity].
  - apply repeat_spec in Hin. discriminate.
Qed.

(** The payload of [createAndShareLink] is made of text. *)

Lemma forallb_map_compose (A B : Type) (f : A -> B) (p : B -> bool) l :
  forallb p (map f l) = forallb (fun x => p (f x)) l.
Proof. induction l as [|x l IH]; simpl; [reflexivity|now rewrite IH]. Qed.

Lemma json_safe_object props :
  forallb (fun k => is_jsstring k && is_plain_key k) (map fst props) = true ->
  distinct (map fst props) = true ->
  Forall (fun v => json_safe v = true) (map snd props) ->
  json_safe (JObject props) = true.
Proof.
  intros Hk Hd Hv. cbn [json_safe].
  rewrite forallb_map_compose in Hk. rewrite Hk, Hd. cbn [andb].
  rewrite Forall_map in Hv. apply forallb_forall. rewrite Forall_forall in Hv. exact Hv.
Qed.

Lemma json_safe_array (A : Type) (f : A -> jsval) (ok : A -> bool) l :
  (forall x, ok x = true -> json_safe (f x) = true) ->
  forallb ok l = true ->
  json_safe (JArray (map f l)) = true.
Proof.
  intros Hf Hl. cbn [json_safe]. rewrite forallb_map_compose.
  rewrite forallb_forall in *. auto.
Qed.

Ltac split_ands :=
  repeat match goal with
         | H : _ && _ = true |- _ => apply andb_true_iff in H; destruct H
         end.

Ltac safe_object :=
  apply json_safe_object;
  [reflexivity | reflexivity | cbn [map snd]; repeat apply Forall_cons; try apply Forall_nil].

Lemma simplifiedData_json_safe (d : DataToShare.t) :
  shareable_strings_ok d = true -> json_safe (simplifiedData d) = true.
Proof.
  unfold shareable_strings_ok. cbv zeta. intros H. split_ands.
  unfold simplifiedData. cbv zeta. safe_object.
  - safe_object; try assumption.
    + eapply json_safe_array; [|eassumption].
      intros c Hc. cbv beta in Hc. split_ands. unfold ContactInfo.to_value. safe_object; try assumption.
      destruct (ContactInfo.type c); reflexivity.
    + eapply json_safe_array; [|eassumption].
      intros l Hl. cbv beta in Hl. split_ands. unfold SocialLink.to_value. safe_object; assumption.
    + eapply json_safe_array; [|eassumption].
      intros e He. cbv beta in He. split_ands. unfold CareerEntry.to_value. safe_object; assumption.
  - unfold ThemeColors.to_value. safe_object; assumption.
Qed.

Section Lawful.

Variable P : Platform.
Hypothesis laws : PlatformLaws P.

(** [compressAndEncode] returns the standard base64 of the gzip of the UTF-8
    JSON text. *)
Lemma compressAndEncode_base64 (data : jsval) :
  exists base64,
    compressAndEncode P data = Some base64 /\
    standard_base64 base64 /\
    fetch_data_url P (js "data:application/octet-stream;base64," ++ base64) =
      Some (gzip P (utf8_encode P (JSON_stringify P data))).
Proof.
  destruct (fetch_readAsDataURL laws (gzip P (utf8_encode P (JSON_stringify P data))))
    as (header & base64 & Hurl & Hheader & Hstd & Hfetch).
  exists base64. repeat split; try assumption.
  unfold compressAndEncode. rewrite Hurl.
  apply split_limit_second; [assumption|].
  now apply standard_base64_no_comma.
Qed.

Lemma decodeAndDecompress_compressAndEncode (data : jsval) (base64 : jsstring) :
  json_safe data = true ->
  compressAndEncode P data = Some base64 ->
  decodeAndDecompress P base64 = Ok data.
Proof.
  intros Hsafe Henc.
  destruct (compressAndEncode_base64 data) as (b & Hb & _ & Hfetch).
  assert (b = base64) by congruence. subst b.
  unfold decodeAndDecompress.
  rewrite Hfetch, (gunzip_gzip laws), (utf8_decode_encode_JSON laws) by assumption.
  now rewrite (JSON_parse_stringify laws).
Qed.

(** The token made from what [compressAndEncode] returned decodes to the
    data. *)
Lemma token_decodes (data : jsval) (base64 : jsstring) :
  json_safe data = true ->
  compressAndEncode P data = Some base64 ->
  decode_token P (toUrlSafeBase64 base64) = Ok data.
Proof.
  intros Hsafe Henc.
  destruct (compressAndEncode_base64 data) as (b & Hb & Hstd & _).
  assert (b = base64) by congruence. subst b.
  destruct Hstd as (body & pad & Hbase & Hbody & Hpad & Hlen).
  destruct (base64_body_absent body Hbody) as (He & Hm & Hu).
  rewrite Hbase, length_app, repeat_length in Hlen.
  unfold decode_token.
  replace (fromUrlSafeBase64 (toUrlSafeBase64 base64)) with base64.
  - now apply decodeAndDecompress_compressAndEncode.
  - rewrite Hbase. symmetry. apply url_safe_inverse_padded; try assumption. lia.
Qed.

(** C1: for every payload [p] that JSON carries without loss (strings, and
    arrays and objects of them, as a share payload is; safe integers,
    booleans and [null] as well), encoding succeeds with a token, and
    decoding that token, [decodeAndDecompress (fromUrlSafeBase64 token)],
    gives back [p] itself. *)
Theorem decode_token_share_token (p : jsval) :
  json_safe p = true ->
  exists token,
    share_token P p = Ok token /\
    decode_token P token = Ok p.
Proof.
  intros Hsafe.
  destruct (compressAndEncode_base64 p) as (base64 & Henc & _).
  exists (toUrlSafeBase64 base64). split.
  - unfold share_token. rewrite Henc. reflexivity.
  - now apply token_decodes.
Qed.

(** In particular the object that [createAndShareLink] encodes comes back
    as it was. *)
Lemma simplifiedData_round_trip (dataToShare : DataToShare.t) :
  shareable_strings_ok dataToShare = true ->
  exists token,
    share_token P (simplifiedData dataToShare) = Ok token /\
    decode_token P token = Ok (simplifiedData dataToShare).
Proof.
  intros Hok.
  destruct (compressAndEncode_base64 (simplifiedData dataToShare))
    as (base64 & Henc & _).
  exists (toUrlSafeBase64 base64). split.
  - unfold share_token. rewrite Henc. reflexivity.
  - apply token_decodes; [|assumption]. now apply simplifiedData_json_safe.
Qed.

End Lawful.


(** * Page load *)

(** What the [try] body does, by the outcome of the decoding and the shape
    of the decoded value. *)
Lemma processSharedCard_cases (P : Platform) (token : jsstring) :
  processSharedCard P token =
  match decode_token P token with
  | Throw e => ([], Throw e)
  | Ok JNull => ([], Throw TypeError)
  | Ok data =>
      if has_card_shape data then ([setReceivedCard data], Ok tt)
      else ([], Throw (Error (js "Invalid card data structure")))
  end.
Proof.
  unfold processSharedCard, decode_token, has_card_shape.
  destruct (decodeAndDecompress P (fromUrlSafeBase64 token)) as [data|e];
    [|reflexivity].
  destruct data as [| b | n | s | items | props]; try reflexivity.
  cbn [await bind get_property property].
  destruct (truthy_opt (lookup (js "cardData") props)); [|reflexivity].
  cbn [andb app].
  destruct (truthy_opt (lookup (js "theme") props)); reflexivity.
Qed.

Lemma handleIncomingCard_param (P : Platform) (location : Location) (token : jsstring) :
  URLSearchParams_get P (search location) (js "card") = Some token ->
  nonempty token = true ->
  handleIncomingCard P location = try_catch (processSharedCard P token) rejectSharedCard.
Proof.
  intros Hget Hne. unfold handleIncomingCard. rewrite Hget.
  destruct token as [|c rest]; [discriminate|reflexivity].
Qed.

(** A failed [try] body has set nothing, and the [catch] turns it into the
    same three events whatever was thrown. *)
Lemma handleIncomingCard_rejects (P : Platform) (location : Location) (token : jsstring) e :
  URLSearchParams_get P (search location) (js "card") = Some token ->
  nonempty token = true ->
  outcome (processSharedCard P token) = Throw e ->
  handleIncomingCard P location = (rejection, Ok tt).
Proof.
  intros Hget Hne Hthrow.
  rewrite (handleIncomingCard_param P location Hget Hne).
  rewrite processSharedCard_cases in *.
  destruct (decode_token P token) as [data|e']; [|reflexivity].
  destruct data as [| b | n | s | items | props]; try reflexivity;
    destruct (has_card_shape _); try reflexivity; discriminate.
Qed.

(** The first block of [initializeApp] never throws: whatever the address
    holds, every error of the [try] is caught. *)
Lemma handleIncomingCard_never_throws (P : Platform) (location : Location) :
  outcome (handleIncomingCard P location) = Ok tt.
Proof.
  unfold handleIncomingCard.
  destruct (URLSearchParams_get P (search location) (js "card")) as [[|c rest]|];
    try reflexivity.
  rewrite processSharedCard_cases.
  destruct (decode_token P (c :: rest)) as [data|e]; [|reflexivity].
  destruct data as [| b | n | s | items | props]; try reflexivity;
    destruct (has_card_shape _); reflexivity.
Qed.

(** C4, amended: every malformed token makes the decoding throw, with the
    error of the step that fails: a [TypeError] when the base64 or the gzip
    stream is bad (or the text is [null]), a [SyntaxError] when the text is
    not JSON, [Error("Invalid card data structure")] when [cardData] or
    [theme] is missing. Whichever it is, the one [catch] of [initializeApp]
    takes it: the block ends normally, after the same three events. *)
Theorem malformed_token_rejected (P : Platform) (location : Location)
    (token : jsstring) (e : exception) :
  URLSearchParams_get P (search location) (js "card") = Some token ->
  nonempty token = true ->
  malformed P token e ->
  processSharedCard P token = ([], Throw e) /\
  handleIncomingCard P location = (rejection, Ok tt).
Proof.
  intros Hget Hne Hbad.
  assert (Hthrow : processSharedCard P token = ([], Throw e)).
  { rewrite processSharedCard_cases.
    destruct Hbad as [Hf | bytes Hf Hz | bytes text Hf Hz Hj | Hnull | data Hd Hnn Hshape].
    - unfold decode_token, decodeAndDecompress. now rewrite Hf.
    - unfold decode_token, decodeAndDecompress. now rewrite Hf, Hz.
    - unfold decode_token, decodeAndDecompress. now rewrite Hf, Hz, Hj.
    - now rewrite Hnull.
    - rewrite Hd, Hshape. destruct data; try reflexivity. contradiction. }
  split; [exact Hthrow|].
  apply (handleIncomingCard_rejects P location Hget Hne (e := e)).
  now rewrite Hthrow.
Qed.

(** C5: when the decoding of the [card] parameter fails, the page-load
    handler shows the notice, rewrites the address to the bare path, and
    sets [receivedCard] from nothing: the state is what it was, the query
    string is gone, and a reload finds no parameter to decode. *)
Theorem failed_decode_is_contained (P : Platform) (page : Page)
    (token : jsstring) (e : exception) :
  URLSearchParams_get P [] (js "card") = None ->
  URLSearchParams_get P (search (location page)) (js "card") = Some token ->
  nonempty token = true ->
  outcome (processSharedCard P token) = Throw e ->
  let events := trace (handleIncomingCard P (location page)) in
  let page' := apply_events events page in
  In (alert invalid_link_notice) events /\
  In history_replaceState_pathname events /\
  (forall data, ~ In (setReceivedCard data) events) /\
  outcome (handleIncomingCard P (location page)) = Ok tt /\
  receivedCard page' = receivedCard page /\
  search (location page') = [] /\
  pathname (location page') = pathname (location page) /\
  handleIncomingCard P (location page') = ret tt.
Proof.
  intros Hempty Hget Hne Hthrow events page'.
  assert (Hrej := handleIncomingCard_rejects P (location page) Hget Hne Hthrow).
  subst page' events. rewrite Hrej. cbn [trace outcome fst snd].
  unfold rejection.
  repeat split.
  - right. now left.
  - right. right. now left.
  - intros data [H|[H|[H|[]]]]; discriminate.
  - unfold handleIncomingCard, apply_events.
    cbn [fold_left apply_event location search]. now rewrite Hempty.
Qed.

(** The modal of a received object hands its two properties to
    [CardPreview] as they are. *)
Lemma renderReceivedCardModal_object (props : list (jsstring * jsval)) :
  renderReceivedCardModal (Some (JObject props)) =
  let? _ := CardPreview (lookup (js "cardData") props) (lookup (js "theme") props) in
  Ok true.
Proof. reflexivity. Qed.

(** C9, amended: when the decoded JSON is an object whose [cardData] and
    [theme] are truthy, the page load accepts it as it is: [receivedCard]
    becomes that very value, whatever [cardData] and [theme] hold; nothing
    inside them is looked at. The modal then hands the two properties, such
    as they are, to [CardPreview]: an error that the body of [CardPreview]
    throws on them is the error of the render. *)
Theorem truthy_card_is_received (P : Platform) (page : Page) (token : jsstring)
    (props : list (jsstring * jsval)) (cardData theme : jsval) :
  URLSearchParams_get P (search (location page)) (js "card") = Some token ->
  nonempty token = true ->
  decode_token P token = Ok (JObject props) ->
  lookup (js "cardData") props = Some cardData -> truthy cardData = true ->
  lookup (js "theme") props = Some theme -> truthy theme = true ->
  let page' := apply_events (trace (handleIncomingCard P (location page))) page in
  handleIncomingCard P (location page) = ([setReceivedCard (JObject props)], Ok tt) /\
  receivedCard page' = Some (JObject props) /\
  renderReceivedCardModal (receivedCard page') =
    match CardPreview (Some cardData) (Some theme) with
    | Ok _ => Ok true
    | Throw e => Throw e
    end.
Proof.
  intros Hget Hne Hdec Hcd Htcd Hth Htth page'.
  assert (H : handleIncomingCard P (location page)
              = ([setReceivedCard (JObject props)], Ok tt)).
  { rewrite (handleIncomingCard_param P (location page) Hget Hne).
    rewrite processSharedCard_cases, Hdec.
    unfold has_card_shape. cbn [property]. rewrite Hcd, Hth.
    cbn [truthy_opt]. now rewrite Htcd, Htth. }
  assert (Hstate : receivedCard page' = Some (JObject props))
    by (subst page'; now rewrite H).
  split; [exact H|]. split; [exact Hstate|].
  rewrite Hstate, renderReceivedCardModal_object, Hcd, Hth. reflexivity.
Qed.


(** * Sharing *)

(** Both paths compute their token the same way, each from its own
    object. *)
Lemma bind_await_Ok (A B : Type) (a : A) (k : A -> io B) :
  bind (await (Ok a)) k = k a.
Proof. unfold bind, await. now destruct (k a). Qed.

Lemma handleCopyShareLink_body_token P nav location dataToShare :
  handleCopyShareLink_body P nav location dataToShare =
  bind (await (share_token P (DataToShare.to_value dataToShare)))
       (fun token => copy_and_flag nav (card_url (baseUrl_of location) token)).
Proof. reflexivity. Qed.

(** [handleCopyShareLink] has no test of the length: whatever its length,
    the link is what it copies. *)
Lemma handleCopyShareLink_copies_link
    (P : Platform) (nav : Navigator) (location : Location) (st : AppState)
    (token : jsstring) :
  share_token P (DataToShare.to_value (getDataForSharing st)) = Ok token ->
  outward (trace (handleCopyShareLink P nav location st)) =
  [clipboard_writeText (card_url (baseUrl_of location) token)].
Proof.
  intros Htoken. unfold handleCopyShareLink, handleCopyShareLink_body.
  unfold share_token in Htoken. rewrite Htoken, bind_await_Ok.
  unfold copy_and_flag, call_clipboard_writeText.
  destruct (writeText nav (card_url (baseUrl_of location) token)) as [[]|e];
    reflexivity.
Qed.

(** C3, amended: on the [createAndShareLink] path, when the link is longer
    than 2000 characters, the link is not handed out. What is handed out is
    the short text and the bare base URL: to [navigator.share] when the
    browser has [share] and [canShare], and nothing else when that call
    resolves; copied as [shareText + ' ' + baseUrl] after it when it
    rejects, and copied alone when the browser cannot share.
    [handleCopyShareLink] tests no length: it copies the link of its own
    token, however long. *)
Theorem createAndShareLink_long_url_fallback
    (P : Platform) (nav : Navigator) (location : Location)
    (dataToShare : DataToShare.t) (token : jsstring) :
  share_token P (simplifiedData dataToShare) = Ok token ->
  2000 < length (card_url (baseUrl_of location) token) ->
  let cardName := BusinessCardData.name (DataToShare.cardData dataToShare) in
  let baseUrl := baseUrl_of location in
  let short := {| title := ko_digital_card;
                  text := fallback_shareText cardName;
                  url := baseUrl |} in
  let copied := fallback_shareText cardName ++ js " " ++ baseUrl in
  outward (trace (createAndShareLink P nav location dataToShare)) =
    (if has_share nav && has_canShare nav then
       match share nav short with
       | Ok _ => [navigator_share short]
       | Throw _ => [navigator_share short; clipboard_writeText copied]
       end
     else [clipboard_writeText copied]) /\
  (forall (st : AppState) (full : jsstring),
     share_token P (DataToShare.to_value (getDataForSharing st)) = Ok full ->
     outward (trace (handleCopyShareLink P nav location st)) =
     [clipboard_writeText (card_url baseUrl full)]).
Proof.
  intros Htoken Hlong cardName baseUrl short copied.
  split; [|intros st full Hfull; now apply handleCopyShareLink_copies_link].
  unfold createAndShareLink, createAndShareLink_body.
  unfold share_token in Htoken. rewrite Htoken, bind_await_Ok.
  apply Nat.ltb_lt in Hlong. fold baseUrl in Hlong |- *. rewrite Hlong.
  fold cardName. unfold fallback_ShareData. fold short. fold copied.
  unfold call_navigator_share, copy_and_flag, call_clipboard_writeText.
  destruct (has_share nav && has_canShare nav).
  - destruct (share nav short) as [[]|e1]; [reflexivity|].
    destruct (writeText nav copied) as [[]|e2]; reflexivity.
  - destruct (writeText nav copied) as [[]|e2]; reflexivity.
Qed.

(** * The payload of each path *)

(** C7: the token of any payload, [toUrlSafeBase64] of what
    [compressAndEncode] returns, contains none of [+], [/] and [=]. *)
Theorem share_token_url_safe (P : Platform) (payload : jsval) (token : jsstring) :
  share_token P payload = Ok token ->
  ~ In c_plus token /\ ~ In c_slash token /\ ~ In c_equals token.
Proof.
  unfold share_token, toUrlSafeBase64_of.
  destruct (compressAndEncode P payload) as [base64|]; [|discriminate].
  intros H. injection H as <-.
  apply toUrlSafeBase64_url_safe.
Qed.

(** C2, on the code: [createAndShareLink] encodes an object without
    [profilePicture] and [bannerImage], but [handleCopyShareLink] encodes
    the card as it is, and both media are in its [cardData]. *)
Theorem handleCopyShareLink_payload_has_media
    (P : Platform) (nav : Navigator) (location : Location) (st : AppState) :
  let dataToShare := getDataForSharing st in
  let card := DataToShare.cardData dataToShare in
  let copied := DataToShare.to_value dataToShare in
  handleCopyShareLink_body P nav location dataToShare =
    bind (await (share_token P copied))
         (fun token => copy_and_flag nav (card_url (baseUrl_of location) token)) /\
  lookup (js "profilePicture") (cardData_props copied)
    = Some (Media.to_value (BusinessCardData.profilePicture card)) /\
  lookup (js "bannerImage") (cardData_props copied)
    = Some (Media.to_value (BusinessCardData.bannerImage card)) /\
  lookup (js "profilePicture") (cardData_props (simplifiedData dataToShare)) = None /\
  lookup (js "bannerImage") (cardData_props (simplifiedData dataToShare)) = None.
Proof.
  intros dataToShare card copied.
  split; [apply handleCopyShareLink_body_token|].
  unfold copied, cardData_props, DataToShare.to_value, BusinessCardData.to_value,
    simplifiedData, property.
  repeat split.
Qed.

Lemma cardData_props_simplifiedData (d : DataToShare.t) :
  cardData_props (simplifiedData d) =
  let cardData := DataToShare.cardData d in
  [(js "name", JString (BusinessCardData.name cardData));
   (js "title", JString (BusinessCardData.title cardData));
   (js "company", JString (BusinessCardData.company cardData));
   (js "bio", JString (BusinessCardData.bio cardData));
   (js "contactInfo",
      JArray (map ContactInfo.to_value (BusinessCardData.contactInfo cardData)));
   (js "socialLinks",
      JArray (map SocialLink.to_value (BusinessCardData.socialLinks cardData)));
   (js "careerHistory",
      JArray (map CareerEntry.to_value (BusinessCardData.careerHistory cardData)))].
Proof. reflexivity. Qed.

Lemma cardData_props_to_value (d : DataToShare.t) :
  cardData_props (DataToShare.to_value d) =
  match BusinessCardData.to_value (DataToShare.cardData d) with
  | JObject props => props
  | _ => []
  end.
Proof. reflexivity. Qed.

(** Every property of the simplified [cardData] is a property of the card,
    with the same value. *)
Lemma lookup_simplified_in_card (d : DataToShare.t) key value :
  lookup key (cardData_props (simplifiedData d)) = Some value ->
  lookup key (cardData_props (DataToShare.to_value d)) = Some value.
Proof.
  rewrite cardData_props_simplifiedData.
  rewrite cardData_props_to_value. unfold BusinessCardData.to_value.
  cbv zeta. cbn [lookup]. intros H.
  repeat match type of H with
         | (if jsstring_eqb ?k key then _ else _) = _ =>
             let E := fresh "E" in
             destruct (jsstring_eqb k key) eqn:E;
             [apply jsstring_eqb_eq in E; subst key; exact H|]
         end.
  discriminate H.
Qed.

(** C8, on the code: the two paths do not encode the same object. The
    [cardData] of [createAndShareLink] has seven properties; that of
    [handleCopyShareLink] has those seven, with the same values, and
    sixteen more, the two media among them. The themes are the same. *)
Theorem sharing_paths_payloads_differ (dataToShare : DataToShare.t) :
  let shared := simplifiedData dataToShare in
  let copied := DataToShare.to_value dataToShare in
  keys (cardData_props shared) = simplified_card_keys /\
  keys (cardData_props copied) =
    [js "bannerImage"; js "profilePicture"] ++ simplified_card_keys ++
    [js "fontFamily"; js "nameFontSize"; js "nameFontWeight"; js "nameFontColor";
     js "titleFontSize"; js "titleFontWeight"; js "titleFontColor";
     js "companyFontSize"; js "companyFontWeight"; js "companyFontColor";
     js "baseFontSize"; js "baseFontWeight"; js "baseFontColor"; js "layout"] /\
  (forall key value,
     lookup key (cardData_props shared) = Some value ->
     lookup key (cardData_props copied) = Some value) /\
  property shared (js "theme") = property copied (js "theme") /\
  shared <> copied.
Proof.
  intros shared copied.
  split; [reflexivity|]. split; [reflexivity|].
  split; [apply lookup_simplified_in_card|]. split; [reflexivity|].
  intros Heq.
  assert (H : length (keys (cardData_props shared))
              = length (keys (cardData_props copied))) by now rewrite Heq.
  discriminate H.
Qed.


(** * The model platform obeys the laws *)

(** ** Base64 of the model *)

Section Base64Facts.
Import Base64.


Lemma list_ind3 (A : Type) (Q : list A -> Prop) :
  Q [] -> (forall a, Q [a]) -> (forall a b, Q [a; b]) ->
  (forall a b c rest, Q rest -> Q (a :: b :: c :: rest)) ->
  forall l, Q l.
Proof.
  intros H0 H1 H2 H3.
  fix IH 1. intros [|a [|b [|c rest]]].
  - exact H0.
  - apply H1.
  - apply H2.
  - apply H3. apply IH.
Qed.

Lemma byte_of_to_N b : byte_of_N (Byte.to_N b) = b.
Proof. unfold byte_of_N. now rewrite Byte.of_to_N. Qed.

Lemma regroup_1 a b : (b < 256 -> a / 4 * 4 + (a mod 4 * 16 + b / 16) / 16 = a)%N.
Proof.
  intros Hb.
  assert (b / 16 < 16)%N by (apply N.Div0.div_lt_upper_bound; lia).
  rewrite N.add_comm with (n := (a mod 4 * 16)%N).
  rewrite N.div_add by lia.
  rewrite (N.div_small (b / 16) 16) by assumption.
  pose proof (N.div_mod a 4 ltac:(lia)). lia.
Qed.

Lemma regroup_2 a b c :
  (b < 256 -> c < 256 ->
   (a mod 4 * 16 + b / 16) mod 16 * 16 + (b mod 16 * 4 + c / 64) / 4 = b)%N.
Proof.
  intros Hb Hc.
  assert (b / 16 < 16)%N by (apply N.Div0.div_lt_upper_bound; lia).
  assert (c / 64 < 4)%N by (apply N.Div0.div_lt_upper_bound; lia).
  rewrite N.add_comm with (n := (a mod 4 * 16)%N).
  rewrite N.Div0.mod_add.
  rewrite (N.mod_small (b / 16) 16) by assumption.
  rewrite N.add_comm with (n := (b mod 16 * 4)%N).
  rewrite N.div_add by lia.
  rewrite (N.div_small (c / 64) 4) by assumption.
  pose proof (N.div_mod b 16 ltac:(lia)). lia.
Qed.

Lemma regroup_3 b c :
  (c < 256 -> (b mod 16 * 4 + c / 64) mod 4 * 64 + c mod 64 = c)%N.
Proof.
  intros Hc.
  assert (c / 64 < 4)%N by (apply N.Div0.div_lt_upper_bound; lia).
  rewrite N.add_comm with (n := (b mod 16 * 4)%N).
  rewrite N.Div0.mod_add.
  rewrite (N.mod_small (c / 64) 4) by assumption.
  pose proof (N.div_mod c 64 ltac:(lia)). lia.
Qed.

Lemma regroup_2_last a b :
  (b < 256 -> (a mod 4 * 16 + b / 16) mod 16 * 16 + (b mod 16 * 4) / 4 = b)%N.
Proof.
  intros Hb.
  assert (b / 16 < 16)%N by (apply N.Div0.div_lt_upper_bound; lia).
  rewrite N.add_comm with (n := (a mod 4 * 16)%N).
  rewrite N.Div0.mod_add.
  rewrite (N.mod_small (b / 16) 16) by assumption.
  rewrite N.div_mul by lia.
  pose proof (N.div_mod b 16 ltac:(lia)). lia.
Qed.

Lemma regroup_1_last a : (a / 4 * 4 + (a mod 4 * 16) / 16 = a)%N.
Proof.
  rewrite N.div_mul by lia.
  pose proof (N.div_mod a 4 ltac:(lia)). lia.
Qed.

Lemma bytes_of_sextets_sextets bytes : bytes_of_sextets (sextets bytes) = bytes.
Proof.
  induction bytes as [|a|a b|a b c rest IH] using list_ind3.
  - reflexivity.
  - cbn [sextets bytes_of_sextets].
    now rewrite regroup_1_last, byte_of_to_N.
  - pose proof (Byte.to_N_bounded b) as Hb.
    cbn [sextets bytes_of_sextets].
    rewrite regroup_1, regroup_2_last by lia.
    now rewrite !byte_of_to_N.
  - pose proof (Byte.to_N_bounded b) as Hb.
    pose proof (Byte.to_N_bounded c) as Hc.
    cbn [sextets bytes_of_sextets].
    rewrite regroup_1, regroup_2, regroup_3 by lia.
    now rewrite !byte_of_to_N, IH.
Qed.

Lemma sextets_bounded bytes : Forall (fun n => n < 64)%N (sextets bytes).
Proof.
  induction bytes as [|a|a b|a b c rest IH] using list_ind3;
    cbn [sextets];
    try pose proof (Byte.to_N_bounded a);
    try pose proof (Byte.to_N_bounded b);
    try pose proof (Byte.to_N_bounded c);
    repeat (apply Forall_cons); try apply Forall_nil; try exact IH;
    try (apply N.Div0.div_lt_upper_bound; lia);
    try (apply N.mod_upper_bound; lia).
  all: try (pose proof (N.mod_upper_bound (Byte.to_N a) 4 ltac:(lia));
            assert (Byte.to_N b / 16 < 16)%N by (apply N.Div0.div_lt_upper_bound; lia); lia).
  all: try (pose proof (N.mod_upper_bound (Byte.to_N b) 16 ltac:(lia));
            assert (Byte.to_N c / 64 < 4)%N by (apply N.Div0.div_lt_upper_bound; lia); lia).
  all: try (pose proof (N.mod_upper_bound (Byte.to_N a) 4 ltac:(lia)); lia).
  all: try (pose proof (N.mod_upper_bound (Byte.to_N b) 16 ltac:(lia)); lia).
Qed.

(** The 64 sextets, checked one by one. *)
Lemma sextet_table :
  forallb (fun n => match sextet_of_char (char_of_sextet n) with
                    | Some m => N.eqb m n
                    | None => false
                    end && is_base64_char (char_of_sextet n))
          (map N.of_nat (seq 0 64)) = true.
Proof. vm_compute. reflexivity. Qed.

Lemma sextet_char n :
  (n < 64)%N ->
  sextet_of_char (char_of_sextet n) = Some n /\
  is_base64_char (char_of_sextet n) = true.
Proof.
  intros Hn.
  pose proof sextet_table as Ht. rewrite forallb_forall in Ht.
  specialize (Ht n).
  assert (Hin : In n (map N.of_nat (seq 0 64))).
  { apply in_map_iff. exists (N.to_nat n). split; [apply N2Nat.id|].
    apply in_seq. lia. }
  specialize (Ht Hin). apply andb_true_iff in Ht. destruct Ht as [H1 H2].
  split; [|exact H2].
  destruct (sextet_of_char (char_of_sextet n)) as [m|]; [|discriminate].
  apply N.eqb_eq in H1. now subst.
Qed.

Lemma sextets_of_chars_chars ns :
  Forall (fun n => n < 64)%N ns ->
  sextets_of_chars (map char_of_sextet ns) = Some ns.
Proof.
  induction 1 as [|n ns Hn _ IH]; simpl; [reflexivity|].
  destruct (sextet_char Hn) as [-> _]. now rewrite IH.
Qed.

Lemma chars_are_base64 ns :
  Forall (fun n => n < 64)%N ns ->
  forallb is_base64_char (map char_of_sextet ns) = true.
Proof.
  induction 1 as [|n ns Hn _ IH]; simpl; [reflexivity|].
  destruct (sextet_char Hn) as [_ ->]. exact IH.
Qed.

Lemma sextets_length bytes :
  length (sextets bytes) + padding (length bytes) = 4 * ((length bytes + 2) / 3) /\
  length (sextets bytes) mod 4 <> 1.
Proof.
  induction bytes as [|a|a b|a b c rest IH] using list_ind3.
  - split; [reflexivity|discriminate].
  - split; [reflexivity|discriminate].
  - split; [reflexivity|discriminate].
  - destruct IH as [IH1 IH2].
    cbn [sextets length].
    replace (padding (S (S (S (length rest))))) with (padding (length rest)).
    2:{ unfold padding.
        replace (S (S (S (length rest)))) with (length rest + 1 * 3) by lia.
        now rewrite Nat.Div0.mod_add. }
    replace (S (S (S (length rest))) + 2) with ((length rest + 2) + 1 * 3) by lia.
    rewrite Nat.div_add by lia.
    split; [lia|].
    replace (S (S (S (S (length (sextets rest)))))) with (length (sextets rest) + 1 * 4) by lia.
    now rewrite Nat.Div0.mod_add.
Qed.

Lemma padding_le_2 n : padding n <= 2.
Proof.
  unfold padding. destruct (n mod 3) as [|[|k]]; lia.
Qed.

Lemma encode_length bytes : length (encode bytes) mod 4 = 0.
Proof.
  unfold encode. rewrite length_app, length_map, repeat_length.
  destruct (sextets_length bytes) as [-> _].
  rewrite Nat.mul_comm. apply Nat.Div0.mod_mul.
Qed.

Lemma encode_standard bytes : standard_base64 (encode bytes).
Proof.
  exists (map char_of_sextet (sextets bytes)), (padding (length bytes)).
  repeat split.
  - apply chars_are_base64, sextets_bounded.
  - apply padding_le_2.
  - apply encode_length.
Qed.

Lemma base64_char_not_whitespace c :
  is_base64_char c = true -> is_ascii_whitespace c = false.
Proof.
  unfold is_base64_char, is_ascii_whitespace, c_plus, c_slash, ch.
  simpl N_of_ascii. intros H.
  repeat (apply orb_true_iff in H; destruct H as [H|H]);
    try (apply andb_true_iff in H; destruct H as [H1 H2];
         apply N.leb_le in H1; apply N.leb_le in H2);
    try apply N.eqb_eq in H;
    repeat (apply orb_false_iff; split); apply N.eqb_neq; lia.
Qed.

Lemma filter_all (A : Type) (p : A -> bool) l :
  forallb p l = true -> filter p l = l.
Proof.
  induction l as [|x l IH]; simpl; [reflexivity|].
  intros H. apply andb_true_iff in H. destruct H as [-> H].
  now rewrite IH.
Qed.

Lemma strip_trailing_equals_padded body pad :
  forallb is_base64_char body = true -> pad <= 2 ->
  strip_trailing_equals (body ++ repeat c_equals pad) = body.
Proof.
  intros Hbody Hpad.
  induction body as [|c body IH].
  - destruct pad as [|[|[|k]]]; [reflexivity..|lia].
  - simpl in Hbody. apply andb_true_iff in Hbody. destruct Hbody as [Hc Hbody].
    specialize (IH Hbody).
    destruct (is_base64_char_not_url_safe c Hc) as (Hne & _ & _).
    apply N.eqb_neq in Hne.
    destruct body as [|c2 body].
    + destruct pad as [|[|[|k]]]; [| | |lia]; simpl; rewrite ?Hne; reflexivity.
    + simpl in Hbody. apply andb_true_iff in Hbody. destruct Hbody as [Hc2 Hbody].
      destruct (is_base64_char_not_url_safe c2 Hc2) as (Hne2 & _ & _).
      apply N.eqb_neq in Hne2.
      destruct body as [|c3 body].
      * destruct pad as [|[|[|k]]]; [| | |lia]; simpl in *; rewrite ?Hne, ?Hne2 in *;
          try reflexivity; congruence.
      * change (strip_trailing_equals ((c :: c2 :: c3 :: body) ++ repeat c_equals pad))
          with (c :: strip_trailing_equals ((c2 :: c3 :: body) ++ repeat c_equals pad)).
        now rewrite IH.
Qed.

(** Decoding the standard base64 of some bytes gives the bytes back. *)
Lemma decode_encode bytes : decode (encode bytes) = Some bytes.
Proof.
  pose proof (sextets_bounded bytes) as Hb.
  pose proof (chars_are_base64 Hb) as Hchars.
  unfold decode.
  rewrite filter_all.
  2:{ unfold encode. rewrite forallb_app. apply andb_true_iff. split.
      - rewrite forallb_forall in *. intros c Hc.
        now rewrite base64_char_not_whitespace by auto.
      - rewrite forallb_forall. intros c Hc. apply repeat_spec in Hc. now subst. }
  unfold strip_padding. rewrite encode_length, Nat.eqb_refl.
  unfold encode.
  rewrite strip_trailing_equals_padded; [|exact Hchars|apply padding_le_2].
  rewrite length_map.
  destruct (sextets_length bytes) as [_ Hne].
  destruct (Nat.eqb_spec (length (sextets bytes) mod 4) 1); [contradiction|].
  rewrite sextets_of_chars_chars by assumption.
  unfold option_map. now rewrite bytes_of_sextets_sextets.
Qed.

End Base64Facts.

(** ** JSON of the model *)

(** Induction on a value, with the property at hand for every element of an
    array and every property value of an object. *)
Lemma jsval_ind (Q : jsval -> Prop) :
  Q JNull ->
  (forall b, Q (JBool b)) ->
  (forall n, Q (JNumber n)) ->
  (forall s, Q (JString s)) ->
  (forall items, Forall Q items -> Q (JArray items)) ->
  (forall props, Forall (fun kv => Q (snd kv)) props -> Q (JObject props)) ->
  forall v, Q v.
Proof.
  intros Hnull Hbool Hnum Hstr Harr Hobj.
  fix IH 1. intros [| b | n | s | items | props].
  - exact Hnull.
  - apply Hbool.
  - apply Hnum.
  - apply Hstr.
  - apply Harr. induction items as [|x items IHl]; constructor; [apply IH|exact IHl].
  - apply Hobj. induction props as [|[k x] props IHl]; constructor; [apply IH|exact IHl].
Qed.

Section JSONFacts.
Import JSON.

Lemma hex_value_digit n : (n < 16)%N -> hex_value (hex_digit n) = Some n.
Proof.
  intros Hn. unfold hex_value, hex_digit.
  destruct (N.ltb_spec n 10).
  - replace ((48 <=? 48 + n) && (48 + n <=? 57))%N with true.
    + f_equal. lia.
    + symmetry. apply andb_true_iff. split; apply N.leb_le; lia.
  - replace ((48 <=? 87 + n) && (87 + n <=? 57))%N with false.
    + replace ((97 <=? 87 + n) && (87 + n <=? 102))%N with true.
      * f_equal. lia.
      * symmetry. apply andb_true_iff. split; apply N.leb_le; lia.
    + symmetry. apply andb_false_iff. right. apply N.leb_gt. lia.
Qed.

Lemma hex4_digits c :
  (c < 65536)%N ->
  hex4 (hex_digit ((c / 4096) mod 16)) (hex_digit ((c / 256) mod 16))
       (hex_digit ((c / 16) mod 16)) (hex_digit (c mod 16)) = Some c.
Proof.
  intros Hc. unfold hex4.
  rewrite !hex_value_digit by (apply N.mod_upper_bound; lia).
  f_equal.
  assert (H1 : (c / 4096 < 16)%N) by (apply N.Div0.div_lt_upper_bound; lia).
  rewrite (N.mod_small (c / 4096) 16) by assumption.
  assert (D2 : (c / 16 / 16 = c / 256)%N) by (rewrite N.Div0.div_div; reflexivity).
  assert (D3 : (c / 256 / 16 = c / 4096)%N) by (rewrite N.Div0.div_div; reflexivity).
  pose proof (N.div_mod c 16 ltac:(lia)) as E1.
  pose proof (N.div_mod (c / 16) 16 ltac:(lia)) as E2.
  pose proof (N.div_mod (c / 256) 16 ltac:(lia)) as E3.
  rewrite D2 in E2. rewrite D3 in E3.
  lia.
Qed.

Lemma parse_chars_escape c tail :
  (c < 65536)%N ->
  parse_chars (escape c ++ tail) = cons_char c (parse_chars tail).
Proof.
  intros Hc. unfold escape.
  destruct (N.eqb_spec c c_quote) as [->|Hq]; [reflexivity|].
  destruct (N.eqb_spec c c_backslash) as [->|Hb]; [reflexivity|].
  destruct ((32 <=? c) && (c <? 127))%N eqn:Hprint.
  - apply andb_true_iff in Hprint. destruct Hprint as [H1 H2].
    apply N.leb_le in H1.
    cbn [app parse_chars].
    apply N.eqb_neq in Hq, Hb. rewrite Hq, Hb.
    destruct (N.ltb_spec c 32); [lia|]. reflexivity.
  - cbn [app parse_chars].
    change (c_backslash =? c_quote)%N with false.
    change (c_backslash =? c_backslash)%N with true.
    change (ch "u" =? ch "u")%N with true. cbv iota.
    rewrite hex4_digits by assumption. reflexivity.
Qed.

Lemma parse_chars_quoted s rest :
  is_jsstring s = true ->
  parse_chars (flat_map escape s ++ c_quote :: rest) = Some (s, rest).
Proof.
  induction s as [|c s IH]; intros Hs.
  - reflexivity.
  - simpl in Hs. apply andb_true_iff in Hs. destruct Hs as [Hc Hs].
    apply N.ltb_lt in Hc.
    cbn [flat_map]. rewrite <- app_assoc.
    rewrite parse_chars_escape by assumption.
    now rewrite IH.
Qed.

Lemma parse_string_quote s rest :
  is_jsstring s = true -> parse_string (quote s ++ rest) = Some (s, rest).
Proof.
  intros Hs. unfold quote, parse_string. cbn [app].
  rewrite N.eqb_refl. rewrite <- app_assoc. cbn [app].
  now apply parse_chars_quoted.
Qed.

Lemma read_digits_uint u rest :
  no_digit_ahead rest -> read_digits (chars_of_uint u ++ rest) = (u, rest).
Proof.
  intros Hrest.
  induction u as [|u IH|u IH|u IH|u IH|u IH|u IH|u IH|u IH|u IH|u IH];
    cbn [chars_of_uint app read_digits]; try (rewrite IH; reflexivity).
  destruct rest as [|c rest]; [reflexivity|].
  cbn [read_digits]. simpl in Hrest. now rewrite Hrest.
Qed.

Lemma parse_natural_pos p rest :
  no_digit_ahead rest ->
  parse_natural (chars_of_uint (Pos.to_uint p) ++ rest) = Some (Npos p, rest).
Proof.
  intros Hrest. unfold parse_natural.
  rewrite read_digits_uint by assumption.
  pose proof (DecimalPos.Unsigned.to_uint_nonnil p) as Hnn.
  pose proof (DecimalPos.Unsigned.of_to p) as Hof.
  destruct (Pos.to_uint p); try contradiction; unfold N.of_uint; now rewrite Hof.
Qed.

Lemma chars_of_uint_head u :
  u <> Decimal.Nil ->
  exists c tl, chars_of_uint u = c :: tl /\ is_digit c = true.
Proof.
  destruct u; intros H; try contradiction; eexists _, _; split; reflexivity.
Qed.

Lemma parse_number_number n rest :
  no_digit_ahead rest -> parse_number (number n ++ rest) = Some (n, rest).
Proof.
  intros Hrest. destruct n as [|p|p]; unfold number.
  - cbn [js app map list_ascii_of_string]. unfold parse_number.
    change (ch "0" =? ch "-")%N with false. cbv iota.
    unfold parse_natural. cbn [read_digits].
    change (is_digit (ch "0")) with true. cbv iota.
    change (ch "0" :: rest) with (chars_of_uint (Decimal.D0 Decimal.Nil) ++ rest).
    destruct rest as [|c rest]; [reflexivity|].
    cbn [read_digits]. simpl in Hrest. rewrite Hrest. reflexivity.
  - destruct (chars_of_uint_head (DecimalPos.Unsigned.to_uint_nonnil p)) as (c & tl & Hc & Hd).
    unfold parse_number.
    pose proof (parse_natural_pos p rest Hrest) as Hp.
    rewrite Hc in *. cbn [app] in *.
    destruct (N.eqb_spec c (ch "-")) as [->|_]; [discriminate|].
    now rewrite Hp.
  - unfold parse_number. cbn [app]. rewrite N.eqb_refl.
    now rewrite parse_natural_pos.
Qed.


(** How [parse_value] dispatches on the first character. *)
Lemma parse_value_quote fuel r :
  parse_value (S fuel) (c_quote :: r) =
  option_map (fun sr => (JString (fst sr), snd sr)) (parse_chars r).
Proof. reflexivity. Qed.

Lemma parse_value_number fuel c r :
  is_digit c = true \/ c = ch "-" ->
  parse_value (S fuel) (c :: r) =
  option_map (fun nr => (JNumber (fst nr), snd nr)) (parse_number (c :: r)).
Proof.
  intros Hc. cbn [parse_value].
  assert (Hne : forall d, In d [ch "n"; ch "t"; ch "f"; c_quote; ch "["; ch "{"] ->
                          (c =? d)%N = false).
  { intros d Hd. apply N.eqb_neq. intros ->.
    destruct Hc as [Hc|Hc]; simpl in Hd;
      repeat (destruct Hd as [<-|Hd]; [discriminate|]); exact Hd. }
  rewrite !Hne by (simpl; tauto). reflexivity.
Qed.

Lemma parse_value_array fuel c r :
  c <> ch "]" ->
  parse_value (S fuel) (ch "[" :: c :: r) =
  option_map (fun ir => (JArray (fst ir), snd ir))
    (parse_items (parse_value fuel) fuel (c :: r)).
Proof.
  intros Hc. apply N.eqb_neq in Hc. cbn [parse_value].
  change (ch "[" =? ch "n")%N with false.
  change (ch "[" =? ch "t")%N with false.
  change (ch "[" =? ch "f")%N with false.
  change (ch "[" =? c_quote)%N with false.
  change (ch "[" =? ch "[")%N with true. cbv iota.
  now rewrite Hc.
Qed.

Lemma parse_value_object fuel c r :
  c <> ch "}" ->
  parse_value (S fuel) (ch "{" :: c :: r) =
  option_map (fun pr => (JObject (fst pr), snd pr))
    (parse_props (parse_value fuel) fuel (c :: r)).
Proof.
  intros Hc. apply N.eqb_neq in Hc. cbn [parse_value].
  change (ch "{" =? ch "n")%N with false.
  change (ch "{" =? ch "t")%N with false.
  change (ch "{" =? ch "f")%N with false.
  change (ch "{" =? c_quote)%N with false.
  change (ch "{" =? ch "[")%N with false.
  change (ch "{" =? ch "{")%N with true. cbv iota.
  now rewrite Hc.
Qed.

Lemma number_head n :
  exists c tl, number n = c :: tl /\ (is_digit c = true \/ c = ch "-").
Proof.
  destruct n as [|p|p]; unfold number.
  - eexists _, _. split; [reflexivity|now left].
  - destruct (chars_of_uint_head (DecimalPos.Unsigned.to_uint_nonnil p))
      as (c & tl & -> & Hd).
    eexists _, _. split; [reflexivity|now left].
  - eexists _, _. split; [reflexivity|now right].
Qed.

(** A value never starts with a closing bracket or brace. *)
Lemma stringify_head v :
  exists c tl, stringify v = c :: tl /\ c <> ch "]" /\ c <> ch "}".
Proof.
  destruct v as [| [|] | n | s | [|first others] | [|[k first] others]];
    try (eexists _, _; split; [reflexivity|split; discriminate]).
  destruct (number_head n) as (c & tl & Hn & Hc).
  exists c, tl. split; [exact Hn|].
  destruct Hc as [Hc| ->]; [|split; discriminate].
  split; intros ->; discriminate.
Qed.

Lemma no_digit_ahead_array_tail items rest :
  no_digit_ahead (array_tail stringify items ++ rest).
Proof. destruct items; reflexivity. Qed.

Lemma no_digit_ahead_object_tail props rest :
  no_digit_ahead (object_tail stringify props ++ rest).
Proof. destruct props as [|[k x] props]; reflexivity. Qed.

Lemma parse_items_array_tail fuel items :
  Forall (parses_back fuel) items ->
  forall n x rest,
    parses_back fuel x ->
    length (x :: items) <= n ->
    parse_items (parse_value fuel) n (stringify x ++ array_tail stringify items ++ rest)
    = Some (x :: items, rest).
Proof.
  induction 1 as [|y items Hy _ IH]; intros n x rest Hx Hn;
    (destruct n as [|n]; [simpl in Hn; lia|]); cbn [parse_items].
  - rewrite Hx by reflexivity. cbn [array_tail app].
    change (ch "]" =? ch ",")%N with false.
    now change (ch "]" =? ch "]")%N with true.
  - rewrite Hx by apply no_digit_ahead_array_tail.
    cbn [array_tail app].
    change (ch "," =? ch ",")%N with true. cbv iota.
    rewrite <- app_assoc.
    rewrite IH; [reflexivity|assumption|simpl in *; lia].
Qed.

Lemma parse_props_object_tail fuel props :
  Forall (fun kv => is_jsstring (fst kv) = true /\ parses_back fuel (snd kv)) props ->
  forall n k x rest,
    is_jsstring k = true ->
    parses_back fuel x ->
    length ((k, x) :: props) <= n ->
    parse_props (parse_value fuel) n
      (quote k ++ ch ":" :: stringify x ++ object_tail stringify props ++ rest)
    = Some ((k, x) :: props, rest).
Proof.
  induction 1 as [|[k' y] props [Hk' Hy] _ IH]; intros n k x rest Hk Hx Hn;
    (destruct n as [|n]; [simpl in Hn; lia|]); cbn [parse_props];
    rewrite parse_string_quote by assumption;
    change (ch ":" =? ch ":")%N with true; cbv iota.
  - rewrite Hx by reflexivity. cbn [object_tail app].
    change (ch "}" =? ch ",")%N with false.
    now change (ch "}" =? ch "}")%N with true.
  - rewrite Hx by apply no_digit_ahead_object_tail.
    cbn [object_tail app].
    change (ch "," =? ch ",")%N with true. cbv iota.
    rewrite <- !app_assoc. cbn [app]. rewrite <- app_assoc.
    rewrite IH; [reflexivity|assumption..|simpl in *; lia].
Qed.

Lemma parses_back_mono fuel fuel' v :
  (forall f, need v <= f -> parses_back f v) -> need v <= fuel -> fuel <= fuel' ->
  parses_back fuel' v.
Proof. intros H Hn Hle. apply H. lia. Qed.

Lemma list_max_le_in (f : jsval -> nat) l x :
  In x l -> f x <= list_max (map f l).
Proof.
  induction l as [|y l IH]; simpl; [tauto|].
  intros [->|Hin]; [lia|]. specialize (IH Hin). lia.
Qed.

Lemma list_max_le_in_snd (f : jsval -> nat) (l : list (jsstring * jsval)) kv :
  In kv l -> f (snd kv) <= list_max (map (fun kv => f (snd kv)) l).
Proof.
  induction l as [|y l IH]; simpl; [tauto|].
  intros [->|Hin]; [lia|]. specialize (IH Hin). lia.
Qed.

Lemma parse_value_stringify v :
  strings_ok v = true -> forall fuel, need v <= fuel -> parses_back fuel v.
Proof.
  induction v as [| b | n | s | items IH | props IH] using jsval_ind;
    intros Hok fuel Hfuel rest Hrest;
    (destruct fuel as [|fuel]; [simpl in Hfuel; lia|]).
  - reflexivity.
  - destruct b; reflexivity.
  - cbn [stringify].
    destruct (number_head n) as (c & tl & Hn & Hc).
    pose proof (parse_number_number n rest Hrest) as Hp.
    rewrite Hn in *. cbn [app] in *.
    rewrite parse_value_number by assumption.
    now rewrite Hp.
  - cbn [stringify]. unfold quote. cbn [app].
    rewrite parse_value_quote. rewrite <- app_assoc. cbn [app].
    now rewrite parse_chars_quoted.
  - destruct items as [|first others]; [reflexivity|].
    cbn [stringify]. cbn [app].
    destruct (stringify_head first) as (c & tl & Hhead & Hc & _).
    rewrite <- app_assoc.
    pose proof (parse_items_array_tail (fuel:=fuel) (items:=others)) as Hitems.
    cbn [need] in Hfuel. cbn [strings_ok forallb] in Hok.
    apply andb_true_iff in Hok. destruct Hok as [Hok1 Hok].
    inversion IH as [|? ? IH1 IHo]; subst.
    assert (Hall : Forall (parses_back fuel) others).
    { rewrite forallb_forall in Hok. rewrite Forall_forall in *.
      intros y Hy. apply IHo; [assumption|now apply Hok|].
      pose proof (list_max_le_in need (first :: others) y (or_intror Hy)). lia. }
    assert (Hfirst : parses_back fuel first).
    { apply IH1; [assumption|].
      pose proof (list_max_le_in need (first :: others) first (or_introl eq_refl)). lia. }
    specialize (Hitems Hall fuel first rest Hfirst ltac:(lia)).
    rewrite Hhead in *. cbn [app] in *.
    rewrite parse_value_array by assumption.
    now rewrite Hitems.
  - destruct props as [|[k first] others]; [reflexivity|].
    cbn [stringify]. cbn [app].
    cbn [need] in Hfuel. cbn [strings_ok forallb fst snd] in Hok.
    apply andb_true_iff in Hok. destruct Hok as [Hok1 Hok].
    apply andb_true_iff in Hok1. destruct Hok1 as [Hk Hok1].
    inversion IH as [|? ? IH1 IHo]; subst. simpl in IH1.
    pose proof (parse_props_object_tail (fuel:=fuel) (props:=others)) as Hprops.
    assert (Hall : Forall (fun kv => is_jsstring (fst kv) = true /\
                                     parses_back fuel (snd kv)) others).
    { rewrite forallb_forall in Hok. rewrite Forall_forall in *.
      intros [k' y] Hy. specialize (Hok _ Hy). apply andb_true_iff in Hok.
      destruct Hok as [Hk' Hy']. split; [exact Hk'|].
      apply (IHo _ Hy); [exact Hy'|].
      pose proof (list_max_le_in_snd need ((k, first) :: others) (k', y)
                    (or_intror Hy)) as Hm.
      cbn [snd] in *. lia. }
    assert (Hfirst : parses_back fuel first).
    { apply IH1; [assumption|].
      pose proof (list_max_le_in_snd need ((k, first) :: others) (k, first)
                    (or_introl eq_refl)) as Hm.
      cbn [snd] in Hm. lia. }
    specialize (Hprops Hall fuel k first rest Hk Hfirst ltac:(lia)).
    unfold quote in *. cbn [app] in *.
    rewrite parse_value_object by discriminate.
    rewrite <- !app_assoc in *. cbn [app] in *. rewrite <- ?app_assoc in *.
    now rewrite Hprops.
Qed.


Lemma array_tail_length l :
  length (array_tail stringify l) = 1 + length l + total_length l.
Proof.
  induction l as [|x l IH]; [reflexivity|].
  cbn [array_tail length]. rewrite length_app, IH.
  unfold total_length. simpl. lia.
Qed.

Lemma object_tail_length l :
  length l + total_length (map snd l) < length (object_tail stringify l).
Proof.
  induction l as [|[k x] l IH]; [unfold total_length; simpl; lia|].
  cbn [object_tail length]. rewrite length_app. cbn [length].
  rewrite length_app.
  unfold total_length, list_sum in *. cbn [map snd fold_right length]. lia.
Qed.

Lemma need_positive v : 1 <= need v.
Proof. destruct v; simpl; lia. Qed.

Lemma count_and_need_le_total l :
  Forall (fun x => need x <= length (stringify x)) l ->
  length l <= total_length l /\ list_max (map need l) <= total_length l.
Proof.
  induction 1 as [|x l Hx _ [IH1 IH2]]; [simpl; split; lia|].
  pose proof (need_positive x).
  unfold total_length in *. simpl. split; lia.
Qed.

Lemma need_le_length v : need v <= length (stringify v).
Proof.
  induction v as [| b | n | s | items IH | props IH] using jsval_ind.
  - simpl. lia.
  - destruct b; simpl; lia.
  - destruct (number_head n) as (c & tl & Hn & _). simpl. rewrite Hn. simpl. lia.
  - simpl. lia.
  - destruct items as [|first others]; [simpl; lia|].
    destruct (count_and_need_le_total IH) as [H1 H2].
    cbn [stringify need]. cbn [length]. rewrite length_app, array_tail_length.
    unfold total_length, list_sum, list_max in *. cbn [map fold_right length] in *. lia.
  - destruct props as [|[k first] others]; [simpl; lia|].
    assert (IH' : Forall (fun x => need x <= length (stringify x))
                    (map snd ((k, first) :: others))).
    { apply Forall_map. exact IH. }
    destruct (count_and_need_le_total IH') as [H1 H2].
    rewrite map_map in H2.
    pose proof (object_tail_length others) as H3.
    cbn [stringify need]. cbn [length]. rewrite length_app. cbn [length].
    rewrite length_app.
    rewrite length_map in H1.
    unfold total_length, list_sum, list_max in *.
    cbn [map fold_right length snd] in *. rewrite map_map in *. lia.
Qed.

(** The model [JSON.parse] reads back what the model [JSON.stringify]
    wrote. *)
Lemma parse_stringify v : strings_ok v = true -> parse (stringify v) = Some v.
Proof.
  intros Hok. unfold parse.
  pose proof (need_le_length v) as Hneed.
  pose proof (@parse_value_stringify v Hok (S (length (stringify v))) ltac:(lia) [] I) as Hp.
  rewrite app_nil_r in Hp. now rewrite Hp.
Qed.

Lemma json_safe_strings_ok v : json_safe v = true -> strings_ok v = true.
Proof.
  induction v as [| b | n | s | items IH | props IH] using jsval_ind;
    cbn [json_safe strings_ok]; intros H; try reflexivity; try exact H.
  - rewrite forallb_forall in *. rewrite Forall_forall in IH. auto.
  - apply andb_true_iff in H. destruct H as [H Hv].
    apply andb_true_iff in H. destruct H as [Hk _].
    rewrite forallb_forall in *. rewrite Forall_forall in IH.
    intros kv Hin. specialize (Hk kv Hin). apply andb_true_iff in Hk.
    apply andb_true_iff. split; [tauto|]. apply IH; auto.
Qed.

Lemma is_ascii_app s t : is_ascii (s ++ t) = is_ascii s && is_ascii t.
Proof. apply forallb_app. Qed.

Lemma hex_digit_ascii n : (n < 16)%N -> (hex_digit n <? 128)%N = true.
Proof.
  intros Hn. unfold hex_digit. apply N.ltb_lt.
  destruct (N.ltb_spec n 10); lia.
Qed.

Lemma escape_ascii c : is_ascii (escape c) = true.
Proof.
  unfold escape.
  destruct (N.eqb_spec c c_quote); [reflexivity|].
  destruct (N.eqb_spec c c_backslash); [reflexivity|].
  destruct ((32 <=? c) && (c <? 127))%N eqn:Hp.
  - apply andb_true_iff in Hp. destruct Hp as [_ Hp]. apply N.ltb_lt in Hp.
    simpl. rewrite andb_true_r. apply N.ltb_lt. lia.
  - cbn [is_ascii forallb].
    rewrite !hex_digit_ascii by (apply N.mod_upper_bound; lia). reflexivity.
Qed.

Lemma quote_ascii s : is_ascii (quote s) = true.
Proof.
  unfold quote. cbn [is_ascii forallb]. fold (is_ascii (flat_map escape s ++ [c_quote])).
  rewrite is_ascii_app. simpl.
  induction s as [|c s IH]; [reflexivity|].
  cbn [flat_map]. rewrite is_ascii_app, escape_ascii. exact IH.
Qed.

Lemma chars_of_uint_ascii u : is_ascii (chars_of_uint u) = true.
Proof. induction u; simpl; auto. Qed.

Lemma number_ascii n : is_ascii (number n) = true.
Proof.
  destruct n; unfold number; [reflexivity| |]; simpl; apply chars_of_uint_ascii.
Qed.

Lemma is_ascii_cons c s : is_ascii (c :: s) = (c <? 128)%N && is_ascii s.
Proof. reflexivity. Qed.

Lemma array_tail_ascii l :
  Forall (fun v => is_ascii (stringify v) = true) l ->
  is_ascii (array_tail stringify l) = true.
Proof.
  induction 1 as [|x l Hx _ IH]; [reflexivity|].
  cbn [array_tail]. now rewrite is_ascii_cons, is_ascii_app, Hx, IH.
Qed.

Lemma object_tail_ascii l :
  Forall (fun kv => is_ascii (stringify (snd kv)) = true) l ->
  is_ascii (object_tail stringify l) = true.
Proof.
  induction 1 as [|[k x] l Hx _ IH]; [reflexivity|]. simpl in Hx.
  cbn [object_tail].
  now rewrite is_ascii_cons, is_ascii_app, quote_ascii, is_ascii_cons, is_ascii_app, Hx, IH.
Qed.

Lemma stringify_ascii v : is_ascii (stringify v) = true.
Proof.
  induction v as [| b | n | s | items IH | props IH] using jsval_ind.
  - reflexivity.
  - destruct b; reflexivity.
  - apply number_ascii.
  - apply quote_ascii.
  - destruct items as [|first others]; [reflexivity|].
    inversion IH as [|? ? IH1 IHo]; subst.
    cbn [stringify].
    now rewrite is_ascii_cons, is_ascii_app, IH1, array_tail_ascii.
  - destruct props as [|[k first] others]; [reflexivity|].
    inversion IH as [|? ? IH1 IHo]; subst. simpl in IH1.
    cbn [stringify].
    now rewrite is_ascii_cons, is_ascii_app, quote_ascii, is_ascii_cons, is_ascii_app,
      IH1, object_tail_ascii.
Qed.

End JSONFacts.

(** ** The stored-block gzip of the model *)

Section GzipFacts.
Import Gzip.

Lemma to_N_byte_of_N n : (n < 256)%N -> Byte.to_N (byte_of_N n) = n.
Proof.
  intros Hn. unfold byte_of_N.
  destruct (Byte.of_N n) as [b|] eqn:Hb.
  - now apply Byte.to_of_N.
  - apply Byte.of_N_None_iff in Hb. lia.
Qed.

Lemma read16_le16 n rest :
  (n < 65536)%N ->
  match le16 n ++ rest with
  | b0 :: b1 :: r => read16 b0 b1 = n /\ r = rest
  | _ => False
  end.
Proof.
  intros Hn. unfold le16, read16. cbn [app].
  rewrite !to_N_byte_of_N by (apply N.mod_upper_bound; lia).
  split; [|reflexivity].
  assert (n / 256 < 256)%N by (apply N.Div0.div_lt_upper_bound; lia).
  rewrite (N.mod_small (n / 256) 256) by assumption.
  pose proof (N.div_mod n 256 ltac:(lia)). lia.
Qed.

Lemma read32_le32 n :
  match le32 n with
  | [b0; b1; b2; b3] => read32 b0 b1 b2 b3 = (n mod 4294967296)%N
  | _ => False
  end.
Proof.
  unfold le32, read32.
  rewrite !to_N_byte_of_N by (apply N.mod_upper_bound; lia).
  assert (D2 : (n / 256 / 256 = n / 65536)%N) by (rewrite N.Div0.div_div; reflexivity).
  assert (D3 : (n / 65536 / 256 = n / 16777216)%N) by (rewrite N.Div0.div_div; reflexivity).
  assert (D4 : (n / 16777216 / 256 = n / 4294967296)%N) by (rewrite N.Div0.div_div; reflexivity).
  pose proof (N.div_mod n 256 ltac:(lia)) as E1.
  pose proof (N.div_mod (n / 256) 256 ltac:(lia)) as E2.
  pose proof (N.div_mod (n / 65536) 256 ltac:(lia)) as E3.
  pose proof (N.div_mod (n / 16777216) 256 ltac:(lia)) as E4.
  pose proof (N.div_mod n 4294967296 ltac:(lia)) as E5.
  rewrite D2 in E2. rewrite D3 in E3. rewrite D4 in E4.
  lia.
Qed.

Lemma inflate_stored_block fuel final data rest :
  (N.of_nat (length data) <= block_max)%N ->
  inflate_stored (S fuel) (stored_block final data ++ rest) =
  if final then Some (data, rest)
  else match inflate_stored fuel rest with
       | Some (more, r) => Some (data ++ more, r)
       | None => None
       end.
Proof.
  intros Hlen. unfold block_max in Hlen.
  unfold stored_block. cbn [app inflate_stored].
  pose proof (@read16_le16 (N.of_nat (length data))
                ((le16 (block_max - N.of_nat (length data)) ++ data) ++ rest)
                ltac:(lia)) as H1.
  rewrite <- app_assoc.
  destruct (le16 (N.of_nat (length data)) ++
            (le16 (block_max - N.of_nat (length data)) ++ data) ++ rest)
    as [|l0 [|l1 r1]]; try contradiction.
  destruct H1 as [H1 ->].
  pose proof (@read16_le16 (block_max - N.of_nat (length data)) (data ++ rest)
                ltac:(unfold block_max; lia)) as H2.
  rewrite <- app_assoc.
  destruct (le16 (block_max - N.of_nat (length data)) ++ data ++ rest)
    as [|n0 [|n1 r2]]; try contradiction.
  destruct H2 as [H2 ->].
  rewrite H1, H2, N.eqb_refl.
  replace (N.of_nat (length data) <=? N.of_nat (length (data ++ rest)))%N with true.
  2:{ symmetry. apply N.leb_le. rewrite length_app. lia. }
  rewrite Nat2N.id.
  rewrite firstn_app, Nat.sub_diag, firstn_all. cbn [firstn]. rewrite app_nil_r.
  rewrite skipn_app, Nat.sub_diag, skipn_all. cbn [skipn app].
  destruct final; reflexivity.
Qed.

Lemma inflate_deflate_stored fuel :
  forall data fuel' rest,
    length data <= fuel -> length data < fuel' ->
    inflate_stored fuel' (deflate_stored fuel data ++ rest) = Some (data, rest).
Proof.
  induction fuel as [|fuel IH]; intros data fuel' rest Hfuel Hfuel';
    (destruct fuel' as [|fuel']; [lia|]); cbn [deflate_stored].
  - apply (inflate_stored_block fuel' true). unfold block_max. lia.
  - destruct (N.leb_spec (N.of_nat (length data)) block_max) as [Hle|Hgt].
    + now apply (inflate_stored_block fuel' true).
    + unfold block_max in Hgt. rewrite <- app_assoc.
      assert (Hfirst : length (firstn (N.to_nat block_max) data) = N.to_nat block_max).
      { apply firstn_length_le. unfold block_max. lia. }
      rewrite (inflate_stored_block fuel' false) by (rewrite Hfirst; unfold block_max; lia).
      rewrite IH.
      * now rewrite firstn_skipn.
      * rewrite length_skipn. unfold block_max. lia.
      * rewrite length_skipn. unfold block_max. lia.
Qed.

Lemma deflate_stored_length fuel :
  forall data, length data <= length (deflate_stored fuel data).
Proof.
  induction fuel as [|fuel IH]; intros data; cbn [deflate_stored].
  - unfold stored_block. cbn [length]. rewrite !length_app. lia.
  - destruct (N.leb_spec (N.of_nat (length data)) block_max) as [Hle|Hgt].
    + unfold stored_block. cbn [length]. rewrite !length_app. lia.
    + rewrite length_app. unfold stored_block. cbn [length]. rewrite !length_app.
      specialize (IH (skipn (N.to_nat block_max) data)).
      rewrite length_skipn in IH.
      rewrite firstn_length_le by (unfold block_max in *; lia). lia.
Qed.

(** The model gunzip undoes the model gzip. *)
Lemma model_gunzip_gzip data : gunzip (gzip data) = Some data.
Proof.
  unfold gzip, header. cbn [app gunzip].
  change (Byte.to_N Byte.x1f =? 31)%N with true.
  change (Byte.to_N Byte.x8b =? 139)%N with true.
  change (Byte.to_N Byte.x08 =? 8)%N with true.
  change (Byte.to_N Byte.x00 =? 0)%N with true.
  cbn [andb].
  rewrite inflate_deflate_stored.
  2: lia.
  2:{ rewrite length_app. pose proof (deflate_stored_length (length data) data). lia. }
  pose proof (read32_le32 (crc32 data)) as Hc.
  pose proof (read32_le32 (N.of_nat (length data))) as Hs.
  destruct (le32 (crc32 data)) as [|c0 [|c1 [|c2 [|c3 [|]]]]]; try contradiction.
  destruct (le32 (N.of_nat (length data))) as [|s0 [|s1 [|s2 [|s3 [|]]]]]; try contradiction.
  cbn [app]. now rewrite Hc, Hs, !N.eqb_refl.
Qed.

End GzipFacts.

(** ** The laws *)

Lemma utf8_decode_encode_ascii s :
  JSON.is_ascii s = true -> Utf8.decode (Utf8.encode s) = s.
Proof.
  induction s as [|c s IH]; intros Hs; [reflexivity|].
  simpl in Hs. apply andb_true_iff in Hs. destruct Hs as [Hc Hs].
  unfold Utf8.encode. cbn [flat_map]. rewrite Hc.
  apply N.ltb_lt in Hc.
  cbn [app]. unfold Utf8.decode. cbn [map].
  rewrite to_N_byte_of_N by lia.
  destruct (N.ltb_spec c 128); [|lia].
  f_equal. apply IH. exact Hs.
Qed.

Lemma strip_prefix_app p s : DataUrl.strip_prefix p (p ++ s) = Some s.
Proof.
  unfold DataUrl.strip_prefix.
  rewrite firstn_app, Nat.sub_diag, firstn_all. cbn [firstn]. rewrite app_nil_r.
  rewrite (proj2 (jsstring_eqb_eq p p) eq_refl).
  rewrite skipn_app, Nat.sub_diag, skipn_all. reflexivity.
Qed.

Lemma model_fetch_read bytes :
  DataUrl.fetch (js "data:application/octet-stream;base64," ++ Base64.encode bytes)
  = Some bytes.
Proof.
  unfold DataUrl.fetch. fold DataUrl.prefix.
  rewrite strip_prefix_app. apply decode_encode.
Qed.

(** The model platform obeys every law the codec relies on. *)
Lemma model_platform_laws : PlatformLaws model_platform.
Proof.
  constructor; cbn [model_platform JSON_stringify JSON_parse utf8_encode utf8_decode
                      gzip gunzip readAsDataURL fetch_data_url URLSearchParams_get].
  - intros v Hv. apply parse_stringify. now apply json_safe_strings_ok.
  - intros v _. apply utf8_decode_encode_ascii. apply stringify_ascii.
  - apply model_gunzip_gzip.
  - intros bytes.
    exists (js "data:application/octet-stream;base64"), (Base64.encode bytes).
    split; [reflexivity|]. split; [|split].
    + intros Hin. revert Hin. eapply forallb_absent with (p := fun c => negb (N.eqb c c_comma));
        reflexivity.
    + apply encode_standard.
    + apply model_fetch_read.
  - reflexivity.
Qed.

(** * The codec at work on the model platform *)

(** Scenario A: encoding gives the token, and the token decodes to the same
    object. *)
Example scenario_A_round_trip :
  share_token model_platform scenario_A = Ok scenario_A_token /\
  decode_token model_platform scenario_A_token = Ok scenario_A.
Proof. split; vm_compute; reflexivity. Qed.

Lemma decode_token_share_token_witness :
  json_safe scenario_A = true /\
  exists token,
    share_token model_platform scenario_A = Ok token /\
    decode_token model_platform token = Ok scenario_A.
Proof.
  split; [reflexivity|].
  exact (@decode_token_share_token model_platform model_platform_laws scenario_A eq_refl).
Defined.

Lemma share_token_url_safe_witness :
  share_token model_platform scenario_A = Ok scenario_A_token /\
  ~ In c_plus scenario_A_token /\
  ~ In c_slash scenario_A_token /\
  ~ In c_equals scenario_A_token.
Proof.
  assert (H : share_token model_platform scenario_A = Ok scenario_A_token)
    by (vm_compute; reflexivity).
  split; [exact H|].
  exact (@share_token_url_safe model_platform scenario_A scenario_A_token H).
Defined.

(** ** Malformed tokens *)

Lemma malformed_not_base64 : malformed model_platform token_not_base64 TypeError.
Proof. apply bad_base64. vm_compute. reflexivity. Qed.

(** Scenario B. *)
Lemma malformed_scenario_B : malformed model_platform token_scenario_B TypeError.
Proof. apply bad_base64. vm_compute. reflexivity. Qed.

(** One character changed in the middle: the bytes still decode, the CRC-32
    of the stream does not match any more. *)
Lemma malformed_corrupted_middle :
  malformed model_platform token_corrupted_middle TypeError.
Proof.
  eapply bad_gzip; [vm_compute; reflexivity|].
  vm_compute. reflexivity.
Qed.

(** Scenario C. *)
Lemma malformed_truncated_gzip :
  malformed model_platform token_truncated_gzip TypeError.
Proof.
  eapply bad_gzip; [vm_compute; reflexivity|].
  vm_compute. reflexivity.
Qed.

Lemma malformed_not_json : malformed model_platform token_not_json SyntaxError.
Proof.
  eapply not_json; [vm_compute; reflexivity| |].
  - vm_compute. reflexivity.
  - vm_compute. reflexivity.
Qed.

Lemma malformed_null : malformed model_platform token_null TypeError.
Proof. apply json_null. vm_compute. reflexivity. Qed.

Lemma malformed_empty_object :
  malformed model_platform token_empty_object
    (Error (js "Invalid card data structure")).
Proof.
  apply wrong_structure with (data := JObject []).
  - vm_compute. reflexivity.
  - discriminate.
  - reflexivity.
Qed.

(** C4 as stated does not hold: the decoding of a token with characters
    outside base64 and that of a token whose text is not JSON fail with two
    different errors, a [TypeError] and a [SyntaxError]; a token whose JSON
    lacks [cardData] fails with a third. *)
Lemma malformed_tokens_throw_different_errors :
  decode_token model_platform token_not_base64 = Throw TypeError /\
  decode_token model_platform token_not_json = Throw SyntaxError /\
  processSharedCard model_platform token_not_base64 = ([], Throw TypeError) /\
  processSharedCard model_platform token_not_json = ([], Throw SyntaxError) /\
  processSharedCard model_platform token_empty_object
    = ([], Throw (Error (js "Invalid card data structure"))) /\
  TypeError <> SyntaxError.
Proof.
  repeat split; try (vm_compute; reflexivity). discriminate.
Qed.

Lemma malformed_token_rejected_witness :
  URLSearchParams_get model_platform
    (search (app_at (js "?card=" ++ token_not_json))) (js "card")
    = Some token_not_json /\
  processSharedCard model_platform token_not_json = ([], Throw SyntaxError) /\
  handleIncomingCard model_platform (app_at (js "?card=" ++ token_not_json))
    = (rejection, Ok tt).
Proof.
  assert (H : URLSearchParams_get model_platform
                (search (app_at (js "?card=" ++ token_not_json))) (js "card")
              = Some token_not_json) by (vm_compute; reflexivity).
  split; [exact H|].
  exact (@malformed_token_rejected model_platform
           (app_at (js "?card=" ++ token_not_json)) token_not_json SyntaxError
           H eq_refl malformed_not_json).
Defined.

Lemma failed_decode_is_contained_witness :
  let page := fresh_page (js "?card=" ++ token_scenario_B) in
  let events := trace (handleIncomingCard model_platform (location page)) in
  let page' := apply_events events page in
  outcome (processSharedCard model_platform token_scenario_B) = Throw TypeError /\
  In (alert invalid_link_notice) events /\
  In history_replaceState_pathname events /\
  (forall data, ~ In (setReceivedCard data) events) /\
  outcome (handleIncomingCard model_platform (location page)) = Ok tt /\
  receivedCard page' = receivedCard page /\
  search (location page') = [] /\
  pathname (location page') = pathname (location page) /\
  handleIncomingCard model_platform (location page') = ret tt.
Proof.
  intros page events page'.
  assert (Hthrow : outcome (processSharedCard model_platform token_scenario_B)
                   = Throw TypeError) by (vm_compute; reflexivity).
  assert (Hget : URLSearchParams_get model_platform (search (location page)) (js "card")
                 = Some token_scenario_B) by (vm_compute; reflexivity).
  split; [exact Hthrow|].
  exact (@failed_decode_is_contained model_platform page token_scenario_B TypeError
           eq_refl Hget eq_refl Hthrow).
Defined.

Lemma truthy_card_is_received_witness :
  let page := fresh_page (js "?card=" ++ token_truthy_only) in
  let data := JObject [(js "cardData", JNumber 1); (js "theme", JBool true)] in
  let page' :=
    apply_events (trace (handleIncomingCard model_platform (location page))) page in
  decode_token model_platform token_truthy_only = Ok data /\
  handleIncomingCard model_platform (location page) = ([setReceivedCard data], Ok tt) /\
  receivedCard page' = Some data /\
  renderReceivedCardModal (receivedCard page') =
    match CardPreview (Some (JNumber 1)) (Some (JBool true)) with
    | Ok _ => Ok true
    | Throw e => Throw e
    end.
Proof.
  intros page data page'.
  assert (Hdec : decode_token model_platform token_truthy_only = Ok data)
    by (vm_compute; reflexivity).
  assert (Hget : URLSearchParams_get model_platform (search (location page)) (js "card")
                 = Some token_truthy_only) by (vm_compute; reflexivity).
  split; [exact Hdec|].
  exact (@truthy_card_is_received model_platform page token_truthy_only
           [(js "cardData", JNumber 1); (js "theme", JBool true)]
           (JNumber 1) (JBool true)
           Hget eq_refl Hdec eq_refl eq_refl eq_refl eq_refl).
Defined.

(** C9 as stated does not hold: the token of [{"cardData":1,"theme":true}]
    is accepted and its value becomes the received card, but the value is
    not presented. [CardPreview] takes [bannerImage] from the number [1],
    which is [undefined], and the classic layout reads
    [bannerImage.aspectRatio]: a [TypeError], which ends the render. *)
Lemma received_card_is_not_presented :
  let page := fresh_page (js "?card=" ++ token_truthy_only) in
  let data := JObject [(js "cardData", JNumber 1); (js "theme", JBool true)] in
  let page' :=
    apply_events (trace (handleIncomingCard model_platform (location page))) page in
  decode_token model_platform token_truthy_only = Ok data /\
  truthy_opt (property data (js "cardData")) = true /\
  truthy_opt (property data (js "theme")) = true /\
  receivedCard page' = Some data /\
  read (Some (JNumber 1)) (js "bannerImage") = Ok None /\
  read None (js "aspectRatio") = Throw TypeError /\
  CardPreview (Some (JNumber 1)) (Some (JBool true)) = Throw TypeError /\
  renderReceivedCardModal (receivedCard page') = Throw TypeError.
Proof.
  repeat split; vm_compute; reflexivity.
Qed.

(** ** Long links *)

(** On the model platform nothing is compressed away: a token is at least as
    long as the JSON text it carries. *)
Lemma model_compressAndEncode (v : jsval) :
  compressAndEncode model_platform v =
  Some (Base64.encode (Gzip.gzip (Utf8.encode (JSON.stringify v)))).
Proof.
  unfold compressAndEncode.
  cbn [model_platform JSON_stringify utf8_encode gzip readAsDataURL].
  unfold DataUrl.read, DataUrl.prefix.
  change (js "data:application/octet-stream;base64,")
    with (js "data:application/octet-stream;base64" ++ [c_comma]).
  rewrite <- app_assoc. cbn [app].
  apply split_limit_second.
  - eapply forallb_absent with (p := fun c => negb (N.eqb c c_comma)); reflexivity.
  - apply standard_base64_no_comma, encode_standard.
Qed.

Lemma model_share_token (v : jsval) :
  share_token model_platform v = Ok (model_token v).
Proof.
  unfold model_token, share_token. now rewrite model_compressAndEncode.
Qed.

Lemma sextets_length_ge bytes : length bytes <= length (Base64.sextets bytes).
Proof.
  induction bytes as [|a|a b|a b c rest IH] using list_ind3; simpl in *; lia.
Qed.

Lemma gzip_length_ge data : length data <= length (Gzip.gzip data).
Proof.
  unfold Gzip.gzip. rewrite !length_app.
  pose proof (deflate_stored_length (length data) data). lia.
Qed.

Lemma utf8_length_ge s : length s <= length (Utf8.encode s).
Proof.
  induction s as [|c s IH]; [simpl; lia|].
  unfold Utf8.encode in *. cbn [flat_map]. rewrite length_app.
  destruct (c <? 128)%N; simpl; lia.
Qed.

Lemma model_token_length (v : jsval) :
  length (JSON.stringify v) <= length (model_token v).
Proof.
  unfold model_token, share_token. rewrite model_compressAndEncode.
  cbn [toUrlSafeBase64_of].
  set (bytes := Gzip.gzip (Utf8.encode (JSON.stringify v))).
  pose proof (chars_are_base64 (sextets_bounded bytes)) as Hbody.
  destruct (base64_body_absent _ Hbody) as (He & _ & _).
  unfold Base64.encode. rewrite toUrlSafeBase64_padded by assumption.
  rewrite !replace_all_length, length_map.
  pose proof (sextets_length_ge bytes).
  pose proof (gzip_length_ge (Utf8.encode (JSON.stringify v))).
  pose proof (utf8_length_ge (JSON.stringify v)).
  subst bytes. lia.
Qed.

Lemma escaped_length_ge s : length s <= length (flat_map JSON.escape s).
Proof.
  induction s as [|c s IH]; [simpl; lia|].
  cbn [flat_map]. rewrite length_app. unfold JSON.escape at 1.
  destruct (c =? JSON.c_quote)%N; [simpl; lia|].
  destruct (c =? JSON.c_backslash)%N; [simpl; lia|].
  destruct ((32 <=? c) && (c <? 127))%N; simpl; lia.
Qed.

Lemma stringify_string_length_ge s : length s <= length (JSON.stringify (JString s)).
Proof.
  cbn [JSON.stringify]. unfold JSON.quote. cbn [length]. rewrite length_app.
  pose proof (escaped_length_ge s). lia.
Qed.

Lemma object_tail_length_ge props k x :
  In (k, x) props ->
  length (JSON.stringify x) <= length (JSON.object_tail JSON.stringify props).
Proof.
  induction props as [|[k' y] props IH]; [contradiction|].
  intros [Heq|Hin]; cbn [JSON.object_tail length]; rewrite length_app; cbn [length];
    rewrite length_app.
  - injection Heq as -> ->. lia.
  - specialize (IH Hin). lia.
Qed.

(** The text of an object is at least as long as that of any of its
    property values. *)
Lemma stringify_property_length_ge props k x :
  In (k, x) props ->
  length (JSON.stringify x) <= length (JSON.stringify (JObject props)).
Proof.
  destruct props as [|[k' y] props]; [contradiction|].
  intros [Heq|Hin]; cbn [JSON.stringify length]; rewrite length_app; cbn [length];
    rewrite length_app.
  - injection Heq as -> ->. lia.
  - pose proof (object_tail_length_ge props k x Hin). lia.
Qed.

Lemma noise_length (n : nat) (x : N) : length (noise n x) = n.
Proof.
  revert x. induction n as [|n IH]; intros x; [reflexivity|].
  cbn [noise length]. now rewrite IH.
Qed.

Lemma long_bio_length : 2000 < length (BusinessCardData.bio long_card).
Proof.
  cbn [long_card BusinessCardData.bio]. rewrite noise_length. lia.
Qed.

(** A link that carries the bio of [long_card] is longer than 2000
    characters, on either path. *)
Lemma long_card_url_length (payload : jsval) (cardData : list (jsstring * jsval))
    (baseUrl : jsstring) :
  property payload (js "cardData") = Some (JObject cardData) ->
  lookup (js "bio") cardData = Some (JString (BusinessCardData.bio long_card)) ->
  2000 < length (card_url baseUrl (model_token payload)).
Proof.
  intros Hcard Hbio.
  assert (Hin : forall key props v, lookup key props = Some v -> exists k, In (k, v) props).
  { intros key props v. induction props as [|[k y] props IH]; [discriminate|].
    cbn [lookup]. destruct (jsstring_eqb k key).
    - intros H. injection H as ->. exists k. now left.
    - intros H. destruct (IH H) as [k' Hk']. exists k'. now right. }
  destruct payload as [| | | | |props]; try discriminate.
  cbn [property] in Hcard.
  destruct (Hin _ _ _ Hcard) as [k1 H1].
  destruct (Hin _ _ _ Hbio) as [k2 H2].
  pose proof (stringify_property_length_ge _ _ _ H1).
  pose proof (stringify_property_length_ge _ _ _ H2).
  pose proof (stringify_string_length_ge (BusinessCardData.bio long_card)).
  pose proof (model_token_length (JObject props)).
  pose proof long_bio_length.
  unfold card_url. rewrite !length_app. lia.
Qed.

(** C3 as stated does not hold on the Copy Share Link path: for the card of
    Scenario D the link is longer than 2000 characters, and
    [handleCopyShareLink] copies that link. *)
Lemma handleCopyShareLink_copies_long_url :
  let st := editing long_card in
  let token := model_token (DataToShare.to_value (getDataForSharing st)) in
  let url := card_url (baseUrl_of (app_at [])) token in
  share_token model_platform (DataToShare.to_value (getDataForSharing st)) = Ok token /\
  2000 < length url /\
  outward (trace (handleCopyShareLink model_platform clipboard_only (app_at []) st))
    = [clipboard_writeText url].
Proof.
  intros st token url.
  assert (Htoken : share_token model_platform
                     (DataToShare.to_value (getDataForSharing st)) = Ok token)
    by apply model_share_token.
  split; [exact Htoken|]. split.
  - eapply long_card_url_length; reflexivity.
  - exact (@handleCopyShareLink_copies_link model_platform clipboard_only
             (app_at []) st token Htoken).
Qed.

Lemma createAndShareLink_long_url_fallback_witness :
  let d := sample_data long_card in
  let token := model_token (simplifiedData d) in
  let baseUrl := baseUrl_of (app_at []) in
  let name := BusinessCardData.name long_card in
  let short := {| title := ko_digital_card;
                  text := name ++ ko_check_card_of;
                  url := baseUrl |} in
  2000 < length (card_url baseUrl token) /\
  outward (trace (createAndShareLink model_platform share_sheet (app_at []) d))
    = [navigator_share short] /\
  outward (trace (createAndShareLink model_platform clipboard_only (app_at []) d))
    = [clipboard_writeText (name ++ ko_check_card_of ++ js " " ++ baseUrl)] /\
  exists full,
    2000 < length (card_url baseUrl full) /\
    outward (trace (handleCopyShareLink model_platform share_sheet (app_at [])
                      (editing long_card)))
    = [clipboard_writeText (card_url baseUrl full)].
Proof.
  intros d token baseUrl name short.
  assert (Htoken : share_token model_platform (simplifiedData d) = Ok token)
    by apply model_share_token.
  assert (Hlong : 2000 < length (card_url baseUrl token))
    by (eapply long_card_url_length; reflexivity).
  split; [exact Hlong|].
  split; [exact (proj1 (@createAndShareLink_long_url_fallback model_platform share_sheet
                          (app_at []) d token Htoken Hlong))|].
  split.
  - rewrite (proj1 (@createAndShareLink_long_url_fallback model_platform clipboard_only
                      (app_at []) d token Htoken Hlong)).
    cbn [clipboard_only has_share has_canShare andb]. unfold name.
    cbn [d sample_data DataToShare.cardData long_card BusinessCardData.name
         fallback_shareText sample_card nonempty js list_ascii_of_string map].
    now rewrite <- app_assoc.
  - exists (model_token (DataToShare.to_value (getDataForSharing (editing long_card)))).
    split; [eapply long_card_url_length; reflexivity|].
    apply (proj2 (@createAndShareLink_long_url_fallback model_platform share_sheet
                    (app_at []) d token Htoken Hlong)).
    apply model_share_token.
Defined.

(** ** What a copied link carries *)

(** The link that [handleCopyShareLink] copies for the sample card decodes
    to an object whose [cardData.profilePicture.src] is the picture; the
    link that [createAndShareLink] shares decodes to one without
    [profilePicture]. *)
Example copied_link_carries_picture :
  let st := editing sample_card in
  let copied := model_token (DataToShare.to_value (getDataForSharing st)) in
  let shared := model_token (simplifiedData (getDataForSharing st)) in
  outward (trace (handleCopyShareLink model_platform clipboard_only (app_at []) st))
    = [clipboard_writeText (card_url (baseUrl_of (app_at [])) copied)] /\
  (exists data picture,
     decode_token model_platform copied = Ok data /\
     lookup (js "profilePicture") (cardData_props data) = Some picture /\
     property picture (js "src") = Some (JString (js "data:image/png;base64,iVBORw0KGgo="))) /\
  (exists data,
     decode_token model_platform shared = Ok data /\
     lookup (js "profilePicture") (cardData_props data) = None).
Proof.
  intros st copied shared. split; [vm_compute; reflexivity|]. split.
  - eexists _, _. split; [vm_compute; reflexivity|].
    split; [vm_compute; reflexivity|].
    vm_compute. reflexivity.
  - eexists. split; [vm_compute; reflexivity|].
    vm_compute. reflexivity.
Qed.


(** * More on the URL-safe transforms *)

(** On a string with no [+] and no [/], the encode-side replacements undo
    the decode-side ones character by character. *)
Lemma url_safe_replacements_inverse_back t :
  ~ In c_plus t -> ~ In c_slash t ->
  replace_all c_slash c_underscore
    (replace_all c_plus c_minus
       (replace_all c_underscore c_slash (replace_all c_minus c_plus t))) = t.
Proof.
  intros Hp Hs. unfold replace_all. rewrite !map_map.
  rewrite <- (map_id t) at 2. apply map_ext_in.
  intros x Hx.
  assert (x <> c_plus) by (intros ->; contradiction).
  assert (x <> c_slash) by (intros ->; contradiction).
  destruct (N.eqb_spec x c_minus) as [->|Hm]; [reflexivity|].
  destruct (N.eqb_spec x c_underscore) as [->|Hu]; [reflexivity|].
  destruct (N.eqb_spec x c_plus); [contradiction|].
  destruct (N.eqb_spec x c_slash); [contradiction|reflexivity].
Qed.

(** X1: a token without [+], [/] and [=] comes back from
    [toUrlSafeBase64 (fromUrlSafeBase64 token)] as it was: what the decode
    side replaces and appends is exactly what the encode side replaces and
    removes, whatever the length of the token. *)
Theorem toUrlSafeBase64_fromUrlSafeBase64 (token : jsstring) :
  ~ In c_plus token -> ~ In c_slash token -> ~ In c_equals token ->
  toUrlSafeBase64 (fromUrlSafeBase64 token) = token.
Proof.
  intros Hp Hs He. unfold fromUrlSafeBase64.
  destruct (pad_loop_spec
              (replace_all c_underscore c_slash (replace_all c_minus c_plus token)))
    as [-> _].
  rewrite toUrlSafeBase64_padded.
  - now apply url_safe_replacements_inverse_back.
  - apply replace_all_preserves_absent; [discriminate|].
    apply replace_all_preserves_absent; [discriminate|assumption].
Qed.

Lemma toUrlSafeBase64_fromUrlSafeBase64_witness :
  fromUrlSafeBase64 (js "ab-_c") = js "ab+/c===" /\
  toUrlSafeBase64 (fromUrlSafeBase64 (js "ab-_c")) = js "ab-_c".
Proof.
  split; [reflexivity|].
  apply (@toUrlSafeBase64_fromUrlSafeBase64 (js "ab-_c"));
    (eapply forallb_absent with (p := fun c => (65 <=? c)%N || (c =? c_minus)%N);
     reflexivity).
Defined.


(** * The sharing handlers, whatever happens *)

(** A [try] whose [catch] does not throw, inside a [finally], between two
    pairs of events. *)
Lemma guarded_handler_runs (a b c d : event) (body : io unit)
    (handler : exception -> io unit) :
  (forall e, outcome (handler e) = Ok tt) ->
  exists middle,
    (emit a ;; emit b ;;
     try_finally (try_catch body handler) (emit c ;; emit d))%io =
    ([a; b] ++ middle ++ [c; d], Ok tt).
Proof.
  intros Hh. destruct body as [tr [[]|e]].
  - exists tr. reflexivity.
  - specialize (Hh e). destruct (handler e) as [tr' r] eqn:E.
    cbn [outcome snd] in Hh. subst r.
    exists (tr ++ tr'). cbn. rewrite E. reflexivity.
Qed.

(** X2: [createAndShareLink] and [handleCopyShareLink] never throw, and
    each run starts by showing the busy overlay and ends by taking it down:
    whatever the encoding, the share sheet and the clipboard do, the
    [catch] takes the error and the [finally] runs last. *)
Theorem sharing_handlers_complete
    (P : Platform) (nav : Navigator) (sender : Location)
    (st : AppState) (dataToShare : DataToShare.t) :
  outcome (createAndShareLink P nav sender dataToShare) = Ok tt /\
  busy_from_start_to_end (trace (createAndShareLink P nav sender dataToShare)) /\
  outcome (handleCopyShareLink P nav sender st) = Ok tt /\
  busy_from_start_to_end (trace (handleCopyShareLink P nav sender st)).
Proof.
  unfold createAndShareLink, handleCopyShareLink, busy_from_start_to_end.
  match goal with
  | |- context [try_catch ?body ?h] =>
      destruct (@guarded_handler_runs
                  (setExportMessage (js "Creating share link...")) (setIsExporting true)
                  (setIsExporting false) (setExportMessage []) body h
                  (fun _ => eq_refl)) as [m1 ->]
  end.
  match goal with
  | |- context [try_catch ?body ?h] =>
      destruct (@guarded_handler_runs
                  (setExportMessage (js "Creating share link...")) (setIsExporting true)
                  (setIsExporting false) (setExportMessage []) body h
                  (fun _ => eq_refl)) as [m2 ->]
  end.
  cbn [outcome trace fst snd]. repeat split; eexists; reflexivity.
Qed.

Lemma copy_and_flag_cases (nav : Navigator) (text : jsstring) :
  copy_and_flag nav text =
  match writeText nav text with
  | Ok _ => ([clipboard_writeText text; setCopySuccess true;
              setTimeout_setCopySuccess_false], Ok tt)
  | Throw e => ([clipboard_writeText text], Throw e)
  end.
Proof.
  unfold copy_and_flag, call_clipboard_writeText.
  destruct (writeText nav text) as [[]|e]; reflexivity.
Qed.

Ltac in_cases H :=
  cbn [In app] in H;
  repeat match type of H with
         | _ \/ _ => destruct H as [H|H]
         end;
  try discriminate H; try contradiction.

Ltac flagged :=
  unfold flagged_iff_copied;
  split;
  [ let H := fresh "H" in
    intros H; in_cases H;
    eexists; split; first [assumption | cbn [In app]; eauto 8]
  | let text := fresh "text" in
    let Hin := fresh "Hin" in
    let Hw := fresh "Hw" in
    intros (text & Hin & Hw); in_cases Hin;
    try congruence;
    cbn [In app]; eauto 8 ].

Ltac run_io :=
  cbn [trace outcome fst snd bind emit ret throw await try_finally try_catch app
       toUrlSafeBase64_of].

(** X3: on both paths "Link Copied!" ([setCopySuccess(true)]) is shown
    exactly when [navigator.clipboard.writeText] was called and resolved:
    never after a share through the share sheet, never after a failed
    write, and always after a write that went through. *)
Theorem copy_success_iff_copied
    (P : Platform) (nav : Navigator) (sender : Location)
    (st : AppState) (dataToShare : DataToShare.t) :
  flagged_iff_copied nav (trace (createAndShareLink P nav sender dataToShare)) /\
  flagged_iff_copied nav (trace (handleCopyShareLink P nav sender st)).
Proof.
  split.
  - unfold createAndShareLink, createAndShareLink_body.
    destruct (compressAndEncode P (simplifiedData dataToShare)) as [base64|];
      [|run_io; flagged].
    cbn [toUrlSafeBase64_of]. rewrite bind_await_Ok.
    set (url := card_url _ _). set (name := BusinessCardData.name _).
    destruct (2000 <? length url).
    + unfold call_navigator_share. rewrite !copy_and_flag_cases.
      destruct (has_share nav && has_canShare nav);
        [destruct (share nav _) as [[]|e1]|];
        destruct (writeText nav _) as [[]|e2] eqn:Ew; run_io; flagged.
    + unfold call_navigator_share. rewrite !copy_and_flag_cases.
      destruct (has_share nav && has_canShare nav && canShare nav _);
        [destruct (share nav _) as [[]|e1]|];
        destruct (writeText nav _) as [[]|e2] eqn:Ew; run_io; flagged.
  - unfold handleCopyShareLink, handleCopyShareLink_body.
    destruct (compressAndEncode P _) as [base64|]; [|run_io; flagged].
    cbn [toUrlSafeBase64_of]. rewrite bind_await_Ok, copy_and_flag_cases.
    destruct (writeText nav _) as [[]|e2] eqn:Ew; run_io; flagged.
Qed.

(** X4: when the link is at most 2000 characters long,
    [createAndShareLink] hands out the link itself: through
    [navigator.share] when the browser can share the payload, copied to the
    clipboard when it cannot, and both, in that order, when the share sheet
    fails. *)
Theorem createAndShareLink_short_url
    (P : Platform) (nav : Navigator) (sender : Location)
    (dataToShare : DataToShare.t) (token : jsstring) :
  share_token P (simplifiedData dataToShare) = Ok token ->
  length (card_url (baseUrl_of sender) token) <= 2000 ->
  let cardName := BusinessCardData.name (DataToShare.cardData dataToShare) in
  let url := card_url (baseUrl_of sender) token in
  let sharePayload := sharePayload_of cardName url in
  let supported := has_share nav && has_canShare nav && canShare nav sharePayload in
  outward (trace (createAndShareLink P nav sender dataToShare)) =
  if supported then
    match share nav sharePayload with
    | Ok _ => [navigator_share sharePayload]
    | Throw _ => [navigator_share sharePayload; clipboard_writeText url]
    end
  else [clipboard_writeText url].
Proof.
  intros Htoken Hshort cardName url sharePayload supported.
  unfold createAndShareLink, createAndShareLink_body.
  unfold share_token in Htoken. rewrite Htoken, bind_await_Ok.
  apply Nat.leb_le in Hshort. rewrite Nat.ltb_antisym.
  fold url in Hshort |- *. rewrite Hshort. cbn [negb].
  fold cardName. fold sharePayload. fold supported.
  unfold call_navigator_share. rewrite !copy_and_flag_cases.
  destruct supported.
  - destruct (share nav sharePayload) as [[]|e1]; [reflexivity|].
    destruct (writeText nav url) as [[]|e2]; reflexivity.
  - destruct (writeText nav url) as [[]|e2]; reflexivity.
Qed.

(** X5: when the data URL that the reader returns has no comma,
    [split(',', 2)[1]] is [undefined] and [toUrlSafeBase64] throws on it;
    both handlers catch the error: they log it, show their alert, hand
    nothing to the share sheet or the clipboard, and take the overlay
    down. *)
Theorem data_url_without_comma_shares_nothing
    (P : Platform) (nav : Navigator) (sender : Location)
    (st : AppState) (dataToShare : DataToShare.t) :
  (forall bytes, ~ In c_comma (readAsDataURL P bytes)) ->
  createAndShareLink P nav sender dataToShare =
    ([setExportMessage (js "Creating share link..."); setIsExporting true;
      console_error (js "Failed to create or share link:"); alert ko_link_failed;
      setIsExporting false; setExportMessage []], Ok tt) /\
  handleCopyShareLink P nav sender st =
    ([setExportMessage (js "Creating share link..."); setIsExporting true;
      console_error (js "Failed to create share link:");
      alert (js "Could not create a shareable link.");
      setIsExporting false; setExportMessage []], Ok tt).
Proof.
  intros Hno.
  assert (Hnone : forall data, compressAndEncode P data = None).
  { intros data. unfold compressAndEncode, split_limit.
    now rewrite split_no_separator by apply Hno. }
  unfold createAndShareLink, createAndShareLink_body,
    handleCopyShareLink, handleCopyShareLink_body.
  rewrite !Hnone. split; reflexivity.
Qed.


(** * Which card is shared *)

Lemma jsstring_eqb_refl s : jsstring_eqb s s = true.
Proof. now apply jsstring_eqb_eq. Qed.

Lemma jsstring_eqb_neq s t : s <> t -> jsstring_eqb s t = false.
Proof.
  intros H. destruct (jsstring_eqb s t) eqn:E; [|reflexivity].
  apply jsstring_eqb_eq in E. contradiction.
Qed.

Lemma find_some_id (cards : list SavedCard.t) (cardId : jsstring) (card : SavedCard.t) :
  find (fun c => jsstring_eqb (SavedCard.id c) cardId) cards = Some card ->
  In card cards /\ SavedCard.id card = cardId.
Proof.
  intros H. apply find_some in H. destruct H as [Hin Heq].
  apply jsstring_eqb_eq in Heq. now split.
Qed.

Lemma find_none_id (cards : list SavedCard.t) (cardId : jsstring) :
  find (fun c => jsstring_eqb (SavedCard.id c) cardId) cards = None <->
  (forall card, In card cards -> SavedCard.id card <> cardId).
Proof.
  split.
  - intros H card Hin Heq.
    pose proof (find_none _ _ H card Hin) as Hf. cbv beta in Hf.
    apply jsstring_eqb_eq in Heq. congruence.
  - intros H. destruct (find _ cards) as [card|] eqn:E; [|reflexivity].
    apply find_some_id in E. destruct E as [Hin Heq]. now destruct (H card Hin).
Qed.

(** [savedCards.some(c => c.id === id)] holds exactly when
    [savedCards.find(c => c.id === id)] finds a card. *)
Lemma existsb_find_id (cards : list SavedCard.t) (cardId : jsstring) :
  existsb (fun c => jsstring_eqb (SavedCard.id c) cardId) cards =
  match find (fun c => jsstring_eqb (SavedCard.id c) cardId) cards with
  | Some _ => true
  | None => false
  end.
Proof.
  induction cards as [|c cards IH]; [reflexivity|].
  cbn [existsb find]. destruct (jsstring_eqb (SavedCard.id c) cardId); [reflexivity|exact IH].
Qed.

Lemma getDataForSharing_saved (st : AppState) (cardId : jsstring) (card : SavedCard.t) :
  editingCardId st = Some cardId -> nonempty cardId = true ->
  find (fun c => jsstring_eqb (SavedCard.id c) cardId) (savedCards st) = Some card ->
  getDataForSharing st = data_of card.
Proof.
  intros Hid Hne Hfind. unfold getDataForSharing. rewrite Hid.
  destruct cardId as [|c rest]; [discriminate|].
  now rewrite existsb_find_id, Hfind.
Qed.

Lemma getDataForSharing_editor (st : AppState) :
  (forall cardId, editingCardId st = Some cardId ->
     find (fun c => jsstring_eqb (SavedCard.id c) cardId) (savedCards st) = None) ->
  getDataForSharing st =
    {| DataToShare.cardData := cardData st; DataToShare.theme := theme st |}.
Proof.
  intros Hnone. unfold getDataForSharing.
  destruct (editingCardId st) as [[|c rest]|]; try reflexivity.
  now rewrite existsb_find_id, (Hnone (c :: rest) eq_refl).
Qed.

(** X6: whatever [handleShareCardFromHub] hands to the share sheet or to
    the clipboard comes from a saved card with the id it was given, and
    that card is public: for a private card and for an id that no saved
    card has, nothing is encoded and nothing leaves the page. *)
Theorem handleShareCardFromHub_public_only
    (P : Platform) (nav : Navigator) (sender : Location) (st : AppState)
    (cardId : jsstring) (e : event) :
  In e (outward (trace (handleShareCardFromHub P nav sender st cardId))) ->
  exists card,
    In card (savedCards st) /\
    SavedCard.id card = cardId /\
    SavedCard.isPublic card = true /\
    handleShareCardFromHub P nav sender st cardId =
      createAndShareLink P nav sender (data_of card).
Proof.
  unfold handleShareCardFromHub.
  destruct (find _ (savedCards st)) as [card|] eqn:E; [|intros []].
  destruct (SavedCard.isPublic card) eqn:Epub; [|intros []].
  intros _. exists card. apply find_some_id in E. destruct E as [Hin Hid].
  repeat split; assumption.
Qed.

(** X7: while a saved card is being edited, Share and Copy Share Link send
    the card as it was saved: whatever the editor holds ([unsaved],
    [unsavedTheme]), [getDataForSharing] returns the saved card's data and
    both handlers run as they would without the edits. *)
Theorem sharing_ignores_unsaved_edits
    (P : Platform) (nav : Navigator) (sender : Location) (st : AppState)
    (cardId : jsstring) (card : SavedCard.t)
    (unsaved : BusinessCardData.t) (unsavedTheme : ThemeColors.t) :
  editingCardId st = Some cardId -> nonempty cardId = true ->
  find (fun c => jsstring_eqb (SavedCard.id c) cardId) (savedCards st) = Some card ->
  let edited := {| cardData := unsaved; theme := unsavedTheme;
                   savedCards := savedCards st;
                   editingCardId := editingCardId st |} in
  getDataForSharing edited = data_of card /\
  handleShare P nav sender edited = createAndShareLink P nav sender (data_of card) /\
  handleCopyShareLink P nav sender edited = handleCopyShareLink P nav sender st.
Proof.
  intros Hid Hne Hfind edited.
  assert (He : getDataForSharing edited = data_of card)
    by now apply (@getDataForSharing_saved edited cardId card).
  assert (Hs : getDataForSharing st = data_of card)
    by now apply (@getDataForSharing_saved st cardId card).
  split; [exact He|]. split.
  - unfold handleShare. now rewrite He.
  - unfold handleCopyShareLink. now rewrite He, Hs.
Qed.

(** X8: the privacy of a card is looked at in the hub only. For a private
    saved card that is open in the editor, [handleShareCardFromHub] shows
    its alert and stops, but [handleShare] runs [createAndShareLink] on the
    card and [handleCopyShareLink] copies the link of the card. *)
Theorem private_card_shared_from_editor
    (P : Platform) (nav : Navigator) (sender : Location) (st : AppState)
    (cardId : jsstring) (card : SavedCard.t) :
  editingCardId st = Some cardId -> nonempty cardId = true ->
  find (fun c => jsstring_eqb (SavedCard.id c) cardId) (savedCards st) = Some card ->
  SavedCard.isPublic card = false ->
  handleShareCardFromHub P nav sender st cardId =
    ([alert (js "This card is private. Please make it public before sharing.")], Ok tt) /\
  handleShare P nav sender st = createAndShareLink P nav sender (data_of card) /\
  (forall token,
     share_token P (DataToShare.to_value (data_of card)) = Ok token ->
     outward (trace (handleCopyShareLink P nav sender st)) =
       [clipboard_writeText (card_url (baseUrl_of sender) token)]).
Proof.
  intros Hid Hne Hfind Hprivate.
  assert (Hs : getDataForSharing st = data_of card)
    by now apply (@getDataForSharing_saved st cardId card).
  split; [|split].
  - unfold handleShareCardFromHub. now rewrite Hfind, Hprivate.
  - unfold handleShare. now rewrite Hs.
  - intros token Htoken. apply handleCopyShareLink_copies_link. now rewrite Hs.
Qed.


(** * From a link to the received card *)

Section LawfulLinks.

Variable P : Platform.
Hypothesis laws : PlatformLaws P.

(** The page load of a link whose token was made from [payload]. *)
Lemma token_is_received (payload : jsval) (token : jsstring) (page : Page) :
  json_safe payload = true ->
  has_card_shape payload = true ->
  share_token P payload = Ok token ->
  nonempty token = true ->
  search (location page) = js "?card=" ++ token ->
  URLSearchParams_get P (js "?card=" ++ token) (js "card") = Some token ->
  handleIncomingCard P (location page) = ([setReceivedCard payload], Ok tt).
Proof.
  intros Hsafe Hshape Htoken Hne Hsearch Hget.
  rewrite <- Hsearch in Hget.
  rewrite (handleIncomingCard_param P (location page) Hget Hne).
  rewrite processSharedCard_cases.
  unfold share_token, toUrlSafeBase64_of in Htoken.
  destruct (compressAndEncode P payload) as [base64|] eqn:Henc; [|discriminate].
  injection Htoken as <-.
  rewrite (token_decodes laws payload Hsafe Henc), Hshape.
  destruct payload; try reflexivity. discriminate.
Qed.


(** X10: the link made by Share opens as the simplified card. On a
    platform that obeys the laws of the codec, the page load of an address
    whose query is [?card=token], [token] being the token that
    [createAndShareLink] computes, sets [receivedCard] to the simplified
    object: the seven properties of the card and the theme. *)
Theorem shared_link_opens_as_simplified_card
    (dataToShare : DataToShare.t) (token : jsstring) (page : Page) :
  shareable_strings_ok dataToShare = true ->
  share_token P (simplifiedData dataToShare) = Ok token ->
  nonempty token = true ->
  search (location page) = js "?card=" ++ token ->
  URLSearchParams_get P (js "?card=" ++ token) (js "card") = Some token ->
  receivedCard (apply_events (trace (handleIncomingCard P (location page))) page)
    = Some (simplifiedData dataToShare) /\
  keys (cardData_props (simplifiedData dataToShare)) = simplified_card_keys.
Proof.
  intros Hok Htoken Hne Hsearch Hget. split; [|reflexivity].
  rewrite (@token_is_received (simplifiedData dataToShare) token page);
    try assumption; try reflexivity.
  now apply simplifiedData_json_safe.
Qed.

End LawfulLinks.

(** The simplified card has no [bannerImage] and no [layout]. *)
Lemma CardPreview_simplified (d : DataToShare.t) :
  CardPreview (property (simplifiedData d) (js "cardData"))
              (property (simplifiedData d) (js "theme")) = Throw TypeError.
Proof. reflexivity. Qed.

(** The whole card has every property that the body of [CardPreview]
    reads. *)
Lemma CardPreview_whole (d : DataToShare.t) :
  CardPreview (property (DataToShare.to_value d) (js "cardData"))
              (property (DataToShare.to_value d) (js "theme")) = Ok tt.
Proof.
  unfold DataToShare.to_value, BusinessCardData.to_value.
  destruct (BusinessCardData.layout (DataToShare.cardData d)); reflexivity.
Qed.

(** X27: a link made by Share cannot be drawn by the page that opens it.
    The page load accepts the simplified object, which has no [bannerImage]
    and no [layout]; [CardPreview] takes the classic layout and throws a
    [TypeError] on [bannerImage.aspectRatio]. The whole card, which Copy
    Share Link encodes, passes the body of [CardPreview]. *)
Theorem shared_link_is_not_drawn
    (P : Platform) (laws : PlatformLaws P)
    (dataToShare : DataToShare.t) (token : jsstring) (page : Page) :
  shareable_strings_ok dataToShare = true ->
  share_token P (simplifiedData dataToShare) = Ok token ->
  nonempty token = true ->
  search (location page) = js "?card=" ++ token ->
  URLSearchParams_get P (js "?card=" ++ token) (js "card") = Some token ->
  let page' := apply_events (trace (handleIncomingCard P (location page))) page in
  receivedCard page' = Some (simplifiedData dataToShare) /\
  renderReceivedCardModal (receivedCard page') = Throw TypeError /\
  renderReceivedCardModal (Some (DataToShare.to_value dataToShare)) = Ok true.
Proof.
  intros Hok Htoken Hne Hsearch Hget page'.
  assert (Hstate : receivedCard page' = Some (simplifiedData dataToShare)).
  { subst page'.
    rewrite (@token_is_received P laws (simplifiedData dataToShare) token page);
      try assumption; try reflexivity.
    now apply simplifiedData_json_safe. }
  split; [exact Hstate|]. split.
  - rewrite Hstate. unfold simplifiedData at 1. cbv zeta.
    rewrite renderReceivedCardModal_object.
    pose proof (CardPreview_simplified dataToShare) as H.
    unfold simplifiedData in H. cbv zeta in H. cbn [property] in H.
    now rewrite H.
  - unfold DataToShare.to_value at 1. rewrite renderReceivedCardModal_object.
    pose proof (CardPreview_whole dataToShare) as H.
    unfold DataToShare.to_value in H. cbn [property] in H.
    now rewrite H.
Qed.


(** * Start-up *)

(** The first block of [initializeApp] does nothing, rejects the link, or
    sets the received card. *)
Lemma handleIncomingCard_trace (P : Platform) (address : Location) :
  handleIncomingCard P address = ([], Ok tt) \/
  handleIncomingCard P address = (rejection, Ok tt) \/
  exists data, handleIncomingCard P address = ([setReceivedCard data], Ok tt).
Proof.
  unfold handleIncomingCard.
  destruct (URLSearchParams_get P (search address) (js "card")) as [[|c rest]|];
    try (left; reflexivity).
  rewrite processSharedCard_cases.
  destruct (decode_token P (c :: rest)) as [data|e]; [|right; left; reflexivity].
  destruct data as [| b | n | s | items | props];
    try destruct (has_card_shape _);
    first [right; left; reflexivity | right; right; eexists; reflexivity].
Qed.

(** X11: what [initializeApp] does after the link does not depend on the
    link. It always resets the session ([setCurrentUser(null)],
    [setIsAdmin(false)]); it ends as [api.getCompanyInfo()] ends, and the
    loading screen is taken down ([setIsLoadingApp(false)]) exactly when
    that call resolves; the Kakao SDK is flagged ready exactly when it is
    there and this run initialised it, not when it was initialised
    before. *)
Theorem initializeApp_whatever_the_link (P : Platform) (env : Startup) (address : Location) :
  let run := initializeApp P env address in
  In setCurrentUser_null (trace run) /\
  In (setIsAdmin false) (trace run) /\
  outcome run = match getCompanyInfo env with
                | Ok _ => Ok tt
                | Throw e => Throw e
                end /\
  (In (setIsLoadingApp false) (trace run) <-> exists info, getCompanyInfo env = Ok info) /\
  (In (setIsKakaoSdkReady true) (trace run) <->
   kakao_available env = true /\ kakao_isInitialized env = false).
Proof.
  intros run. subst run. unfold initializeApp.
  destruct (handleIncomingCard_trace P address) as [->|[->|[data ->]]];
    destruct (kakao_available env), (kakao_isInitialized env),
             (getCompanyInfo env) as [info|e];
    cbn [trace outcome fst snd bind emit ret await app rejection];
    unfold rejection; cbn [app In];
    repeat split; intros;
    repeat match goal with
           | H : _ \/ _ |- _ => destruct H
           | H : False |- _ => destruct H
           | H : exists _, _ |- _ => destruct H
           | H : _ /\ _ |- _ => destruct H
           end;
    try discriminate; try (eexists; reflexivity); auto 12.
Qed.


(** * The saved cards *)

Ltac run_act :=
  cbn [Editor.bind Editor.ret Editor.perform Editor.ask Editor.set_state
       Editor.try_catch Editor.try_finally
       Editor.setCardData Editor.setTheme Editor.setSavedCards
       Editor.setEditingCardId Editor.setUserMetadata Editor.setAppMode
       Editor.setSaveSuccess Editor.setIsGenerating Editor.setIsExporting
       Editor.setExportMessage Editor.with_app with_savedCards
       Editor.calls Editor.after Editor.ending fst snd app
       Editor.app Editor.currentUser Editor.userMetadata Editor.appMode
       Editor.saveSuccess Editor.isGenerating Editor.isExporting
       Editor.exportMessage Editor.success Editor.bio
       cardData theme savedCards editingCardId negb].

Lemma updateSavedCards_cases (api : Editor.Api) (render c : Editor.Component)
    (newCards : list SavedCard.t) :
  Editor.updateSavedCards api render newCards c =
  match logged_in render with
  | Some user =>
      match Editor.saveCards api user newCards with
      | Ok _ => ([Editor.api_saveCards user newCards], with_savedCards newCards c, Ok true)
      | Throw _ => ([Editor.api_saveCards user newCards;
                     Editor.log_error (js "Failed to save cards:")], c, Ok false)
      end
  | None => ([], c, Ok false)
  end.
Proof.
  unfold Editor.updateSavedCards, logged_in.
  destruct (Editor.currentUser render) as [[|u rest]|]; try reflexivity.
  unfold Editor.try_catch, Editor.bind, Editor.ask.
  destruct (Editor.saveCards api (u :: rest) newCards) as [[]|e]; reflexivity.
Qed.

Lemma bind_updateSavedCards (A : Type) (api : Editor.Api) (render c : Editor.Component)
    (newCards : list SavedCard.t) (k : bool -> Editor.act A) :
  Editor.bind (Editor.updateSavedCards api render newCards) k c =
  match logged_in render with
  | Some user =>
      match Editor.saveCards api user newCards with
      | Ok _ =>
          (Editor.api_saveCards user newCards
             :: Editor.calls (k true (with_savedCards newCards c)),
           Editor.after (k true (with_savedCards newCards c)),
           Editor.ending (k true (with_savedCards newCards c)))
      | Throw _ =>
          (Editor.api_saveCards user newCards
             :: Editor.log_error (js "Failed to save cards:")
             :: Editor.calls (k false c),
           Editor.after (k false c), Editor.ending (k false c))
      end
  | None => k false c
  end.
Proof.
  unfold Editor.bind. rewrite updateSavedCards_cases.
  destruct (logged_in render) as [user|].
  - destruct (Editor.saveCards api user newCards) as [[]|e].
    + now destruct (k true (with_savedCards newCards c)) as [[calls' c''] r].
    + now destruct (k false c) as [[calls' c''] r].
  - now destruct (k false c) as [[calls' c''] r].
Qed.

Lemma bind_assoc (A B C : Type) (m : Editor.act A) (k1 : A -> Editor.act B)
    (k2 : B -> Editor.act C) (c : Editor.Component) :
  Editor.bind (Editor.bind m k1) k2 c =
  Editor.bind m (fun x => Editor.bind (k1 x) k2) c.
Proof.
  unfold Editor.bind. destruct (m c) as [[calls1 c1] [a|e]]; [|reflexivity].
  destruct (k1 a c1) as [[calls2 c2] [b|e]]; [|reflexivity].
  destruct (k2 b c2) as [[calls3 c3] r]. now rewrite app_assoc.
Qed.

Ltac step_act :=
  match goal with
  | |- context [Editor.bind (Editor.bind ?m ?k1) ?k2 ?c] =>
      rewrite (bind_assoc m k1 k2 c)
  | |- context [Editor.bind (Editor.updateSavedCards ?api ?render ?cards) ?k ?c] =>
      rewrite (bind_updateSavedCards api render c cards k)
  | |- context [Editor.updateSavedCards ?api ?render ?cards ?c] =>
      rewrite (updateSavedCards_cases api render c cards)
  | |- context [match logged_in ?c with _ => _ end] =>
      let E := fresh "Euser" in destruct (logged_in c) eqn:E
  | |- context [match Editor.saveCards ?api ?u ?cards with _ => _ end] =>
      let E := fresh "Esave" in destruct (Editor.saveCards api u cards) as [[]|?] eqn:E
  | |- context [match Editor.html2canvas_toDataURL ?b ?t with _ => _ end] =>
      let E := fresh "Ecanvas" in destruct (Editor.html2canvas_toDataURL b t) eqn:E
  | |- context [if Editor.confirm ?b ?m then _ else _] =>
      let E := fresh "Econfirm" in destruct (Editor.confirm b m) eqn:E
  | |- context [if negb (Editor.cardPreviewRef_current ?b) then _ else _] =>
      let E := fresh "Eref" in destruct (Editor.cardPreviewRef_current b) eqn:E
  | |- context [match editingCardId ?st with _ => _ end] =>
      let E := fresh "Eid" in destruct (editingCardId st) as [[|? ?]|] eqn:E
  | |- context [if nonempty ?s && ?b then _ else _] =>
      let E := fresh "Ebanner" in destruct (nonempty s && b) eqn:E
  end.

Ltac walk_act := run_act; repeat (step_act; run_act).

(** X12: the list of saved cards that the component shows is always one
    that the API has stored. After [handleDeleteCard], [handleTogglePrivacy]
    or [handleSaveCard] the list is what it was, or the user is logged in,
    [api.saveCards] was called with the new list and resolved: a run
    without a user, a declined confirmation or a failing API call leaves
    the list as it was. *)
Theorem saved_cards_are_stored_cards
    (api : Editor.Api) (browser : Editor.Browser) (cardId : jsstring)
    (c : Editor.Component) :
  stored_or_unchanged api c (Editor.handleDeleteCard api browser cardId c) /\
  stored_or_unchanged api c (Editor.handleTogglePrivacy api cardId c) /\
  stored_or_unchanged api c (Editor.handleSaveCard api browser c).
Proof.
  unfold stored_or_unchanged, Editor.handleDeleteCard, Editor.handleTogglePrivacy,
    Editor.handleSaveCard.
  repeat split; walk_act;
    try (left; reflexivity);
    (right; eexists; split; [reflexivity|]; split;
     [cbn [In]; auto 10|assumption]).
Qed.

(** ** Finding a card by its id *)

Lemma find_filter_others (cards : list SavedCard.t) (cardId other : jsstring) :
  other <> cardId ->
  find (fun c => jsstring_eqb (SavedCard.id c) other)
       (filter (fun c => negb (jsstring_eqb (SavedCard.id c) cardId)) cards) =
  find (fun c => jsstring_eqb (SavedCard.id c) other) cards.
Proof.
  intros Hne. induction cards as [|card cards IH]; [reflexivity|].
  cbn [filter find].
  destruct (jsstring_eqb (SavedCard.id card) cardId) eqn:Eid; cbn [negb find].
  - apply jsstring_eqb_eq in Eid.
    rewrite jsstring_eqb_neq by congruence. exact IH.
  - destruct (jsstring_eqb (SavedCard.id card) other); [reflexivity|exact IH].
Qed.

Lemma find_filter_deleted (cards : list SavedCard.t) (cardId : jsstring) :
  find (fun c => jsstring_eqb (SavedCard.id c) cardId)
       (filter (fun c => negb (jsstring_eqb (SavedCard.id c) cardId)) cards) = None.
Proof.
  apply find_none_id. intros card Hin Heq. apply filter_In in Hin.
  destruct Hin as [_ Hne]. rewrite Heq, jsstring_eqb_refl in Hne. discriminate.
Qed.

Lemma find_map_same_id (f : SavedCard.t -> SavedCard.t) (cards : list SavedCard.t)
    (cardId : jsstring) :
  (forall card, SavedCard.id (f card) = SavedCard.id card) ->
  find (fun c => jsstring_eqb (SavedCard.id c) cardId) (map f cards) =
  option_map f (find (fun c => jsstring_eqb (SavedCard.id c) cardId) cards).
Proof.
  intros Hid. induction cards as [|card cards IH]; [reflexivity|].
  cbn [map find]. rewrite Hid.
  destruct (jsstring_eqb (SavedCard.id card) cardId); [reflexivity|exact IH].
Qed.

Lemma map_only_absent_id (f : SavedCard.t -> SavedCard.t) (cards : list SavedCard.t)
    (cardId : jsstring) :
  (forall card, In card cards -> SavedCard.id card <> cardId) ->
  map (fun card => if jsstring_eqb (SavedCard.id card) cardId then f card else card) cards
  = cards.
Proof.
  intros Habsent. rewrite <- (map_id cards) at 2. apply map_ext_in.
  intros card Hin. now rewrite jsstring_eqb_neq by now apply Habsent.
Qed.

(** ** Deleting *)

Lemma handleDeleteCard_stored (api : Editor.Api) (browser : Editor.Browser)
    (cardId user : jsstring) (c : Editor.Component) :
  Editor.confirm browser delete_question = true ->
  logged_in c = Some user ->
  Editor.saveCards api user
    (filter (fun card => negb (jsstring_eqb (SavedCard.id card) cardId))
            (savedCards (Editor.app c))) = Ok tt ->
  Editor.handleDeleteCard api browser cardId c =
  ([Editor.window_confirm delete_question;
    Editor.api_saveCards user
      (filter (fun card => negb (jsstring_eqb (SavedCard.id card) cardId))
              (savedCards (Editor.app c)))],
   with_savedCards
     (filter (fun card => negb (jsstring_eqb (SavedCard.id card) cardId))
             (savedCards (Editor.app c))) c,
   Ok tt).
Proof.
  intros Hconfirm Huser Hsave. unfold Editor.handleDeleteCard.
  fold delete_question. run_act. rewrite Hconfirm.
  rewrite bind_updateSavedCards, Huser, Hsave. reflexivity.
Qed.

(** X13: after a confirmed delete that the API has stored, the saved cards
    are those of before whose id is not the deleted one; sharing the
    deleted id from the hub finds no card and only shows an alert, and
    sharing any other id runs as before the delete. *)
Theorem deleted_card_is_gone
    (api : Editor.Api) (browser : Editor.Browser) (cardId user : jsstring)
    (c : Editor.Component) (P : Platform) (nav : Navigator) (sender : Location) :
  Editor.confirm browser delete_question = true ->
  logged_in c = Some user ->
  Editor.saveCards api user
    (filter (fun card => negb (jsstring_eqb (SavedCard.id card) cardId))
            (savedCards (Editor.app c))) = Ok tt ->
  let after := Editor.app (Editor.after (Editor.handleDeleteCard api browser cardId c)) in
  (forall card,
     In card (savedCards after) <->
     In card (savedCards (Editor.app c)) /\ SavedCard.id card <> cardId) /\
  handleShareCardFromHub P nav sender after cardId =
    ([alert (js "Could not find the card to share.")], Ok tt) /\
  (forall other,
     other <> cardId ->
     handleShareCardFromHub P nav sender after other =
     handleShareCardFromHub P nav sender (Editor.app c) other).
Proof.
  intros Hconfirm Huser Hsave after. subst after.
  rewrite (handleDeleteCard_stored api browser cardId c Hconfirm Huser Hsave).
  cbn [Editor.after fst snd with_savedCards Editor.with_app Editor.app savedCards].
  split; [|split].
  - intros card. rewrite filter_In. split; intros [Hin Hid]; (split; [exact Hin|]).
    + intros Heq. rewrite Heq, jsstring_eqb_refl in Hid. discriminate.
    + now rewrite jsstring_eqb_neq.
  - unfold handleShareCardFromHub. cbn [savedCards].
    now rewrite find_filter_deleted.
  - intros other Hother. unfold handleShareCardFromHub. cbn [savedCards].
    now rewrite find_filter_others.
Qed.

(** ** Saving *)

Lemma handleSaveCard_update (api : Editor.Api) (browser : Editor.Browser)
    (c : Editor.Component) (user cardId thumbnail : jsstring) :
  Editor.cardPreviewRef_current browser = true ->
  thumbnail_of browser (cardData (Editor.app c)) = Ok thumbnail ->
  editingCardId (Editor.app c) = Some cardId -> nonempty cardId = true ->
  logged_in c = Some user ->
  Editor.saveCards api user (updated_cards c cardId thumbnail) = Ok tt ->
  Editor.after (Editor.handleSaveCard api browser c) =
    saved (updated_cards c cardId thumbnail) (Some cardId) c /\
  Editor.ending (Editor.handleSaveCard api browser c) = Ok tt.
Proof.
  intros Href Hthumb Hid Hne Huser Hsave.
  unfold thumbnail_of, banner_thumbnail in Hthumb. cbv zeta in Hthumb.
  unfold updated_cards in Hsave.
  destruct cardId as [|ch rest]; [discriminate|].
  unfold Editor.handleSaveCard, saved, updated_cards. cbv zeta.
  rewrite Href, Hid. run_act.
  destruct (nonempty _ && _).
  - injection Hthumb as <-. run_act.
    rewrite bind_updateSavedCards, Huser, Hsave. run_act. rewrite Hid. split; reflexivity.
  - run_act. rewrite Hthumb. run_act.
    rewrite bind_updateSavedCards, Huser, Hsave. run_act. rewrite Hid. split; reflexivity.
Qed.

Lemma handleSaveCard_new (api : Editor.Api) (browser : Editor.Browser)
    (c : Editor.Component) (user thumbnail : jsstring) :
  Editor.cardPreviewRef_current browser = true ->
  thumbnail_of browser (cardData (Editor.app c)) = Ok thumbnail ->
  (forall cardId, editingCardId (Editor.app c) = Some cardId -> cardId = []) ->
  logged_in c = Some user ->
  let newCard := card_on_screen c (Editor.randomUUID browser) thumbnail true in
  Editor.saveCards api user (savedCards (Editor.app c) ++ [newCard]) = Ok tt ->
  Editor.after (Editor.handleSaveCard api browser c) =
    saved (savedCards (Editor.app c) ++ [newCard]) (Some (Editor.randomUUID browser)) c /\
  Editor.ending (Editor.handleSaveCard api browser c) = Ok tt.
Proof.
  intros Href Hthumb Hid Huser newCard Hsave. subst newCard.
  unfold thumbnail_of, banner_thumbnail in Hthumb. cbv zeta in Hthumb.
  unfold card_on_screen in *.
  unfold Editor.handleSaveCard, saved. cbv zeta.
  rewrite Href. run_act.
  destruct (nonempty _ && _).
  - injection Hthumb as <-. run_act.
    destruct (editingCardId (Editor.app c)) as [[|ch rest]|];
      try discriminate (Hid _ eq_refl);
      rewrite bind_assoc, bind_updateSavedCards, Huser, Hsave; run_act;
      split; reflexivity.
  - run_act. rewrite Hthumb. run_act.
    destruct (editingCardId (Editor.app c)) as [[|ch rest]|];
      try discriminate (Hid _ eq_refl);
      rewrite bind_assoc, bind_updateSavedCards, Huser, Hsave; run_act;
      split; reflexivity.
Qed.

(** X14: [handleDeleteCard] leaves [editingCardId] as it is. When the card
    open in the editor is deleted and Save is pressed, the update maps over
    a list that no longer has the card: the stored list is unchanged, the
    card on screen is not in it, and yet the save ends with the success
    flag up. Sharing from the editor then sends the card on screen. *)
Theorem save_after_deleting_the_edited_card
    (api : Editor.Api) (browser : Editor.Browser) (c : Editor.Component)
    (user cardId thumbnail : jsstring) :
  editingCardId (Editor.app c) = Some cardId -> nonempty cardId = true ->
  Editor.confirm browser delete_question = true ->
  logged_in c = Some user ->
  (forall cards, Editor.saveCards api user cards = Ok tt) ->
  Editor.cardPreviewRef_current browser = true ->
  thumbnail_of browser (cardData (Editor.app c)) = Ok thumbnail ->
  let deleted := Editor.after (Editor.handleDeleteCard api browser cardId c) in
  let run := Editor.handleSaveCard api browser deleted in
  Editor.ending run = Ok tt /\
  Editor.saveSuccess (Editor.after run) = true /\
  savedCards (Editor.app (Editor.after run)) = savedCards (Editor.app deleted) /\
  (forall card, In card (savedCards (Editor.app (Editor.after run))) ->
                SavedCard.id card <> cardId) /\
  getDataForSharing (Editor.app (Editor.after run)) = on_screen c.
Proof.
  intros Hid Hne Hconfirm Huser Hsave Href Hthumb deleted run.
  subst run deleted.
  rewrite (handleDeleteCard_stored api browser cardId c Hconfirm Huser (Hsave _)).
  cbn [Editor.after fst snd].
  set (rest := filter _ _).
  assert (Habsent : forall card, In card rest -> SavedCard.id card <> cardId).
  { intros card Hin Heq. apply filter_In in Hin. destruct Hin as [_ Hin].
    rewrite Heq, jsstring_eqb_refl in Hin. discriminate. }
  destruct (@handleSaveCard_update api browser (with_savedCards rest c)
              user cardId thumbnail Href Hthumb Hid Hne Huser (Hsave _))
    as [-> ->].
  assert (Hupd : updated_cards (with_savedCards rest c) cardId thumbnail = rest).
  { unfold updated_cards. cbn [with_savedCards Editor.with_app Editor.app savedCards].
    now apply map_only_absent_id. }
  rewrite Hupd. cbn [saved Editor.app Editor.saveSuccess savedCards with_savedCards
                     Editor.with_app cardData theme].
  repeat split; try assumption.
  rewrite getDataForSharing_editor; [reflexivity|].
  cbn [editingCardId savedCards]. intros id' Hid'. injection Hid' as <-.
  now apply find_none_id.
Qed.

(** ** Privacy *)

Lemma handleTogglePrivacy_stored (api : Editor.Api) (cardId user : jsstring)
    (c : Editor.Component) :
  logged_in c = Some user ->
  Editor.saveCards api user (toggled cardId (savedCards (Editor.app c))) = Ok tt ->
  Editor.handleTogglePrivacy api cardId c =
  ([Editor.api_saveCards user (toggled cardId (savedCards (Editor.app c)))],
   with_savedCards (toggled cardId (savedCards (Editor.app c))) c,
   Ok tt).
Proof.
  intros Huser Hsave. unfold Editor.handleTogglePrivacy. cbv zeta.
  fold (toggled cardId (savedCards (Editor.app c))).
  rewrite bind_updateSavedCards, Huser, Hsave. reflexivity.
Qed.

Lemma toggled_twice cardId cards : toggled cardId (toggled cardId cards) = cards.
Proof.
  unfold toggled. rewrite map_map. rewrite <- (map_id cards) at 2.
  apply map_ext. intros [id cd th tn pub]. cbn [SavedCard.id].
  destruct (jsstring_eqb id cardId) eqn:E; cbn [SavedCard.id]; rewrite E; [|reflexivity].
  cbn. now rewrite negb_involutive.
Qed.

(** X15: toggling the privacy of a card twice gives back the component as
    it was; one toggle keeps every id in its place and keeps every card
    with another id as it is. *)
Theorem handleTogglePrivacy_twice
    (api : Editor.Api) (cardId user : jsstring) (c : Editor.Component) :
  logged_in c = Some user ->
  (forall cards, Editor.saveCards api user cards = Ok tt) ->
  let once := Editor.after (Editor.handleTogglePrivacy api cardId c) in
  let twice := Editor.after (Editor.handleTogglePrivacy api cardId once) in
  twice = c /\
  map SavedCard.id (savedCards (Editor.app once)) =
    map SavedCard.id (savedCards (Editor.app c)) /\
  (forall card, In card (savedCards (Editor.app c)) -> SavedCard.id card <> cardId ->
                In card (savedCards (Editor.app once))).
Proof.
  intros Huser Hsave once twice. subst twice once.
  rewrite (handleTogglePrivacy_stored api cardId c Huser (Hsave _)).
  cbn [Editor.after fst snd].
  rewrite (@handleTogglePrivacy_stored api cardId user
             (with_savedCards (toggled cardId (savedCards (Editor.app c))) c)
             Huser (Hsave _)).
  cbn [Editor.after fst snd with_savedCards Editor.with_app Editor.app savedCards].
  split; [|split].
  - rewrite toggled_twice. now destruct c as [[cd th sc ed] u m mode ss ig ie em].
  - unfold toggled. rewrite map_map. apply map_ext.
    intros card. now destruct (jsstring_eqb (SavedCard.id card) cardId).
  - intros card Hin Hne. unfold toggled. apply in_map_iff. exists card.
    split; [|exact Hin]. now rewrite jsstring_eqb_neq.
Qed.

(** X16: a public card can be shared from the hub; once
    [handleTogglePrivacy] has made it private, [handleShareCardFromHub]
    shows the privacy alert for it and hands nothing out. *)
Theorem card_made_private_is_not_shared
    (api : Editor.Api) (cardId user : jsstring) (c : Editor.Component)
    (card : SavedCard.t) (P : Platform) (nav : Navigator) (sender : Location) :
  logged_in c = Some user ->
  Editor.saveCards api user (toggled cardId (savedCards (Editor.app c))) = Ok tt ->
  find (fun x => jsstring_eqb (SavedCard.id x) cardId) (savedCards (Editor.app c))
    = Some card ->
  SavedCard.isPublic card = true ->
  let once := Editor.after (Editor.handleTogglePrivacy api cardId c) in
  handleShareCardFromHub P nav sender (Editor.app c) cardId =
    createAndShareLink P nav sender (data_of card) /\
  handleShareCardFromHub P nav sender (Editor.app once) cardId =
    ([alert (js "This card is private. Please make it public before sharing.")], Ok tt).
Proof.
  intros Huser Hsave Hfind Hpublic once. subst once.
  rewrite (handleTogglePrivacy_stored api cardId c Huser Hsave).
  cbn [Editor.after fst snd with_savedCards Editor.with_app Editor.app savedCards].
  unfold handleShareCardFromHub. cbn [savedCards]. split.
  - now rewrite Hfind, Hpublic.
  - unfold toggled. rewrite find_map_same_id.
    + rewrite Hfind. cbn [option_map].
      apply find_some_id in Hfind. destruct Hfind as [_ Heq].
      rewrite Heq, jsstring_eqb_refl. cbn [SavedCard.isPublic]. now rewrite Hpublic.
    + intros x. now destruct (jsstring_eqb (SavedCard.id x) cardId).
Qed.

(** ** What a save stores *)

Lemma find_app_new (cards : list SavedCard.t) (new : SavedCard.t) :
  (forall card, In card cards -> SavedCard.id card <> SavedCard.id new) ->
  find (fun c => jsstring_eqb (SavedCard.id c) (SavedCard.id new)) (cards ++ [new])
  = Some new.
Proof.
  intros Hfresh. induction cards as [|card cards IH]; cbn [app find].
  - now rewrite jsstring_eqb_refl.
  - rewrite jsstring_eqb_neq by (apply Hfresh; now left).
    apply IH. intros x Hx. apply Hfresh. now right.
Qed.

(** X17: saving a card that is not a saved card yet appends it to the list
    under the id of [crypto.randomUUID()], public, and makes it the card
    under edit; when no saved card had that id, the new card can be shared
    from the hub at once, as what the editor shows. *)
Theorem new_card_is_public_and_shareable
    (api : Editor.Api) (browser : Editor.Browser) (c : Editor.Component)
    (user thumbnail : jsstring) (P : Platform) (nav : Navigator) (sender : Location) :
  let newCard := card_on_screen c (Editor.randomUUID browser) thumbnail true in
  (forall cardId, editingCardId (Editor.app c) = Some cardId -> cardId = []) ->
  Editor.cardPreviewRef_current browser = true ->
  thumbnail_of browser (cardData (Editor.app c)) = Ok thumbnail ->
  logged_in c = Some user ->
  Editor.saveCards api user (savedCards (Editor.app c) ++ [newCard]) = Ok tt ->
  (forall card, In card (savedCards (Editor.app c)) ->
                SavedCard.id card <> Editor.randomUUID browser) ->
  let after := Editor.after (Editor.handleSaveCard api browser c) in
  savedCards (Editor.app after) = savedCards (Editor.app c) ++ [newCard] /\
  editingCardId (Editor.app after) = Some (Editor.randomUUID browser) /\
  Editor.saveSuccess after = true /\
  handleShareCardFromHub P nav sender (Editor.app after) (Editor.randomUUID browser) =
    createAndShareLink P nav sender (on_screen c).
Proof.
  intros newCard Hnew Href Hthumb Huser Hsave Hfresh after. subst after.
  destruct (@handleSaveCard_new api browser c user thumbnail Href Hthumb Hnew Huser Hsave)
    as [-> _].
  fold newCard. cbn [saved Editor.app Editor.saveSuccess savedCards editingCardId].
  repeat split.
  unfold handleShareCardFromHub. cbn [savedCards].
  change (Editor.randomUUID browser) with (SavedCard.id newCard) at 1.
  rewrite find_app_new by exact Hfresh. reflexivity.
Qed.

Lemma updated_cards_ids c cardId thumbnail :
  map SavedCard.id (updated_cards c cardId thumbnail) =
  map SavedCard.id (savedCards (Editor.app c)).
Proof.
  unfold updated_cards. rewrite map_map. apply map_ext.
  intros card. now destruct (jsstring_eqb (SavedCard.id card) cardId).
Qed.

Lemma updated_cards_privacy c cardId thumbnail :
  map SavedCard.isPublic (updated_cards c cardId thumbnail) =
  map SavedCard.isPublic (savedCards (Editor.app c)).
Proof.
  unfold updated_cards. rewrite map_map. apply map_ext.
  intros card. now destruct (jsstring_eqb (SavedCard.id card) cardId).
Qed.

(** X18: saving the card under edit never changes the ids of the saved
    cards nor their privacy, whatever becomes of the thumbnail and of the
    API call, and the same card stays under edit. *)
Theorem update_keeps_ids_and_privacy
    (api : Editor.Api) (browser : Editor.Browser) (c : Editor.Component)
    (cardId : jsstring) :
  editingCardId (Editor.app c) = Some cardId -> nonempty cardId = true ->
  let after := Editor.after (Editor.handleSaveCard api browser c) in
  map SavedCard.id (savedCards (Editor.app after)) =
    map SavedCard.id (savedCards (Editor.app c)) /\
  map SavedCard.isPublic (savedCards (Editor.app after)) =
    map SavedCard.isPublic (savedCards (Editor.app c)) /\
  editingCardId (Editor.app after) = Some cardId.
Proof.
  intros Hid Hne after. subst after.
  destruct cardId as [|ch rest]; [discriminate|].
  unfold Editor.handleSaveCard. cbv zeta. rewrite Hid.
  walk_act;
    repeat match goal with
           | |- context [map ?f (savedCards (Editor.app c))] =>
               match f with
               | (fun card => if jsstring_eqb _ _ then Editor.updated_card _ _ _ ?t else _) =>
                   change (map f (savedCards (Editor.app c)))
                     with (updated_cards c (ch :: rest) t)
               end
           end;
    rewrite ?updated_cards_ids, ?updated_cards_privacy; auto.
Qed.

Lemma find_updated_cards c cardId thumbnail :
  find (fun x => jsstring_eqb (SavedCard.id x) cardId) (updated_cards c cardId thumbnail) =
  option_map (fun card => Editor.updated_card card (cardData (Editor.app c))
                            (theme (Editor.app c)) thumbnail)
             (find (fun x => jsstring_eqb (SavedCard.id x) cardId)
                   (savedCards (Editor.app c))).
Proof.
  unfold updated_cards.
  induction (savedCards (Editor.app c)) as [|card cards IH]; [reflexivity|].
  cbn [map find].
  destruct (jsstring_eqb (SavedCard.id card) cardId) eqn:E.
  - cbn [Editor.updated_card SavedCard.id]. now rewrite E.
  - rewrite E. exact IH.
Qed.

Lemma getDataForSharing_after_new (c : Editor.Component) (uuid thumbnail : jsstring) :
  (forall card, In card (savedCards (Editor.app c)) -> SavedCard.id card <> uuid) ->
  getDataForSharing
    {| cardData := cardData (Editor.app c);
       theme := theme (Editor.app c);
       savedCards := savedCards (Editor.app c) ++ [card_on_screen c uuid thumbnail true];
       editingCardId := Some uuid |} = on_screen c.
Proof.
  intros Hfresh. destruct uuid as [|u uuid]; [reflexivity|].
  rewrite (@getDataForSharing_saved _ (u :: uuid)
             (card_on_screen c (u :: uuid) thumbnail true)); try reflexivity.
  cbn [savedCards].
  change (u :: uuid)
    with (SavedCard.id (card_on_screen c (u :: uuid) thumbnail true)) at 1.
  apply find_app_new. exact Hfresh.
Qed.

(** X19: after a save that went through, Share and Copy Share Link send
    what is on screen: [getDataForSharing] returns the card and the theme
    of the editor, for a new card (whose id no saved card had) as for an
    update, and the editor itself is unchanged. *)
Theorem saved_card_is_what_is_shared
    (api : Editor.Api) (browser : Editor.Browser) (c : Editor.Component)
    (user thumbnail : jsstring) :
  Editor.cardPreviewRef_current browser = true ->
  thumbnail_of browser (cardData (Editor.app c)) = Ok thumbnail ->
  logged_in c = Some user ->
  (forall cards, Editor.saveCards api user cards = Ok tt) ->
  (forall card, In card (savedCards (Editor.app c)) ->
                SavedCard.id card <> Editor.randomUUID browser) ->
  let after := Editor.after (Editor.handleSaveCard api browser c) in
  Editor.saveSuccess after = true /\
  cardData (Editor.app after) = cardData (Editor.app c) /\
  theme (Editor.app after) = theme (Editor.app c) /\
  getDataForSharing (Editor.app after) = on_screen c.
Proof.
  intros Href Hthumb Huser Hsave Hfresh after. subst after.
  destruct (editingCardId (Editor.app c)) as [[|ch rest]|] eqn:Hid.
  - destruct (@handleSaveCard_new api browser c user thumbnail Href Hthumb) as [-> _];
      try assumption; [intros id' H'; congruence|apply Hsave|].
    cbn [saved Editor.app Editor.saveSuccess cardData theme]. repeat split.
    now apply getDataForSharing_after_new.
  - destruct (@handleSaveCard_update api browser c user (ch :: rest) thumbnail
                Href Hthumb Hid eq_refl Huser (Hsave _)) as [-> _].
    cbn [saved Editor.app Editor.saveSuccess cardData theme]. repeat split.
    destruct (find (fun x => jsstring_eqb (SavedCard.id x) (ch :: rest))
                   (savedCards (Editor.app c))) as [card|] eqn:Hfind.
    + rewrite (@getDataForSharing_saved _ (ch :: rest)
                 (Editor.updated_card card (cardData (Editor.app c))
                    (theme (Editor.app c)) thumbnail));
        try reflexivity.
      cbn [savedCards]. now rewrite find_updated_cards, Hfind.
    + apply getDataForSharing_editor. cbn [editingCardId savedCards].
      intros id' Hid'. injection Hid' as <-.
      now rewrite find_updated_cards, Hfind.
  - destruct (@handleSaveCard_new api browser c user thumbnail Href Hthumb) as [-> _];
      try assumption; [intros id' H'; congruence|apply Hsave|].
    cbn [saved Editor.app Editor.saveSuccess cardData theme]. repeat split.
    now apply getDataForSharing_after_new.
Qed.

(** ** Opening a card and saving it *)

Lemma handleEditCard_found (c : Editor.Component) (cardId : jsstring) (card : SavedCard.t) :
  find (fun x => jsstring_eqb (SavedCard.id x) cardId) (savedCards (Editor.app c))
    = Some card ->
  Editor.handleEditCard cardId c =
  ([],
   {| Editor.app := {| cardData := SavedCard.cardData card;
                       theme := SavedCard.theme card;
                       savedCards := savedCards (Editor.app c);
                       editingCardId := Some cardId |};
      Editor.currentUser := Editor.currentUser c;
      Editor.userMetadata := Editor.userMetadata c;
      Editor.appMode := Editor.editor;
      Editor.saveSuccess := Editor.saveSuccess c;
      Editor.isGenerating := Editor.isGenerating c;
      Editor.isExporting := Editor.isExporting c;
      Editor.exportMessage := Editor.exportMessage c |},
   Ok tt).
Proof.
  intros Hfind. unfold Editor.handleEditCard. rewrite Hfind. reflexivity.
Qed.

Lemma NoDup_ids_unique (cards : list SavedCard.t) (a b : SavedCard.t) :
  NoDup (map SavedCard.id cards) ->
  In a cards -> In b cards -> SavedCard.id a = SavedCard.id b -> a = b.
Proof.
  induction cards as [|x cards IH]; [contradiction|].
  cbn [map]. intros Hnd Ha Hb Heq. inversion Hnd as [|? ? Hx Hrest]; subst.
  destruct Ha as [<-|Ha], Hb as [<-|Hb]; try reflexivity.
  - exfalso. apply Hx. rewrite Heq. now apply in_map.
  - exfalso. apply Hx. rewrite <- Heq. now apply in_map.
  - now apply IH.
Qed.

(** X20: opening a saved card and saving it without a change keeps the
    data and the privacy of every saved card, when the ids of the saved
    cards are distinct and not empty; between the two steps the editor is
    in editor mode and sharing sends the opened card. *)
Theorem edit_then_save_keeps_the_cards
    (api : Editor.Api) (browser : Editor.Browser) (c : Editor.Component)
    (user cardId thumbnail : jsstring) (card : SavedCard.t) :
  NoDup (map SavedCard.id (savedCards (Editor.app c))) ->
  nonempty cardId = true ->
  find (fun x => jsstring_eqb (SavedCard.id x) cardId) (savedCards (Editor.app c))
    = Some card ->
  Editor.cardPreviewRef_current browser = true ->
  thumbnail_of browser (SavedCard.cardData card) = Ok thumbnail ->
  logged_in c = Some user ->
  (forall cards, Editor.saveCards api user cards = Ok tt) ->
  let opened := Editor.after (Editor.handleEditCard cardId c) in
  let after := Editor.after (Editor.handleSaveCard api browser opened) in
  getDataForSharing (Editor.app opened) = data_of card /\
  Editor.appMode opened = Editor.editor /\
  map data_of (savedCards (Editor.app after)) = map data_of (savedCards (Editor.app c)) /\
  map SavedCard.isPublic (savedCards (Editor.app after)) =
    map SavedCard.isPublic (savedCards (Editor.app c)).
Proof.
  intros Hnd Hne Hfind Href Hthumb Huser Hsave opened after. subst after opened.
  rewrite (handleEditCard_found c cardId Hfind). cbn [Editor.after fst snd].
  set (opened := {| Editor.app := _ |}).
  split; [|split; [reflexivity|]].
  - now apply (@getDataForSharing_saved (Editor.app opened) cardId card).
  - destruct (@handleSaveCard_update api browser opened user cardId thumbnail
                Href Hthumb eq_refl Hne Huser (Hsave _)) as [-> _].
    cbn [saved Editor.app savedCards].
    split; [|exact (updated_cards_privacy opened cardId thumbnail)].
    unfold updated_cards. rewrite map_map.
    cbn [opened Editor.app savedCards cardData theme].
    apply map_ext_in. intros x Hx.
    destruct (jsstring_eqb (SavedCard.id x) cardId) eqn:E; [|reflexivity].
    apply jsstring_eqb_eq in E. apply find_some_id in Hfind.
    destruct Hfind as [Hin Hid].
    assert (x = card) by (apply (@NoDup_ids_unique _ x card Hnd Hx Hin); congruence).
    subst x. reflexivity.
Qed.

(** * The look of the card *)

(** X21: Reset Style gives a card the look of a new card, for every
    locale: the theme and the thirteen typography properties after
    [handleStyleReset] are those after [handleCreateNewCard]. It is
    [handleThemeChange(THEMES.Arctic)] followed by [handleTypographyReset],
    and on a new card it changes nothing. *)
Theorem handleStyleReset_gives_the_look_of_a_new_card
    (en : Locale) (c : Editor.Component) :
  let reset := Editor.after (Editor.handleStyleReset en c) in
  let new := Editor.after (Editor.handleCreateNewCard en c) in
  theme (Editor.app reset) = theme (Editor.app new) /\
  typography (cardData (Editor.app reset)) = typography (cardData (Editor.app new)) /\
  reset = Editor.after (Editor.handleTypographyReset en
                          (Editor.after (Editor.handleThemeChange Arctic c))) /\
  Editor.after (Editor.handleStyleReset en new) = new.
Proof.
  intros reset new. subst reset new.
  repeat split.
Qed.

Lemma createAndShareLink_simplified (P : Platform) (nav : Navigator) (sender : Location)
    (d d' : DataToShare.t) :
  simplifiedData d = simplifiedData d' ->
  createAndShareLink P nav sender d = createAndShareLink P nav sender d'.
Proof.
  intros H. unfold createAndShareLink, createAndShareLink_body. cbv zeta.
  rewrite <- H.
  assert (Hname : BusinessCardData.name (DataToShare.cardData d)
                  = BusinessCardData.name (DataToShare.cardData d')).
  { unfold simplifiedData in H. cbv zeta in H. now injection H. }
  now rewrite <- Hname.
Qed.

Lemma handleShare_same_content (P : Platform) (nav : Navigator) (sender : Location)
    (st : AppState) (card : BusinessCardData.t) :
  simplifiedData {| DataToShare.cardData := card; DataToShare.theme := theme st |} =
  simplifiedData {| DataToShare.cardData := cardData st; DataToShare.theme := theme st |} ->
  handleShare P nav sender (with_card card st) = handleShare P nav sender st.
Proof.
  intros H. unfold handleShare. apply createAndShareLink_simplified.
  unfold getDataForSharing. cbn [with_card editingCardId savedCards cardData theme].
  destruct (editingCardId st) as [[|ch rest]|]; try exact H.
  destruct (existsb _ _); [|exact H].
  destruct (find _ _); [reflexivity|exact H].
Qed.

(** X22: the look of a card is not in the link that Share makes:
    [handleShare] runs the same after [handleTypographyReset] and after
    [handleMediaReset] as before them. *)
Theorem look_is_not_in_the_shared_link
    (P : Platform) (nav : Navigator) (sender : Location)
    (en : Locale) (c : Editor.Component) :
  handleShare P nav sender (Editor.app (Editor.after (Editor.handleTypographyReset en c)))
    = handleShare P nav sender (Editor.app c) /\
  handleShare P nav sender (Editor.app (Editor.after (Editor.handleMediaReset en c)))
    = handleShare P nav sender (Editor.app c).
Proof.
  split.
  - exact (@handleShare_same_content P nav sender (Editor.app c)
             (Editor.with_typography (DEFAULT_CARD_DATA en)
                (ThemeColors.primary (theme (Editor.app c)))
                (ThemeColors.text (theme (Editor.app c)))
                (ThemeColors.primary (theme (Editor.app c)))
                (ThemeColors.text (theme (Editor.app c)))
                (cardData (Editor.app c)))
             eq_refl).
  - exact (@handleShare_same_content P nav sender (Editor.app c)
             (Editor.with_media
                (BusinessCardData.bannerImage (DEFAULT_CARD_DATA en))
                (BusinessCardData.profilePicture (DEFAULT_CARD_DATA en))
                (cardData (Editor.app c)))
             eq_refl).
Qed.

(** * The picture of the card *)

Lemma replace_white_space_clean (s : jsstring) :
  forallb (fun ch => negb (is_white_space ch)) (replace_white_space s) = true.
Proof.
  unfold replace_white_space. rewrite forallb_map_compose.
  apply forallb_forall. intros ch _.
  destruct (is_white_space ch) eqn:E; [reflexivity|now rewrite E].
Qed.

Lemma replace_white_space_kept (s : jsstring) :
  forallb (fun ch => negb (is_white_space ch)) s = true -> replace_white_space s = s.
Proof.
  intros H. unfold replace_white_space. rewrite <- (map_id s) at 2.
  apply map_ext_in. intros ch Hin. rewrite forallb_forall in H.
  specialize (H ch Hin). now destruct (is_white_space ch).
Qed.

(** X23: [handleDownload] offers the picture that was drawn under the name
    of the card with every white-space character replaced by [_], followed
    by [_business_card.png]: the file name has no white space, is 18
    characters longer than the name, and is the name itself with the
    suffix when the name has no white space. *)
Theorem downloaded_file_name
    (browser : Editor.Browser) (c : Editor.Component) (href fileName : jsstring) :
  In (Editor.download href fileName) (Editor.calls (Editor.handleDownload browser c)) ->
  let name := BusinessCardData.name (cardData (Editor.app c)) in
  Editor.html2canvas_toDataURL browser (js "image/png") = Ok href /\
  fileName = replace_white_space name ++ js "_business_card.png" /\
  forallb (fun ch => negb (is_white_space ch)) fileName = true /\
  length fileName = length name + 18 /\
  (forallb (fun ch => negb (is_white_space ch)) name = true ->
   fileName = name ++ js "_business_card.png").
Proof.
  unfold Editor.handleDownload, Editor.download_name. cbv zeta.
  destruct (Editor.cardPreviewRef_current browser); run_act; [|intros []].
  destruct (Editor.html2canvas_toDataURL browser (js "image/png")) as [url|e];
    run_act; cbn [In].
  - intros [H|[H|[]]]; [discriminate|]. injection H as <- <-.
    split; [reflexivity|]. split; [reflexivity|]. split; [|split].
    + rewrite forallb_app, replace_white_space_clean. reflexivity.
    + rewrite length_app. unfold replace_white_space. rewrite length_map. reflexivity.
    + intros Hclean. now rewrite replace_white_space_kept.
  - intros [H|[]]. discriminate.
Qed.

(** * The bio written by the AI *)

Ltac bio_case :=
  run_act;
  split; [reflexivity|];
  split; [reflexivity|];
  split; [let H := fresh "H" in intros ? ? ? H; in_cases H; reflexivity|];
  split; [let H := fresh "H" in
          intros H; first [exfalso; apply H; reflexivity
                          | eexists; split; [reflexivity|split; reflexivity]]|].

(** X24: the AI uses of [handleGenerateBio]. The handler never throws and
    leaves [isGenerating] down; [api.generateBio] is called only for a
    logged-in user with a use left; the bio changes only to the bio of a
    successful answer; and the count of uses either stays or goes down by
    exactly one, from a positive count, with a new bio written. *)
Theorem ai_use_accounting (api : Editor.Api) (c : Editor.Component) :
  let run := Editor.handleGenerateBio api c in
  let after := Editor.after run in
  Editor.ending run = Ok tt /\
  Editor.isGenerating after =
    (if Editor.no_ai_use_left c then Editor.isGenerating c else false) /\
  (forall name title company,
     In (Editor.api_generateBio name title company) (Editor.calls run) ->
     Editor.no_ai_use_left c = false) /\
  (bio_of after <> bio_of c ->
   exists response,
     Editor.generateBio api (BusinessCardData.name (cardData (Editor.app c)))
       (BusinessCardData.title (cardData (Editor.app c)))
       (BusinessCardData.company (cardData (Editor.app c))) = Ok response /\
     Editor.success response = true /\
     Editor.bio response = Some (bio_of after)) /\
  (ai_uses after = ai_uses c \/
   exists uses,
     ai_uses c = Some uses /\ ai_uses after = Some (uses - 1)%Z /\
     (0 < uses)%Z /\ bio_of after <> []).
Proof.
  intros run after. subst after run.
  unfold Editor.handleGenerateBio, Editor.decrementAiUses, Editor.no_ai_use_left,
    bio_of, ai_uses.
  cbv zeta.
  destruct (Editor.currentUser c) as [[|u rest]|] eqn:Euser;
    [bio_case; now left| |bio_case; now left].
  destruct (Editor.userMetadata c) as [meta|] eqn:Emeta;
    [|bio_case; left; now rewrite Emeta].
  destruct (UserMetadata.aiUses meta <=? 0)%Z eqn:Egate;
    [bio_case; left; now rewrite Emeta|].
  apply Z.leb_gt in Egate.
  run_act.
  destruct (Editor.generateBio api _ _ _) as [[ok [[|b bs]|]]|e] eqn:Ebio;
    run_act; try destruct ok; try (bio_case; left; now rewrite Emeta).
  run_act.
  destruct (Editor.updateUserMeta api _ _) as [[]|e] eqn:Emeta'.
  - bio_case. right. exists (UserMetadata.aiUses meta).
    cbn [option_map UserMetadata.aiUses BusinessCardData.bio Editor.with_bio].
    repeat split; try assumption; try discriminate.
    f_equal. lia.
  - bio_case. left. now rewrite Emeta.
Qed.

(** X25: when the bio was generated but [api.updateUserMeta] rejects, the
    new bio stays on the card, the metadata keeps its count of uses, and
    the handler reports a failure: the error is logged and the failure
    alert shown. *)
Theorem bio_is_kept_when_the_use_is_not_recorded
    (api : Editor.Api) (c : Editor.Component) (user bio : jsstring)
    (meta : UserMetadata.t) (e : exception) :
  let card := cardData (Editor.app c) in
  logged_in c = Some user ->
  Editor.userMetadata c = Some meta ->
  (0 < UserMetadata.aiUses meta)%Z ->
  Editor.generateBio api (BusinessCardData.name card) (BusinessCardData.title card)
    (BusinessCardData.company card)
    = Ok {| Editor.success := true; Editor.bio := Some bio |} ->
  nonempty bio = true ->
  Editor.updateUserMeta api user (one_use_less meta) = Throw e ->
  let run := Editor.handleGenerateBio api c in
  bio_of (Editor.after run) = bio /\
  Editor.userMetadata (Editor.after run) = Some meta /\
  Editor.calls run =
    [Editor.api_generateBio (BusinessCardData.name card) (BusinessCardData.title card)
       (BusinessCardData.company card);
     Editor.api_updateUserMeta user (one_use_less meta);
     Editor.log_error (js "Failed to generate bio:");
     Editor.window_alert ko_ai_failed] /\
  Editor.isGenerating (Editor.after run) = false /\
  Editor.ending run = Ok tt.
Proof.
  intros card Huser Hmeta Huses Hbio Hne Hupdate run. subst run card.
  unfold logged_in in Huser.
  destruct (Editor.currentUser c) as [[|u rest]|] eqn:Euser; try discriminate.
  injection Huser as <-.
  destruct bio as [|b bs]; [discriminate|].
  unfold one_use_less in Hupdate.
  unfold Editor.handleGenerateBio, Editor.decrementAiUses, Editor.no_ai_use_left, bio_of.
  cbv zeta. rewrite Euser, Hmeta.
  apply Z.leb_gt in Huses. rewrite Huses.
  run_act. rewrite Hbio. run_act. rewrite Hupdate. run_act.
  rewrite Hmeta. repeat split.
Qed.

(** * When the picture cannot be drawn *)

(** X26: [handleSaveCard] and [handleDownload] have no [try]: when
    [html2canvas] rejects, the error leaves the handler and the busy
    overlay stays up ([isExporting] is [true]); nothing was stored and
    nothing downloaded. *)
Theorem busy_stays_when_the_picture_fails
    (api : Editor.Api) (browser : Editor.Browser) (c : Editor.Component)
    (e : exception) :
  Editor.cardPreviewRef_current browser = true ->
  (forall type, Editor.html2canvas_toDataURL browser type = Throw e) ->
  banner_thumbnail (cardData (Editor.app c)) = None ->
  let save := Editor.handleSaveCard api browser c in
  let download := Editor.handleDownload browser c in
  Editor.ending save = Throw e /\
  Editor.isExporting (Editor.after save) = true /\
  Editor.exportMessage (Editor.after save) = js "Saving thumbnail..." /\
  Editor.app (Editor.after save) = Editor.app c /\
  Editor.calls save = [Editor.html2canvas (js "image/jpeg")] /\
  Editor.ending download = Throw e /\
  Editor.isExporting (Editor.after download) = true /\
  Editor.calls download = [Editor.html2canvas (js "image/png")].
Proof.
  intros Href Hcanvas Hbanner save download. subst save download.
  unfold banner_thumbnail in Hbanner. cbv zeta in Hbanner.
  unfold Editor.handleSaveCard, Editor.handleDownload. cbv zeta.
  rewrite Href. run_act.
  destruct (nonempty _ && _); [discriminate|].
  run_act. rewrite !Hcanvas. run_act. repeat split.
Qed.


(** * The handlers at work on the sample data *)

Lemma createAndShareLink_short_url_witness :
  let d := sample_data sample_card in
  let token := model_token (simplifiedData d) in
  let url := card_url (baseUrl_of (app_at [])) token in
  length url <= 2000 /\
  outward (trace (createAndShareLink model_platform clipboard_only (app_at []) d))
    = [clipboard_writeText url].
Proof.
  intros d token url.
  assert (Htoken : share_token model_platform (simplifiedData d) = Ok token)
    by apply model_share_token.
  assert (Hshort : length url <= 2000)
    by (apply Nat.leb_le; vm_compute; reflexivity).
  split; [exact Hshort|].
  exact (@createAndShareLink_short_url model_platform clipboard_only (app_at [])
           d token Htoken Hshort).
Defined.

Lemma data_url_without_comma_shares_nothing_witness :
  (forall bytes, ~ In c_comma (readAsDataURL comma_free_platform bytes)) /\
  outward (trace (createAndShareLink comma_free_platform share_sheet (app_at [])
                    (sample_data sample_card))) = [] /\
  outward (trace (handleCopyShareLink comma_free_platform share_sheet (app_at [])
                    (editing sample_card))) = [].
Proof.
  assert (H : forall bytes, ~ In c_comma (readAsDataURL comma_free_platform bytes)).
  { intros bytes.
    eapply forallb_absent with (p := fun c => negb (N.eqb c c_comma)); reflexivity. }
  split; [exact H|].
  destruct (@data_url_without_comma_shares_nothing comma_free_platform share_sheet
              (app_at []) (editing sample_card) (sample_data sample_card) H)
    as [-> ->].
  split; reflexivity.
Defined.

Lemma handleShareCardFromHub_public_only_witness :
  exists card,
    In card (savedCards (two_cards None)) /\
    SavedCard.id card = js "card-1" /\
    SavedCard.isPublic card = true /\
    handleShareCardFromHub model_platform clipboard_only (app_at []) (two_cards None)
      (js "card-1") =
    createAndShareLink model_platform clipboard_only (app_at []) (data_of card).
Proof.
  apply (@handleShareCardFromHub_public_only model_platform clipboard_only (app_at [])
           (two_cards None) (js "card-1")
           (clipboard_writeText
              (card_url (baseUrl_of (app_at []))
                 (model_token (simplifiedData (data_of public_card)))))).
  vm_compute. left. reflexivity.
Defined.

Lemma sharing_ignores_unsaved_edits_witness :
  getDataForSharing
    {| cardData := edited_card; theme := Midnight;
       savedCards := [public_card; private_card];
       editingCardId := Some (js "card-1") |} = data_of public_card.
Proof.
  exact (proj1 (@sharing_ignores_unsaved_edits model_platform clipboard_only (app_at [])
                  (two_cards (Some (js "card-1"))) (js "card-1") public_card
                  edited_card Midnight eq_refl eq_refl eq_refl)).
Defined.

Lemma private_card_shared_from_editor_witness :
  let st := two_cards (Some (js "card-2")) in
  SavedCard.isPublic private_card = false /\
  handleShareCardFromHub model_platform clipboard_only (app_at []) st (js "card-2") =
    ([alert (js "This card is private. Please make it public before sharing.")], Ok tt) /\
  handleShare model_platform clipboard_only (app_at []) st =
    createAndShareLink model_platform clipboard_only (app_at []) (data_of private_card).
Proof.
  intros st. split; [reflexivity|].
  destruct (@private_card_shared_from_editor model_platform clipboard_only (app_at [])
              st (js "card-2") private_card eq_refl eq_refl eq_refl eq_refl)
    as (Hhub & Heditor & _).
  split; [exact Hhub|exact Heditor].
Defined.


Lemma shared_link_opens_as_simplified_card_witness :
  let d := sample_data sample_card in
  let token := model_token (simplifiedData d) in
  let page := fresh_page (js "?card=" ++ token) in
  receivedCard
    (apply_events (trace (handleIncomingCard model_platform (location page))) page)
    = Some (simplifiedData d) /\
  keys (cardData_props (simplifiedData d)) = simplified_card_keys.
Proof.
  intros d token page.
  assert (Hok : shareable_strings_ok d = true) by (vm_compute; reflexivity).
  assert (Htoken : share_token model_platform (simplifiedData d) = Ok token)
    by apply model_share_token.
  assert (Hne : nonempty token = true) by (vm_compute; reflexivity).
  assert (Hget : URLSearchParams_get model_platform (js "?card=" ++ token) (js "card")
                 = Some token) by (vm_compute; reflexivity).
  exact (@shared_link_opens_as_simplified_card model_platform model_platform_laws
           d token page Hok Htoken Hne eq_refl Hget).
Defined.

Lemma shared_link_is_not_drawn_witness :
  let d := sample_data sample_card in
  let token := model_token (simplifiedData d) in
  let page := fresh_page (js "?card=" ++ token) in
  let page' :=
    apply_events (trace (handleIncomingCard model_platform (location page))) page in
  outward (trace (createAndShareLink model_platform clipboard_only (app_at []) d))
    = [clipboard_writeText (card_url (baseUrl_of (app_at [])) token)] /\
  receivedCard page' = Some (simplifiedData d) /\
  renderReceivedCardModal (receivedCard page') = Throw TypeError /\
  renderReceivedCardModal (Some (DataToShare.to_value d)) = Ok true.
Proof.
  intros d token page page'.
  assert (Hok : shareable_strings_ok d = true) by (vm_compute; reflexivity).
  assert (Htoken : share_token model_platform (simplifiedData d) = Ok token)
    by apply model_share_token.
  assert (Hne : nonempty token = true) by (vm_compute; reflexivity).
  assert (Hget : URLSearchParams_get model_platform (js "?card=" ++ token) (js "card")
                 = Some token) by (vm_compute; reflexivity).
  split; [vm_compute; reflexivity|].
  exact (@shared_link_is_not_drawn model_platform model_platform_laws
           d token page Hok Htoken Hne eq_refl Hget).
Defined.

Lemma deleted_card_is_gone_witness :
  let after := Editor.app (Editor.after
                 (Editor.handleDeleteCard working_api drawing_browser (js "card-1")
                    (jane None))) in
  savedCards after = [private_card] /\
  handleShareCardFromHub model_platform clipboard_only (app_at []) after (js "card-1") =
    ([alert (js "Could not find the card to share.")], Ok tt).
Proof.
  intros after. split; [reflexivity|].
  exact (proj1 (proj2 (@deleted_card_is_gone working_api drawing_browser (js "card-1")
                         (js "jane") (jane None) model_platform clipboard_only
                         (app_at []) eq_refl eq_refl eq_refl))).
Defined.

Lemma save_after_deleting_the_edited_card_witness :
  let c := jane (Some (js "card-1")) in
  let deleted := Editor.after (Editor.handleDeleteCard working_api drawing_browser
                                 (js "card-1") c) in
  let run := Editor.handleSaveCard working_api drawing_browser deleted in
  Editor.ending run = Ok tt /\
  Editor.saveSuccess (Editor.after run) = true /\
  savedCards (Editor.app (Editor.after run)) = [private_card].
Proof.
  intros c deleted run.
  destruct (@save_after_deleting_the_edited_card working_api drawing_browser c
              (js "jane") (js "card-1") (js "data:image/jpeg;base64,CCCC")
              eq_refl eq_refl eq_refl eq_refl (fun _ => eq_refl) eq_refl eq_refl)
    as (Hend & Hflag & Hcards & _).
  split; [exact Hend|]. split; [exact Hflag|]. exact Hcards.
Defined.

Lemma handleTogglePrivacy_twice_witness :
  let once := Editor.after (Editor.handleTogglePrivacy working_api (js "card-1")
                              (jane None)) in
  map SavedCard.isPublic (savedCards (Editor.app once)) = [false; false] /\
  Editor.after (Editor.handleTogglePrivacy working_api (js "card-1") once) = jane None.
Proof.
  intros once. split; [reflexivity|].
  exact (proj1 (@handleTogglePrivacy_twice working_api (js "card-1") (js "jane")
                  (jane None) eq_refl (fun _ => eq_refl))).
Defined.

Lemma card_made_private_is_not_shared_witness :
  let once := Editor.after (Editor.handleTogglePrivacy working_api (js "card-1")
                              (jane None)) in
  handleShareCardFromHub model_platform clipboard_only (app_at []) (Editor.app once)
    (js "card-1") =
  ([alert (js "This card is private. Please make it public before sharing.")], Ok tt).
Proof.
  exact (proj2 (@card_made_private_is_not_shared working_api (js "card-1") (js "jane")
                  (jane None) public_card model_platform clipboard_only (app_at [])
                  eq_refl eq_refl eq_refl eq_refl)).
Defined.

Lemma new_card_is_public_and_shareable_witness :
  let after := Editor.after (Editor.handleSaveCard working_api drawing_browser
                               (jane None)) in
  map SavedCard.id (savedCards (Editor.app after)) =
    [js "card-1"; js "card-2"; js "card-3"] /\
  editingCardId (Editor.app after) = Some (js "card-3") /\
  handleShareCardFromHub model_platform clipboard_only (app_at []) (Editor.app after)
    (js "card-3") =
  createAndShareLink model_platform clipboard_only (app_at []) (on_screen (jane None)).
Proof.
  intros after.
  assert (Hfresh : forall card, In card (savedCards (Editor.app (jane None))) ->
                                SavedCard.id card <> Editor.randomUUID drawing_browser).
  { intros card [<-|[<-|[]]]; discriminate. }
  assert (Hnew : forall cardId, editingCardId (Editor.app (jane None)) = Some cardId ->
                                cardId = [])
    by (intros cardId H; discriminate H).
  destruct (@new_card_is_public_and_shareable working_api drawing_browser (jane None)
              (js "jane") (js "data:image/jpeg;base64,CCCC")
              model_platform clipboard_only (app_at [])
              Hnew eq_refl eq_refl eq_refl eq_refl Hfresh)
    as (_ & Hid & _ & Hshare).
  split; [reflexivity|]. split; [exact Hid|exact Hshare].
Defined.

Lemma update_keeps_ids_and_privacy_witness :
  let c := jane (Some (js "card-1")) in
  let after := Editor.after (Editor.handleSaveCard working_api drawing_browser c) in
  map SavedCard.id (savedCards (Editor.app after)) = [js "card-1"; js "card-2"] /\
  map SavedCard.isPublic (savedCards (Editor.app after)) = [true; false] /\
  editingCardId (Editor.app after) = Some (js "card-1").
Proof.
  exact (@update_keeps_ids_and_privacy working_api drawing_browser
           (jane (Some (js "card-1"))) (js "card-1") eq_refl eq_refl).
Defined.

Lemma saved_card_is_what_is_shared_witness :
  let c := jane None in
  let after := Editor.after (Editor.handleSaveCard working_api drawing_browser c) in
  Editor.saveSuccess after = true /\
  getDataForSharing (Editor.app after) = on_screen c.
Proof.
  intros c after.
  assert (Hfresh : forall card, In card (savedCards (Editor.app c)) ->
                                SavedCard.id card <> Editor.randomUUID drawing_browser).
  { intros card [<-|[<-|[]]]; discriminate. }
  destruct (@saved_card_is_what_is_shared working_api drawing_browser c
              (js "jane") (js "data:image/jpeg;base64,CCCC")
              eq_refl eq_refl eq_refl (fun _ => eq_refl) Hfresh)
    as (Hflag & _ & _ & Hshared).
  split; [exact Hflag|exact Hshared].
Defined.

Lemma edit_then_save_keeps_the_cards_witness :
  let opened := Editor.after (Editor.handleEditCard (js "card-2") (jane None)) in
  let after := Editor.after (Editor.handleSaveCard working_api drawing_browser opened) in
  theme (Editor.app opened) = Midnight /\
  map data_of (savedCards (Editor.app after)) = [data_of public_card; data_of private_card] /\
  map SavedCard.isPublic (savedCards (Editor.app after)) = [true; false].
Proof.
  intros opened after.
  assert (Hnd : NoDup (map SavedCard.id (savedCards (Editor.app (jane None))))).
  { constructor; [intros [H|[]]; discriminate H|].
    constructor; [intros []|constructor]. }
  destruct (@edit_then_save_keeps_the_cards working_api drawing_browser (jane None)
              (js "jane") (js "card-2") (js "data:image/jpeg;base64,CCCC") private_card
              Hnd eq_refl eq_refl eq_refl eq_refl eq_refl (fun _ => eq_refl))
    as (_ & _ & Hdata & Hprivacy).
  split; [reflexivity|]. split; [exact Hdata|exact Hprivacy].
Defined.

Lemma downloaded_file_name_witness :
  BusinessCardData.name (cardData (Editor.app (jane None))) = js "Jane Doe" /\
  In (Editor.download (js "data:image/png;base64,CCCC") (js "Jane_Doe_business_card.png"))
     (Editor.calls (Editor.handleDownload drawing_browser (jane None))) /\
  forallb (fun ch => negb (is_white_space ch)) (js "Jane_Doe_business_card.png") = true.
Proof.
  assert (Hin : In (Editor.download (js "data:image/png;base64,CCCC")
                      (js "Jane_Doe_business_card.png"))
                   (Editor.calls (Editor.handleDownload drawing_browser (jane None))))
    by (right; left; reflexivity).
  split; [reflexivity|]. split; [exact Hin|].
  destruct (@downloaded_file_name drawing_browser (jane None)
              (js "data:image/png;base64,CCCC") (js "Jane_Doe_business_card.png") Hin)
    as (_ & _ & Hclean & _).
  exact Hclean.
Defined.

Lemma bio_is_kept_when_the_use_is_not_recorded_witness :
  let run := Editor.handleGenerateBio api_without_metadata (jane None) in
  bio_of (Editor.after run) = js "Builds and ships." /\
  ai_uses (Editor.after run) = Some 3%Z /\
  In (Editor.window_alert ko_ai_failed) (Editor.calls run).
Proof.
  intros run.
  destruct (@bio_is_kept_when_the_use_is_not_recorded api_without_metadata (jane None)
              (js "jane") (js "Builds and ships.") jane_metadata
              (Error (js "storage is full"))
              eq_refl eq_refl eq_refl eq_refl eq_refl eq_refl)
    as (Hbio & Hmeta & Hcalls & _).
  split; [exact Hbio|]. split.
  - unfold ai_uses. fold run in Hmeta. rewrite Hmeta. reflexivity.
  - fold run in Hcalls. rewrite Hcalls. right. right. right. left. reflexivity.
Defined.

Lemma busy_stays_when_the_picture_fails_witness :
  let save := Editor.handleSaveCard working_api blind_browser (jane None) in
  banner_thumbnail (cardData (Editor.app (jane None))) = None /\
  Editor.ending save = Throw DOMException /\
  Editor.isExporting (Editor.after save) = true /\
  savedCards (Editor.app (Editor.after save)) = [public_card; private_card].
Proof.
  intros save. split; [reflexivity|].
  destruct (@busy_stays_when_the_picture_fails working_api blind_browser (jane None)
              DOMException eq_refl (fun _ => eq_refl) eq_refl)
    as (Hend & Hbusy & _ & Happ & _).
  split; [exact Hend|]. split; [exact Hbusy|].
  fold save in Happ. now rewrite Happ.
Defined.
